(** * Cortex Analyst chat application (src/demo.py): shallow embedding

    The application is one Streamlit script.  Every user event re-executes
    [main] from the top against the session state kept by the toolkit.  The
    embedding follows the script function by function:

    - Python values (JSON data, messages, session entries) are [pyval];
    - [st.session_state] is a finite map from attribute names to values;
    - the script is written in a small state-and-exception monad [M] whose
      state [appstate] carries the session state, the [st.cache_data] store, the
      log of calls made to the analyst API and to the warehouse, the elements
      rendered so far in the current run and the widget values of the run;
    - Python compares objects by identity with [is]; the identity of the
      objects [st.cache_data] returns is kept apart, in [result_object];
    - the hosted services and library routines the script calls (the analyst
      endpoint, [json.loads], [session.sql], pandas column selection, Python's
      [repr] of strings and floats) are fields of an [environment] over which
      all definitions and theorems are parametric. *)

From Stdlib Require Import ZArith Lia Ascii String.
From stdpp Require Import gmap strings list fin_maps pretty.

Set Warnings "-register-all".
Open Scope string_scope.
Open Scope list_scope.
Open Scope nat_scope.

(** ** Python values *)

(** [PFloat] carries the binary64 bit pattern; dictionaries keep insertion
    order and have string keys (JSON objects and the script's literals). *)
Inductive pyval : Type :=
| PNone
| PBool (b : bool)
| PInt (n : Z)
| PFloat (bits : Z)
| PStr (s : string)
| PList (items : list pyval)
| PDict (entries : list (string * pyval)).

Inductive exn : Type :=
| AttributeError (name : string)
| KeyError (key : string)
| TypeError
| JSONDecodeError
| ExternalError (what : string).

(** Outcome of running a piece of the script: normal completion, an
    exception, or the toolkit's stop-and-rerun signal raised by [st.rerun()]. *)
Inductive outcome (A : Type) : Type :=
| Done (a : A)
| Raised (e : exn)
| RerunSignal.
Arguments Done {A} a.
Arguments Raised {A} e.
Arguments RerunSignal {A}.

(** [d[k]] for a string key. *)
Fixpoint dict_lookup (k : string) (entries : list (string * pyval)) : option pyval :=
  match entries with
  | [] => None
  | (k', v) :: rest => if String.eqb k' k then Some v else dict_lookup k rest
  end.

Definition getitem (v : pyval) (k : string) : exn + pyval :=
  match v with
  | PDict entries =>
      match dict_lookup k entries with
      | Some x => inr x
      | None => inl (KeyError k)
      end
  | _ => inl TypeError
  end.

(** [v == "s"] for a string literal [s]. *)
Definition eq_str (v : pyval) (s : string) : bool :=
  match v with
  | PStr t => String.eqb t s
  | _ => false
  end.

(** Truth value of a Python object. *)
Definition truthy (v : pyval) : bool :=
  match v with
  | PNone => false
  | PBool b => b
  | PInt n => negb (n =? 0)%Z
  | PFloat bits => negb ((bits =? 0)%Z || (bits =? 2 ^ 63)%Z)
  | PStr s => negb (String.eqb s "")
  | PList items => negb (Nat.eqb (length items) 0)
  | PDict entries => negb (Nat.eqb (length entries) 0)
  end.

Definition is_None (v : pyval) : bool :=
  match v with
  | PNone => true
  | _ => false
  end.

(** Iterating a [str] yields its code points: a UTF-8 lead byte followed by
    its continuation bytes (those in 128..191). *)
Definition is_continuation (a : ascii) : bool :=
  let n := nat_of_ascii a in (128 <=? n) && (n <? 192).

Fixpoint code_points_aux (cur : string) (s : string) : list string :=
  match s with
  | EmptyString => [cur]
  | String a rest =>
      if is_continuation a
      then code_points_aux (cur +:+ String a EmptyString) rest
      else cur :: code_points_aux (String a EmptyString) rest
  end.

Definition code_points (s : string) : list string :=
  match s with
  | EmptyString => []
  | String a rest => code_points_aux (String a EmptyString) rest
  end.

(** [iter(v)]: the items a [for] loop visits. *)
Definition iter_items (v : pyval) : exn + list pyval :=
  match v with
  | PList items => inr items
  | PDict entries => inr (map (λ kv, PStr kv.1) entries)
  | PStr s => inr (map PStr (code_points s))
  | _ => inl TypeError
  end.

Definition py_len (v : pyval) : exn + Z :=
  match v with
  | PList items => inr (Z.of_nat (length items))
  | PDict entries => inr (Z.of_nat (length entries))
  | PStr s => inr (Z.of_nat (length (code_points s)))
  | _ => inl TypeError
  end.


(** ** External interfaces *)

Record request : Type := mkRequest {
  req_method : string;
  req_path : string;
  req_headers : pyval;
  req_params : pyval;
  req_body : pyval;
  req_guid : pyval;
  req_timeout : Z }.

(** The reply of [_snowflake.send_snow_api_request]: [resp["status"]] and
    [resp["content"]]. *)
Record response : Type := mkResponse {
  status : Z;
  content : string }.

Record DataFrame : Type := mkDataFrame {
  columns : list string;
  rows : list (list pyval) }.

(** [df.empty]: some axis has length zero. *)
Definition df_empty (df : DataFrame) : bool :=
  Nat.eqb (length (columns df)) 0 || Nat.eqb (length (rows df)) 0.

(** What [session.sql(query).to_pandas()] does: a table, a
    [SnowparkSQLException] with its [str], or some other exception. *)
Inductive sql_outcome : Type :=
| SqlTable (df : DataFrame)
| SqlException (text : string)
| SqlOtherFailure (e : exn).

(** The collaborators of the script.  The two services answer as a function
    of the number of calls made before, so that they may answer the same
    request differently at different times.  The analyst endpoint always
    hands back a reply with a status and a body; [json_loads] yields [None]
    where [json.loads] raises its decode error; [set_index_getitem] is the
    exception, if any, of [df.set_index(x)[y]]; [repr_str] and [float_str]
    are Python's [repr] of a [str] and of a [float]. *)
Record environment : Type := mkEnvironment {
  send_snow_api_request : nat → request → response;
  json_loads : string → option pyval;
  session_sql : nat → string → sql_outcome;
  set_index_getitem : DataFrame → option string → option string → option exn;
  repr_str : string → string;
  float_str : Z → string }.

(** ** Rendered elements and widget values *)

Inductive ui_event : Type :=
| Title (text : string)
| Markdown (body : pyval)
| Divider
| Button (label : pyval) (key : string)
| Selectbox (label : string) (options : list string) (key : string)
| ChatInput (placeholder : string)
| ChatMessage (role : pyval)
| Spinner (text : string)
| Toast (text icon : string)
| Expander (label : string) (expanded : bool)
| Code (text language : string)
| ErrorBox (text : string)
| Write (text : string)
| Tabs (labels : list string)
| Dataframe (df : DataFrame)
| LineChart (df : DataFrame) (x y : option string)
| BarChart (df : DataFrame) (x y : option string).

(** The values the widgets hand to the script during one run: the text
    submitted in the chat box, which buttons were clicked (by key, or by
    label for a button without key), the current choice of each select box,
    and whether the semantic-model selector was changed (which fires its
    [on_change] callback before the run). *)
Record widget_values : Type := mkWidgets {
  chat_input_value : option string;
  button_clicked : string → bool;
  selectbox_value : string → list string → option string;
  model_changed : bool }.

(** ** Application state *)

Definition query_result : Type := option DataFrame * option string.

Record appstate : Type := mkApp {
  session_state : gmap string pyval;
  cache_data : gmap string query_result;
  api_log : list request;
  sql_log : list string;
  screen : list ui_event;
  widgets : widget_values }.

Definition with_session (f : gmap string pyval → gmap string pyval)
    (a : appstate) : appstate :=
  mkApp (f (session_state a)) (cache_data a) (api_log a) (sql_log a) (screen a) (widgets a).

Definition with_cache (f : gmap string query_result → gmap string query_result)
    (a : appstate) : appstate :=
  mkApp (session_state a) (f (cache_data a)) (api_log a) (sql_log a) (screen a) (widgets a).

Definition with_api_log (f : list request → list request) (a : appstate) : appstate :=
  mkApp (session_state a) (cache_data a) (f (api_log a)) (sql_log a) (screen a) (widgets a).

Definition with_sql_log (f : list string → list string) (a : appstate) : appstate :=
  mkApp (session_state a) (cache_data a) (api_log a) (f (sql_log a)) (screen a) (widgets a).

Definition with_screen (f : list ui_event → list ui_event) (a : appstate) : appstate :=
  mkApp (session_state a) (cache_data a) (api_log a) (sql_log a) (f (screen a)) (widgets a).

(** ** The script monad *)

Definition M (A : Type) : Type := appstate → outcome A * appstate.

#[global] Instance M_ret : MRet M := λ A x a, (Done x, a).

#[global] Instance M_bind : MBind M := λ A B f m a,
  match m a with
  | (Done x, a') => f x a'
  | (Raised e, a') => (Raised e, a')
  | (RerunSignal, a') => (RerunSignal, a')
  end.

Definition raise {A} (e : exn) : M A := λ a, (Raised e, a).

Definition pass : M unit := mret tt.

Definition lift {A} (r : exn + A) : M A :=
  match r with
  | inl e => raise e
  | inr x => mret x
  end.

(** [st.rerun()] *)
Definition st_rerun {A} : M A := λ a, (RerunSignal, a).

Definition emit (ev : ui_event) : M unit :=
  λ a, (Done tt, with_screen (λ evs, evs ++ [ev]) a).

(** [st.session_state.name] *)
Definition get_attr (name : string) : M pyval := λ a,
  match session_state a !! name with
  | Some v => (Done v, a)
  | None => (Raised (AttributeError name), a)
  end.

(** [st.session_state.name = v] and [st.session_state["name"] = v] *)
Definition set_attr (name : string) (v : pyval) : M unit :=
  λ a, (Done tt, with_session (insert name v) a).

(** [st.session_state.get("name")] *)
Definition session_get (name : string) : M pyval := λ a,
  match session_state a !! name with
  | Some v => (Done v, a)
  | None => (Done PNone, a)
  end.

(** ["name" in st.session_state] *)
Definition session_has (name : string) : M bool := λ a,
  (Done (bool_decide (is_Some (session_state a !! name))), a).

(** [st.session_state.messages.append(m)]: the list object held by the
    session is extended in place. *)
Definition messages_append (m : pyval) : M unit :=
  v ← get_attr "messages";
  match v with
  | PList items => set_attr "messages" (PList (items ++ [m]))
  | _ => raise (AttributeError "append")
  end.

Fixpoint for_each {A} (xs : list A) (body : A → M unit) : M unit :=
  match xs with
  | [] => mret tt
  | x :: rest => body x;; for_each rest body
  end.

Fixpoint for_enumerate_from {A} (i : Z) (xs : list A) (body : Z → A → M unit) : M unit :=
  match xs with
  | [] => mret tt
  | x :: rest => body i x;; for_enumerate_from (i + 1) rest body
  end.

Definition for_enumerate {A} (xs : list A) (body : Z → A → M unit) : M unit :=
  for_enumerate_from 0 xs body.

(** ** Toolkit calls

    Each call appends the element it draws to [screen]; a widget also
    returns the value the user gave it.  Layout-only calls ([st.sidebar],
    [st.columns], [time.sleep]) draw nothing and read nothing; they are left
    out.  Of the keyed widgets only the semantic-model selector is read back
    through the session state, so it is the only one whose session entry is
    written.  The calls are taken to succeed: the toolkit's own rejections
    (such as two widgets with one key) are not part of the model. *)

Definition st_title (text : string) : M unit := emit (Title text).
Definition st_markdown (body : pyval) : M unit := emit (Markdown body).
Definition st_divider : M unit := emit Divider.
Definition st_chat_message (role : pyval) : M unit := emit (ChatMessage role).
Definition st_spinner (text : string) : M unit := emit (Spinner text).
Definition st_toast (text icon : string) : M unit := emit (Toast text icon).
Definition st_expander (label : string) (expanded : bool) : M unit :=
  emit (Expander label expanded).
Definition st_code (text language : string) : M unit := emit (Code text language).
Definition st_error (text : string) : M unit := emit (ErrorBox text).
Definition st_write (text : string) : M unit := emit (Write text).
Definition st_tabs (labels : list string) : M unit := emit (Tabs labels).
Definition st_dataframe (df : DataFrame) : M unit := emit (Dataframe df).
Definition st_line_chart (df : DataFrame) (x y : option string) : M unit :=
  emit (LineChart df x y).
Definition st_bar_chart (df : DataFrame) (x y : option string) : M unit :=
  emit (BarChart df x y).

Definition read_widgets : M widget_values := λ a, (Done (widgets a), a).

Definition st_button (label : pyval) (key : string) : M bool :=
  emit (Button label key);;
  w ← read_widgets;
  mret (button_clicked w key).

Definition st_selectbox (label : string) (options : list string) (key : string)
  : M (option string) :=
  emit (Selectbox label options key);;
  w ← read_widgets;
  mret (selectbox_value w key options).

(** [st.chat_input]: the submitted text, or [None]. *)
Definition st_chat_input (placeholder : string) : M pyval :=
  emit (ChatInput placeholder);;
  w ← read_widgets;
  mret (from_option PStr PNone (chat_input_value w)).

(** [@st.cache_data]: the wrapped function runs only when its argument has
    no stored result; a result it returns is stored, an exception is not. *)
Definition st_cache_data (f : string → M query_result) (arg : string) : M query_result :=
  λ a,
    match cache_data a !! arg with
    | Some r => (Done r, a)
    | None =>
        match f arg a with
        | (Done r, a') => (Done r, with_cache (insert arg r) a')
        | other => other
        end
    end.



(** ** The script *)

Definition AVAILABLE_SEMANTIC_MODELS_PATHS : list string :=
  ["IA_CORTEX.CORTEX_SCHEMA.RAW_DATA/elden_modelo_semantico.yaml"].
Definition API_ENDPOINT : string := "/api/v2/cortex/analyst/message".
Definition API_TIMEOUT : Z := 50000.

Definition WELCOME : string :=
  "¡Bienvenido a Cortex Analyst! Escribe tus preguntas a continuación para interactuar con tus datos. ".
Definition BOOTSTRAP_PROMPT : string := "¿Que pregunta quieres hacer?".
Definition LINE_CHART_OPTION : string := "Grafico Lineal 📈".
Definition BAR_CHART_OPTION : string := "Grafico Barras 📊".

Section Script.

Variable env : environment.

(** [repr(v)] and [str(v)], as used by f-string interpolation. *)
Fixpoint py_repr (v : pyval) : string :=
  match v with
  | PNone => "None"
  | PBool true => "True"
  | PBool false => "False"
  | PInt n => pretty n
  | PFloat bits => float_str env bits
  | PStr s => repr_str env s
  | PList items => "[" +:+ String.concat ", " (map py_repr items) +:+ "]"
  | PDict entries =>
      "{" +:+ String.concat ", "
                (map (λ '(k, x), repr_str env k +:+ ": " +:+ py_repr x) entries)
          +:+ "}"
  end.

Definition py_str (v : pyval) : string :=
  match v with
  | PStr s => s
  | _ => py_repr v
  end.

Definition reset_session_state : M unit :=
  set_attr "messages" (PList []);;
  set_attr "active_suggestion" PNone.

Definition handle_error_notifications : M unit :=
  flag ← session_get "fire_API_error_notify";
  if truthy flag then
    st_toast "An API error has occured!" "🚨";;
    set_attr "fire_API_error_notify" (PBool false)
  else pass.

(** The f-string of [get_analyst_response]. *)
Definition error_message (code : Z) (request_id error_code message : pyval) : string :=
  "
🚨 An Analyst API error has occurred 🚨

* response code: `" +:+ pretty code +:+ "`
* request-id: `" +:+ py_str request_id +:+ "`
* error code: `" +:+ py_str error_code +:+ "`

Message:
```
" +:+ py_str message +:+ "
```
        ".

Definition call_api (req : request) : M response :=
  λ a, (Done (send_snow_api_request env (length (api_log a)) req),
        with_api_log (λ l, l ++ [req]) a).

Definition request_body (messages model : pyval) : pyval :=
  PDict [("messages", messages);
         ("semantic_model_file", PStr ("@" +:+ py_str model))].

Definition analyst_request (messages model : pyval) : request :=
  mkRequest "POST" API_ENDPOINT (PDict []) (PDict [])
            (request_body messages model) PNone API_TIMEOUT.

Definition get_analyst_response (messages : pyval) : M (pyval * option string) :=
  model ← get_attr "selected_semantic_model_path";
  resp ← call_api (analyst_request messages model);
  parsed_content ←
    match json_loads env (content resp) with
    | Some v => mret v
    | None => raise JSONDecodeError
    end;
  if (status resp <? 400)%Z then mret (parsed_content, None)
  else
    request_id ← lift (getitem parsed_content "request_id");
    error_code ← lift (getitem parsed_content "error_code");
    message ← lift (getitem parsed_content "message");
    mret (parsed_content,
          Some (error_message (status resp) request_id error_code message)).

Definition run_query (query : string) : M query_result :=
  λ a,
    let a' := with_sql_log (λ l, l ++ [query]) a in
    match session_sql env (length (sql_log a)) query with
    | SqlTable df => (Done (Some df, None), a')
    | SqlException text => (Done (None, Some text), a')
    | SqlOtherFailure e => (Raised e, a')
    end.

Definition get_query_exec_result : string → M query_result :=
  st_cache_data run_query.


(** [{x_col}] *)
Definition chosen (x : option string) : gset string :=
  match x with
  | Some c => {[ c ]}
  | None => ∅
  end.

Definition display_charts_tab (df : DataFrame) (message_index : Z) : M unit :=
  if 2 <=? length (columns df) then
    let all_cols_set : gset string := list_to_set (columns df) in
    x_col ← st_selectbox "Eje X" (elements all_cols_set)
                         ("x_col_select_" +:+ pretty message_index);
    y_col ← st_selectbox "Eje Y" (elements (all_cols_set ∖ chosen x_col))
                         ("y_col_select_" +:+ pretty message_index);
    chart_type ← st_selectbox "Select chart type"
                              [LINE_CHART_OPTION; BAR_CHART_OPTION]
                              ("chart_type_" +:+ pretty message_index);
    if bool_decide (chart_type = Some LINE_CHART_OPTION) then
      match set_index_getitem env df x_col y_col with
      | Some e => raise e
      | None => st_line_chart df x_col y_col
      end
    else if bool_decide (chart_type = Some BAR_CHART_OPTION) then
      match set_index_getitem env df x_col y_col with
      | Some e => raise e
      | None => st_bar_chart df x_col y_col
      end
    else pass
  else st_write "Al menos 2 columnas requeridas".

Definition display_sql_query (sql : string) (message_index : Z) : M unit :=
  st_expander "SQL Query" false;;
  st_code sql "sql";;
  st_expander "Resultados" true;;
  st_spinner "Corriendo consulta SQL...";;
  '(df, err_msg) ← get_query_exec_result sql;
  match df with
  | None =>
      st_error ("Could not execute generated SQL query. Error: "
                +:+ from_option id "None" err_msg)
  | Some df =>
      if df_empty df then st_write "Query returned no data"
      else
        st_tabs ["Datos 📄"; "Grafico 📈 "];;
        st_dataframe df;;
        display_charts_tab df message_index
  end.

(** The generated statement reaches [st.code] and [session.sql], which take
    a [str]; a statement of another type ends the run with a type error. *)
Definition display_message (content : pyval) (message_index : Z) : M unit :=
  items ← lift (iter_items content);
  for_each items (λ item,
    type ← lift (getitem item "type");
    if eq_str type "text" then
      text ← lift (getitem item "text");
      st_markdown text
    else if eq_str type "suggestions" then
      suggestions ← lift (getitem item "suggestions");
      suggestions ← lift (iter_items suggestions);
      for_enumerate suggestions (λ (suggestion_index : Z) suggestion,
        clicked ← st_button suggestion
                    ("suggestion_" +:+ pretty message_index +:+ "_"
                     +:+ pretty suggestion_index);
        if (clicked : bool) then set_attr "active_suggestion" suggestion else pass)
    else if eq_str type "sql" then
      statement ← lift (getitem item "statement");
      match statement with
      | PStr sql => display_sql_query sql message_index
      | _ => raise TypeError
      end
    else pass).

Definition display_conversation : M unit :=
  messages ← get_attr "messages";
  messages ← lift (iter_items messages);
  for_enumerate messages (λ idx message,
    role ← lift (getitem message "role");
    content ← lift (getitem message "content");
    st_chat_message role;;
    display_message content idx).

Definition new_user_message (prompt : pyval) : pyval :=
  PDict [("role", PStr "user");
         ("content", PList [PDict [("type", PStr "text"); ("text", prompt)]])].

(** The two shapes of [analyst_message]. *)
Definition analyst_reply (content request_id : pyval) : pyval :=
  PDict [("role", PStr "analyst");
         ("content", content);
         ("request_id", request_id)].

Definition analyst_error_reply (error_msg : string) (request_id : pyval) : pyval :=
  PDict [("role", PStr "analyst");
         ("content", PList [PDict [("type", PStr "text"); ("text", PStr error_msg)]]);
         ("request_id", request_id)].

Definition process_user_input (prompt : pyval) : M unit :=
  messages_append (new_user_message prompt);;
  st_chat_message (PStr "user");;
  messages ← get_attr "messages";
  n ← lift (py_len messages);
  let user_msg_index := (n - 1)%Z in
  content ← lift (getitem (new_user_message prompt) "content");
  display_message content user_msg_index;;
  st_chat_message (PStr "analyst");;
  st_spinner "Esperando la respuesta del Analista...";;
  messages ← get_attr "messages";
  '(response, error_msg) ← get_analyst_response messages;
  analyst_message ←
    match error_msg with
    | None =>
        message ← lift (getitem response "message");
        content ← lift (getitem message "content");
        request_id ← lift (getitem response "request_id");
        mret (analyst_reply content request_id)
    | Some error_msg =>
        request_id ← lift (getitem response "request_id");
        let analyst_message := analyst_error_reply error_msg request_id in
        set_attr "fire_API_error_notify" (PBool true);;
        mret analyst_message
    end;
  messages_append analyst_message;;
  st_rerun.

Definition handle_user_inputs : M unit :=
  user_input ← st_chat_input "¿Cual es tu pregunta?";
  if truthy user_input then process_user_input user_input
  else
    active ← get_attr "active_suggestion";
    if negb (is_None active) then
      suggestion ← get_attr "active_suggestion";
      set_attr "active_suggestion" PNone;;
      process_user_input suggestion
    else pass.

Definition show_header_and_sidebar : M unit :=
  st_title "Cortex Analyst";;
  st_markdown (PStr WELCOME);;
  model ← st_selectbox "Modelo Semantico seleccionado:"
                       AVAILABLE_SEMANTIC_MODELS_PATHS
                       "selected_semantic_model_path";
  set_attr "selected_semantic_model_path" (from_option PStr PNone model);;
  st_divider;;
  clicked ← st_button (PStr "Limpiar historial de chat") "Limpiar historial de chat";
  if (clicked : bool) then reset_session_state else pass.

Definition main : M unit :=
  has_messages ← session_has "messages";
  (if (has_messages : bool) then pass else reset_session_state);;
  show_header_and_sidebar;;
  messages ← get_attr "messages";
  n ← lift (py_len messages);
  (if (n =? 0)%Z then process_user_input (PStr BOOTSTRAP_PROMPT) else pass);;
  display_conversation;;
  handle_user_inputs;;
  handle_error_notifications.

(** One execution of the script by the toolkit for the widget values [w]:
    the page is cleared, a changed model selector fires its [on_change]
    callback, then [main] runs. *)
Definition script_run (w : widget_values) : M unit :=
  λ a,
    let a0 := mkApp (session_state a) (cache_data a) (api_log a) (sql_log a) [] w in
    ((if model_changed w then reset_session_state else pass);; main) a0.

End Script.

(** ** Vocabulary of the statements *)

(** What [process_user_input] makes of a parsed reply: the analyst message
    it appends and whether it raises the notification flag, or the lookup
    error that ends the turn. *)
Definition interpret_reply (env : environment) (resp : response) (body : pyval)
  : exn + (pyval * bool) :=
  if (status resp <? 400)%Z then
    match getitem body "message" with
    | inl e => inl e
    | inr message =>
        match getitem message "content" with
        | inl e => inl e
        | inr content =>
            match getitem body "request_id" with
            | inl e => inl e
            | inr request_id => inr (analyst_reply content request_id, false)
            end
        end
    end
  else
    match getitem body "request_id" with
    | inl e => inl e
    | inr request_id =>
        match getitem body "error_code" with
        | inl e => inl e
        | inr error_code =>
            match getitem body "message" with
            | inl e => inl e
            | inr message =>
                inr (analyst_error_reply
                       (error_message env (status resp) request_id error_code message)
                       request_id, true)
            end
        end
    end.

(** The state in which [process_user_input] waits for the analyst: the user
    turn is stored and shown, the request is sent. *)
Definition awaiting (prompt : pyval) (msgs : list pyval) (req : request)
    (a : appstate) : appstate :=
  mkApp (<["messages" := PList (msgs ++ [new_user_message prompt])]> (session_state a))
        (cache_data a) (api_log a ++ [req]) (sql_log a)
        ((((screen a ++ [ChatMessage (PStr "user")]) ++ [Markdown prompt])
            ++ [ChatMessage (PStr "analyst")])
           ++ [Spinner "Esperando la respuesta del Analista..."])
        (widgets a).

Definition has_key (v : pyval) (k : string) : bool :=
  match getitem v k with
  | inr _ => true
  | inl _ => false
  end.

(** A reply that follows the interface of the analyst endpoint: the body is
    JSON; below status 400 it carries [message.content] and [request_id],
    from 400 on it carries [request_id], [error_code] and [message]. *)
Definition well_formed_reply (env : environment) (resp : response) : bool :=
  match json_loads env (content resp) with
  | None => false
  | Some body =>
      if (status resp <? 400)%Z then
        match getitem body "message" with
        | inr message => has_key message "content" && has_key body "request_id"
        | inl _ => false
        end
      else has_key body "request_id" && has_key body "error_code"
           && has_key body "message"
  end.


(** The keys the error path reads, in the order it reads them, and the
    first of them a dictionary lacks. *)
Definition ERROR_KEYS : list string := ["request_id"; "error_code"; "message"].

Definition first_missing (entries : list (string * pyval)) : option string :=
  find (λ k, negb (has_key (PDict entries) k)) ERROR_KEYS.

Definition is_analyst_turn (t : pyval) : Prop :=
  getitem t "role" = inr (PStr "analyst").

(** Inputs processed one after the other, each by [process_user_input]. *)
Definition submit_all (env : environment) (prompts : list pyval) (a : appstate) : appstate :=
  foldl (λ a prompt, (process_user_input env prompt a).2) a prompts.

(** The turns of a conversation: each input followed by its reply. *)
Definition conversation (prompts replies : list pyval) : list pyval :=
  concat (zip_with (λ p r, [new_user_message p; r]) prompts replies).

(** Successive executions of the script, one per user event. *)
Definition run_session (env : environment) (events : list widget_values)
    (a : appstate) : appstate :=
  foldl (λ a w, (script_run env w a).2) a events.

Definition CLEAR_BUTTON : string := "Limpiar historial de chat".

(** An event that resets the session: the model selector was changed or
    the clear-history button was clicked. *)
Definition resets (w : widget_values) : bool :=
  model_changed w || button_clicked w CLEAR_BUTTON.

(** The state once the header and the sidebar are drawn and the clear
    button was not clicked. *)
Definition header_shown (a : appstate) : appstate :=
  mkApp (<["selected_semantic_model_path" :=
             from_option PStr PNone
               (selectbox_value (widgets a) "selected_semantic_model_path"
                                AVAILABLE_SEMANTIC_MODELS_PATHS)]> (session_state a))
        (cache_data a) (api_log a) (sql_log a)
        (((((screen a ++ [Title "Cortex Analyst"])
              ++ [Markdown (PStr WELCOME)])
             ++ [Selectbox "Modelo Semantico seleccionado:"
                           AVAILABLE_SEMANTIC_MODELS_PATHS
                           "selected_semantic_model_path"])
            ++ [Divider])
           ++ [Button (PStr CLEAR_BUTTON) CLEAR_BUTTON])
        (widgets a).

(** A piece of the script that never completes normally: it ends the run
    by an exception or by the rerun signal. *)
Definition ends_run {A} (m : M A) : Prop :=
  ∀ a x, (m a).1 ≠ Done x.

(** Relations between the state before and after a piece of the script. *)
Definition stable {A} (R : appstate → appstate → Prop) (m : M A) : Prop :=
  ∀ a, R a (m a).2.

(** [messages] is only ever extended at its end. *)
Definition grows (a a' : appstate) : Prop :=
  ∀ msgs, session_state a !! "messages" = Some (PList msgs) →
          ∃ more, session_state a' !! "messages" = Some (PList (msgs ++ more)).

(** The history and the selected model are left as they are. *)
Definition same_history (a a' : appstate) : Prop :=
  session_state a' !! "messages" = session_state a !! "messages" ∧
  session_state a' !! "selected_semantic_model_path"
  = session_state a !! "selected_semantic_model_path".

(** [messages] of [a] is [msgs] followed by one exchange per prompt: the
    user turn of the prompt, then an analyst turn. *)
Definition extended_by (a : appstate) (msgs prompts replies : list pyval) : Prop :=
  length replies = length prompts ∧
  Forall is_analyst_turn replies ∧
  session_state a !! "messages" = Some (PList (msgs ++ conversation prompts replies)).

(** What one piece of the script adds to a history [msgs]: nothing, or the
    two turns of one exchange. *)
Definition at_most_one_exchange (msgs : list pyval) (a' : appstate) : Prop :=
  session_state a' !! "messages" = Some (PList msgs) ∨
  ∃ prompt reply,
    is_analyst_turn reply ∧
    session_state a' !! "messages"
    = Some (PList (msgs ++ [new_user_message prompt; reply])).



(** ** Sample collaborators, used to run the script on concrete inputs *)

Definition constant_api (r : response) : nat → request → response := λ _ _, r.

Definition dq : string := String "034" EmptyString.
Definition quoted (s : string) : string := dq +:+ s +:+ dq.

Definition answer_body : string :=
  "{" +:+ quoted "message" +:+ ": {" +:+ quoted "content" +:+ ": [{"
      +:+ quoted "type" +:+ ": " +:+ quoted "text" +:+ ", "
      +:+ quoted "text" +:+ ": " +:+ quoted "Ask about weapons" +:+ "}]}, "
      +:+ quoted "request_id" +:+ ": " +:+ quoted "req-1" +:+ "}".

Definition answer_value : pyval :=
  PDict [("message",
          PDict [("content",
                  PList [PDict [("type", PStr "text");
                                ("text", PStr "Ask about weapons")]])]);
         ("request_id", PStr "req-1")].

Definition error_body : string :=
  "{" +:+ quoted "request_id" +:+ ": " +:+ quoted "req-7" +:+ ", "
      +:+ quoted "error_code" +:+ ": " +:+ quoted "390142" +:+ ", "
      +:+ quoted "message" +:+ ": " +:+ quoted "Invalid semantic model" +:+ "}".

Definition error_value : pyval :=
  PDict [("request_id", PStr "req-7");
         ("error_code", PStr "390142");
         ("message", PStr "Invalid semantic model")].

Definition partial_error_body : string :=
  "{" +:+ quoted "request_id" +:+ ": " +:+ quoted "req-9" +:+ "}".

Definition partial_error_value : pyval := PDict [("request_id", PStr "req-9")].

Definition gateway_page : string := "<html>502 Bad Gateway</html>".

(** A loader that knows the sample bodies and rejects every other text. *)
Definition sample_loads (text : string) : option pyval :=
  dict_lookup text [(answer_body, answer_value);
                    (error_body, error_value);
                    (partial_error_body, partial_error_value)].

Definition sample_table : DataFrame :=
  mkDataFrame ["WEAPON"; "DAMAGE"] [[PStr "Uchigatana"; PInt 115]].

Definition narrow_table : DataFrame :=
  mkDataFrame ["TOTAL"] [[PInt 42]].

Definition sample_sql (n : nat) (query : string) : sql_outcome :=
  if String.eqb query "SELECT WEAPON, DAMAGE FROM WEAPONS" then SqlTable sample_table
  else if String.eqb query "SELECT COUNT(*) AS TOTAL FROM WEAPONS" then SqlTable narrow_table
  else SqlException "SQL compilation error".

Definition sample_env (r : response) : environment :=
  mkEnvironment (constant_api r) sample_loads sample_sql
                (λ _ _ _, None) (λ s, "'" +:+ s +:+ "'") (λ _, "0.0").

(** A service whose first reply is a gateway page and whose later replies
    are answers. *)
Definition flaky_api (n : nat) (req : request) : response :=
  if Nat.eqb n 0 then mkResponse 502 gateway_page else mkResponse 200 answer_body.

Definition flaky_env : environment :=
  mkEnvironment flaky_api sample_loads sample_sql
                (λ _ _ _, None) (λ s, "'" +:+ s +:+ "'") (λ _, "0.0").

(** The only model the selector offers. *)
Definition sample_model : pyval :=
  PStr "IA_CORTEX.CORTEX_SCHEMA.RAW_DATA/elden_modelo_semantico.yaml".

Definition idle_widgets : widget_values :=
  mkWidgets None (λ _, false) (λ _ options, head options) false.

Definition fresh_app : appstate := mkApp ∅ ∅ [] [] [] idle_widgets.

(** A session with one earlier exchange and a selected model. *)
Definition chatting_app : appstate :=
  mkApp (<["selected_semantic_model_path" := sample_model]>
           (<["active_suggestion" := PNone]>
              (<["messages" := PList [new_user_message (PStr BOOTSTRAP_PROMPT);
                                      analyst_reply (PList []) (PStr "req-0")]]> ∅)))
        ∅ [] [] [] idle_widgets.

(** A session whose last analyst turn carries a text, two suggestions and a
    generated statement. *)
Definition rich_content : pyval :=
  PList [PDict [("type", PStr "text"); ("text", PStr "Here is the query")];
         PDict [("type", PStr "suggestions");
                ("suggestions", PList [PStr "Top weapons?"; PStr "Average damage?"])];
         PDict [("type", PStr "sql");
                ("statement", PStr "SELECT WEAPON, DAMAGE FROM WEAPONS")]].

Definition analysed_app : appstate :=
  mkApp (<["selected_semantic_model_path" := sample_model]>
           (<["active_suggestion" := PNone]>
              (<["messages" := PList [new_user_message (PStr "weapons by damage");
                                      analyst_reply rich_content (PStr "req-0")]]> ∅)))
        ∅ [] [] [] idle_widgets.

(** The second suggestion of the message at index 1 is clicked. *)
Definition clicking_widgets : widget_values :=
  mkWidgets None (λ key, String.eqb key "suggestion_1_1") (λ _ options, head options)
            false.

(** The text "hola" is submitted in the chat box. *)
Definition typing_widgets : widget_values :=
  mkWidgets (Some "hola") (λ _, false) (λ _ options, head options) false.

(** ** Vocabulary of the further properties *)

(** The turn was given up after its user turn was stored: the history is
    [history] and the notification flag is as in [a]. *)
Definition user_turn_only (a : appstate) (history : list pyval) (a' : appstate) : Prop :=
  session_state a' !! "messages" = Some (PList history) ∧
  session_state a' !! "fire_API_error_notify"
  = session_state a !! "fire_API_error_notify".

(** A success body without [request_id], and a loader that knows it. *)
Definition headless_body : string :=
  "{" +:+ quoted "message" +:+ ": {" +:+ quoted "content" +:+ ": []}}".

Definition headless_value : pyval :=
  PDict [("message", PDict [("content", PList [])])].

Definition headless_loads (text : string) : option pyval :=
  if String.eqb text headless_body then Some headless_value else sample_loads text.

Definition headless_env : environment :=
  mkEnvironment (constant_api (mkResponse 200 headless_body)) headless_loads sample_sql
                (λ _ _ _, None) (λ s, "'" +:+ s +:+ "'") (λ _, "0.0").

(** A piece of the script that neither calls the analyst endpoint nor asks
    for a rerun. *)
Definition calm {A} (m : M A) : Prop :=
  ∀ a, api_log (m a).2 = api_log a ∧ (m a).1 ≠ RerunSignal.

(** A piece that is calm, or else sends exactly one request and then does
    not complete normally. *)
Definition one_shot {A} (m : M A) : Prop :=
  ∀ a, (api_log (m a).2 = api_log a ∧ (m a).1 ≠ RerunSignal) ∨
       ((∃ req, api_log (m a).2 = api_log a ++ [req]) ∧ ∀ x, (m a).1 ≠ Done x).

(** The part of [main] that follows the header. *)
Definition main_after_header (env : environment) : M unit :=
  messages ← get_attr "messages";
  n ← lift (py_len messages);
  (if (n =? 0)%Z then process_user_input env (PStr BOOTSTRAP_PROMPT) else pass);;
  display_conversation env;;
  handle_user_inputs env;;
  handle_error_notifications.

(** The state in which [main] has drawn the header, in an execution of the
    script for the widget values [w]. *)
Definition header_state (w : widget_values) (a : appstate) : appstate :=
  let a0 := mkApp (session_state a) (cache_data a) (api_log a) (sql_log a) [] w in
  let a1 := if model_changed w then (reset_session_state a0).2 else a0 in
  let a2 := if bool_decide (is_Some (session_state a1 !! "messages")) then a1
            else (reset_session_state a1).2 in
  if button_clicked w CLEAR_BUTTON then (reset_session_state (header_shown a2)).2
  else header_shown a2.

(** The elements every execution draws first. *)
Definition HEADER : list ui_event :=
  [Title "Cortex Analyst";
   Markdown (PStr WELCOME);
   Selectbox "Modelo Semantico seleccionado:" AVAILABLE_SEMANTIC_MODELS_PATHS
             "selected_semantic_model_path";
   Divider;
   Button (PStr CLEAR_BUTTON) CLEAR_BUTTON].

(** No button is clicked. *)
Definition no_clicks (w : widget_values) : Prop :=
  ∀ key, button_clicked w key = false.

(** Only drawing happened: no request, and of the session at most the
    pending suggestion changed, by a click. *)
Definition drawn_only (a a' : appstate) : Prop :=
  widgets a' = widgets a ∧
  api_log a' = api_log a ∧
  (∀ k, k ≠ "active_suggestion" → session_state a' !! k = session_state a !! k) ∧
  (no_clicks (widgets a) → session_state a' = session_state a).

(** Elements are only added to the page. *)
Definition screen_extends (a a' : appstate) : Prop :=
  ∃ drawn, screen a' = screen a ++ drawn.

(** The session attributes the script reads are there, and the history is
    a list. *)
Definition session_ready (a : appstate) : Prop :=
  (∃ msgs, session_state a !! "messages" = Some (PList msgs)) ∧
  is_Some (session_state a !! "active_suggestion") ∧
  is_Some (session_state a !! "selected_semantic_model_path").

(** Readiness, once there, is kept. *)
Definition keeps_ready (a a' : appstate) : Prop :=
  session_ready a → session_ready a'.

(** Every statement sent to the warehouse was sent once and has its result
    stored. *)
Definition run_once (a : appstate) : Prop :=
  NoDup (sql_log a) ∧ ∀ q, q ∈ sql_log a → is_Some (cache_data a !! q).

(** [run_once], once there, is kept. *)
Definition keeps_run_once (a a' : appstate) : Prop := run_once a → run_once a'.

(** A block type [display_message] draws something for. *)
Definition known_type (t : pyval) : bool :=
  eq_str t "text" || eq_str t "suggestions" || eq_str t "sql".

(** A text block holding [text]. *)
Definition is_text_block (block text : pyval) : Prop :=
  getitem block "type" = inr (PStr "text") ∧ getitem block "text" = inr text.

(** A turn of [role] whose content is the text blocks of [texts]. *)
Definition is_text_turn (turn : pyval) (shown : pyval * list pyval) : Prop :=
  getitem turn "role" = inr shown.1 ∧
  ∃ blocks, getitem turn "content" = inr (PList blocks) ∧
            Forall2 is_text_block blocks shown.2.

(** What is drawn for a turn of text blocks. *)
Definition drawn_turn (shown : pyval * list pyval) : list ui_event :=
  ChatMessage shown.1 :: map Markdown shown.2.

(** The key of the button of suggestion [k] in the message at [idx]. *)
Definition suggestion_key (idx k : Z) : string :=
  "suggestion_" +:+ pretty idx +:+ "_" +:+ pretty k.

(** A block of suggested questions. *)
Definition suggestions_block (suggestions : list pyval) : pyval :=
  PDict [("type", PStr "suggestions"); ("suggestions", PList suggestions)].

(** The buttons of a suggestions block, numbered from [i]. *)
Fixpoint suggestion_buttons (idx i : Z) (suggestions : list pyval) : list ui_event :=
  match suggestions with
  | [] => []
  | s :: rest => Button s (suggestion_key idx i) :: suggestion_buttons idx (i + 1) rest
  end.

(** What [display_sql_query] draws before it asks for the result. *)
Definition SQL_FRAME (sql : string) : list ui_event :=
  [Expander "SQL Query" false; Code sql "sql"; Expander "Resultados" true;
   Spinner "Corriendo consulta SQL..."].

(** A select box hands back one of the options it was given, and nothing
    only when it was given none. *)
Definition selects_offered (w : widget_values) : Prop :=
  ∀ key options,
    match selectbox_value w key options with
    | Some c => c ∈ options
    | None => options = []
    end.

(** A warehouse that is out of reach, and one whose tables have no rows. *)
Definition broken_env : environment :=
  mkEnvironment (constant_api (mkResponse 200 answer_body)) sample_loads
                (λ _ _, SqlOtherFailure (ExternalError "connection lost"))
                (λ _ _ _, None) (λ s, "'" +:+ s +:+ "'") (λ _, "0.0").

Definition no_rows_env : environment :=
  mkEnvironment (constant_api (mkResponse 200 answer_body)) sample_loads
                (λ _ _, SqlTable (mkDataFrame ["WEAPON"; "DAMAGE"] []))
                (λ _ _ _, None) (λ s, "'" +:+ s +:+ "'") (λ _, "0.0").

(** * Properties *)

(** ** Running the monad *)

Lemma bind_run {A B} (m : M A) (f : A → M B) (a : appstate) :
  (m ≫= f) a =
  match m a with
  | (Done x, a') => f x a'
  | (Raised e, a') => (Raised e, a')
  | (RerunSignal, a') => (RerunSignal, a')
  end.
Proof. reflexivity. Qed.

Lemma bind_done {A B} (m : M A) (f : A → M B) (a a' : appstate) (x : A) :
  m a = (Done x, a') → (m ≫= f) a = f x a'.
Proof. intros H. rewrite bind_run, H. reflexivity. Qed.

Lemma get_attr_run (name : string) (v : pyval) (a : appstate) :
  session_state a !! name = Some v → get_attr name a = (Done v, a).
Proof. intros H. unfold get_attr. rewrite H. reflexivity. Qed.

Lemma messages_append_run (m : pyval) (items : list pyval) (a : appstate) :
  session_state a !! "messages" = Some (PList items) →
  messages_append m a
  = (Done tt, with_session (insert "messages" (PList (items ++ [m]))) a).
Proof.
  intros H. unfold messages_append.
  rewrite (bind_done _ _ _ _ _ (get_attr_run _ _ _ H)). reflexivity.
Qed.

Ltac sess :=
  cbn [fst snd session_state cache_data api_log sql_log screen widgets
       with_session with_cache with_api_log with_sql_log with_screen];
  repeat first [rewrite lookup_insert_eq | rewrite lookup_insert_ne by done].

Ltac munfold :=
  unfold mbind, M_bind, mret, M_ret, lift, raise, pass, st_rerun, emit,
    get_attr, set_attr, session_get, session_has, read_widgets.

Ltac mrun :=
  repeat (munfold; cbn -[lookup insert];
          repeat first [rewrite lookup_insert_eq | rewrite lookup_insert_ne by done]).

(** ** Substrings *)




(** ** One turn *)

Section Turn.

Variable env : environment.

Lemma display_message_text (text : pyval) (idx : Z) (a : appstate) :
  display_message env (PList [PDict [("type", PStr "text"); ("text", text)]]) idx a
  = (Done tt, with_screen (λ evs, evs ++ [Markdown text]) a).
Proof. reflexivity. Qed.

Lemma get_analyst_response_run (messages model : pyval) (a : appstate) :
  session_state a !! "selected_semantic_model_path" = Some model →
  let req := analyst_request env messages model in
  let resp := send_snow_api_request env (length (api_log a)) req in
  let a' := with_api_log (λ l, l ++ [req]) a in
  get_analyst_response env messages a =
  match json_loads env (content resp) with
  | None => (Raised JSONDecodeError, a')
  | Some body =>
      if (status resp <? 400)%Z then (Done (body, None), a')
      else
        match getitem body "request_id" with
        | inl e => (Raised e, a')
        | inr request_id =>
            match getitem body "error_code" with
            | inl e => (Raised e, a')
            | inr error_code =>
                match getitem body "message" with
                | inl e => (Raised e, a')
                | inr message =>
                    (Done (body, Some (error_message env (status resp) request_id
                                                     error_code message)), a')
                end
            end
        end
  end.
Proof.
  intros Hs req resp a'. unfold get_analyst_response.
  rewrite (bind_done _ _ _ _ _ (get_attr_run _ _ _ Hs)).
  rewrite bind_run. cbn [call_api]. fold req. fold resp. fold a'.
  rewrite bind_run.
  destruct (json_loads env (content resp)) as [body|]; [|reflexivity].
  cbn [mret M_ret].
  destruct (status resp <? 400)%Z; [reflexivity|].
  rewrite !bind_run.
  destruct (getitem body "request_id") as [e|rid]; [reflexivity|]. cbn [lift mret M_ret].
  destruct (getitem body "error_code") as [e|code]; [reflexivity|]. cbn [lift mret M_ret].
  destruct (getitem body "message") as [e|msg]; reflexivity.
Qed.

(** [process_user_input] in one equation: the user turn is stored and the
    request sent whatever happens; the reply decides the rest. *)
Lemma process_user_input_run (prompt : pyval) (a : appstate) (msgs : list pyval) (model : pyval) :
  session_state a !! "messages" = Some (PList msgs) →
  session_state a !! "selected_semantic_model_path" = Some model →
  let req := analyst_request env (PList (msgs ++ [new_user_message prompt])) model in
  let resp := send_snow_api_request env (length (api_log a)) req in
  let a1 := awaiting prompt msgs req a in
  process_user_input env prompt a =
  match json_loads env (content resp) with
  | None => (Raised JSONDecodeError, a1)
  | Some body =>
      match interpret_reply env resp body with
      | inl e => (Raised e, a1)
      | inr (turn, notify) =>
          (RerunSignal,
           with_session
             (insert "messages" (PList ((msgs ++ [new_user_message prompt]) ++ [turn])))
             (if notify
              then with_session (insert "fire_API_error_notify" (PBool true)) a1
              else a1))
      end
  end.
Proof.
  intros Hm Hs req resp a1.
  unfold process_user_input.
  rewrite (bind_done _ _ _ _ _ (messages_append_run _ _ _ Hm)).
  rewrite bind_run. cbn [st_chat_message emit].
  rewrite bind_run. unfold get_attr at 1. sess.
  rewrite bind_run. cbn [lift py_len mret M_ret].
  rewrite bind_run.
  cbn [lift getitem new_user_message dict_lookup String.eqb Ascii.eqb Bool.eqb mret M_ret].
  rewrite bind_run, display_message_text.
  rewrite bind_run. cbn [st_chat_message emit].
  rewrite bind_run. cbn [st_spinner emit].
  rewrite bind_run. unfold get_attr at 1. sess.
  rewrite bind_run, (get_analyst_response_run _ model) by (sess; exact Hs).
  sess. fold (new_user_message prompt). fold req. fold resp.
  change (with_api_log _ _) with a1.
  destruct (json_loads env (content resp)) as [body|]; [|reflexivity].
  unfold interpret_reply.
  destruct (status resp <? 400)%Z.
  - rewrite !bind_run.
    destruct (getitem body "message") as [e|message]; [reflexivity|].
    cbn [lift mret M_ret].
    destruct (getitem message "content") as [e|content]; [reflexivity|].
    cbn [lift mret M_ret].
    destruct (getitem body "request_id") as [e|rid]; [reflexivity|].
    cbn [lift mret M_ret].
    subst a1. unfold messages_append, awaiting. mrun. reflexivity.
  - destruct (getitem body "request_id") as [e|rid] eqn:Hrid; [reflexivity|].
    destruct (getitem body "error_code") as [e|code]; [reflexivity|].
    destruct (getitem body "message") as [e|message]; [reflexivity|].
    subst a1. unfold messages_append, awaiting. mrun. rewrite Hrid. mrun. reflexivity.
Qed.

Lemma well_formed_reply_interpret (resp : response) :
  well_formed_reply env resp = true →
  ∃ body turn notify,
    json_loads env (content resp) = Some body ∧
    interpret_reply env resp body = inr (turn, notify) ∧
    is_analyst_turn turn ∧
    notify = negb (status resp <? 400)%Z.
Proof.
  unfold well_formed_reply, has_key.
  destruct (json_loads env (content resp)) as [body|]; [|done].
  intros H. exists body. unfold interpret_reply.
  destruct (status resp <? 400)%Z.
  - destruct (getitem body "message") as [e|message]; [done|].
    destruct (getitem message "content") as [e|c]; [done|].
    destruct (getitem body "request_id") as [e|rid]; [done|].
    eexists _, _. repeat split; reflexivity.
  - destruct (getitem body "request_id") as [e|rid]; [done|].
    destruct (getitem body "error_code") as [e|code]; [done|].
    destruct (getitem body "message") as [e|message]; [done|].
    eexists _, _. repeat split; reflexivity.
Qed.

Lemma ill_formed_reply_interpret (resp : response) (body : pyval) :
  well_formed_reply env resp = false →
  json_loads env (content resp) = Some body →
  ∃ e, interpret_reply env resp body = inl e.
Proof.
  unfold well_formed_reply, has_key. intros H Hbody. rewrite Hbody in H.
  unfold interpret_reply.
  destruct (status resp <? 400)%Z.
  - destruct (getitem body "message") as [e|message]; [by eexists|].
    destruct (getitem message "content") as [e|c]; [by eexists|].
    destruct (getitem body "request_id") as [e|rid]; [by eexists | done].
  - destruct (getitem body "request_id") as [e|rid]; [by eexists|].
    destruct (getitem body "error_code") as [e|code]; [by eexists|].
    destruct (getitem body "message") as [e|message]; [by eexists | done].
Qed.

(** One input and its own reply: two turns when the reply is well formed,
    the user turn alone when it is not; the model is left as it is. *)
Lemma process_user_input_turns (prompt : pyval) (a : appstate) (msgs : list pyval)
    (model : pyval) :
  session_state a !! "messages" = Some (PList msgs) →
  session_state a !! "selected_semantic_model_path" = Some model →
  let history := msgs ++ [new_user_message prompt] in
  let resp := send_snow_api_request env (length (api_log a))
                                    (analyst_request env (PList history) model) in
  let after := (process_user_input env prompt a).2 in
  (well_formed_reply env resp = true →
   ∃ reply, is_analyst_turn reply ∧
            session_state after !! "messages" = Some (PList (history ++ [reply]))) ∧
  (well_formed_reply env resp = false →
   session_state after !! "messages" = Some (PList history)) ∧
  session_state after !! "selected_semantic_model_path" = Some model ∧
  ∃ more, session_state after !! "messages" = Some (PList (msgs ++ more)).
Proof.
  intros Hm Hs history resp after. subst after.
  rewrite (process_user_input_run prompt a msgs model Hm Hs).
  fold history. fold resp.
  split; [|split; [|split]].
  - intros Hwf.
    destruct (well_formed_reply_interpret resp Hwf)
      as (body & turn & notify & Hb & Hi & Hrole & _).
    rewrite Hb, Hi. exists turn. split; [exact Hrole|]. sess. reflexivity.
  - intros Hill.
    destruct (json_loads env (content resp)) as [body|] eqn:Hb;
      [|unfold awaiting; sess; reflexivity].
    destruct (ill_formed_reply_interpret resp body Hill Hb) as [e Hi].
    rewrite Hi. unfold awaiting; sess. reflexivity.
  - destruct (json_loads env (content resp)) as [body|];
      [|unfold awaiting; sess; exact Hs].
    destruct (interpret_reply env resp body) as [e|[turn [|]]];
      unfold awaiting; sess; exact Hs.
  - destruct (json_loads env (content resp)) as [body|];
      [|exists [new_user_message prompt]; unfold awaiting; sess; reflexivity].
    destruct (interpret_reply env resp body) as [e|[turn [|]]].
    + exists [new_user_message prompt]. unfold awaiting; sess; reflexivity.
    + exists [new_user_message prompt; turn]. sess.
      subst history. by rewrite <- app_assoc.
    + exists [new_user_message prompt; turn]. sess.
      subst history. by rewrite <- app_assoc.
Qed.

End Turn.

(** [process_user_input] always ends the run. *)

Lemma ends_run_rerun {A} : ends_run (@st_rerun A).
Proof. by intros a x. Qed.

Lemma ends_run_bind {A B} (m : M A) (f : A → M B) :
  (∀ x, ends_run (f x)) → ends_run (m ≫= f).
Proof.
  intros Hf a y. rewrite bind_run.
  destruct (m a) as [[x| |] a']; [apply Hf | done | done].
Qed.

Lemma ends_run_absorbs (m : M unit) (f : unit → M unit) (a : appstate) :
  ends_run m → (m ≫= f) a = m a.
Proof.
  intros Hm. rewrite bind_run. specialize (Hm a).
  destruct (m a) as [[x| |] a']; [by destruct (Hm x) | done | done].
Qed.

Lemma process_user_input_ends_run (env : environment) (prompt : pyval) :
  ends_run (process_user_input env prompt).
Proof.
  unfold process_user_input.
  repeat (apply ends_run_bind; intros ?).
  match goal with
  | |- ends_run (let '(_, _) := ?reply in _) => destruct reply as [response error_msg]
  end.
  repeat (apply ends_run_bind; intros ?).
  apply ends_run_rerun.
Qed.

(** ** Replies of the analyst endpoint *)

(** The analyst message [process_user_input] appended, read back from the
    outcome: a turn stands after the user turn exactly when the reply was
    parsed and interpreted. *)
Lemma appended_turn_inv (env : environment) (prompt : pyval) (a : appstate)
    (msgs : list pyval) (model turn : pyval) :
  session_state a !! "messages" = Some (PList msgs) →
  session_state a !! "selected_semantic_model_path" = Some model →
  let history := PList (msgs ++ [new_user_message prompt]) in
  let resp := send_snow_api_request env (length (api_log a))
                                    (analyst_request env history model) in
  session_state (process_user_input env prompt a).2 !! "messages"
  = Some (PList (msgs ++ [new_user_message prompt; turn])) →
  ∃ body notify,
    json_loads env (content resp) = Some body ∧
    interpret_reply env resp body = inr (turn, notify).
Proof.
  intros Hm Hs history resp.
  rewrite (process_user_input_run env prompt a msgs model Hm Hs).
  fold history. fold resp.
  assert (Hshort : ∀ l, Some (PList (msgs ++ [new_user_message prompt]))
                        = Some (PList (msgs ++ [new_user_message prompt; l])) → False).
  { intros l [= Heq]. by apply app_inv_head in Heq. }
  destruct (json_loads env (content resp)) as [body|].
  - destruct (interpret_reply env resp body) as [e|[turn' notify]] eqn:Hi.
    + unfold awaiting. sess. intros Heq. by destruct (Hshort _ Heq).
    + sess. rewrite <- app_assoc. intros [= Heq].
      apply app_inv_head in Heq. injection Heq as <-. by exists body, notify.
  - unfold awaiting. sess. intros Heq. by destruct (Hshort _ Heq).
Qed.

(** C2 — For every reply classified as success (status below 400): the
    analyst turn appended after the user turn has role analyst, as content
    exactly [message.content] of the parsed body and as request id exactly
    its [request_id]; the client returns the parsed body with no error
    message; and a body carrying these two fields does get its turn
    appended. *)
Theorem success_reply_appended (env : environment) (prompt : pyval) (a : appstate)
    (msgs : list pyval) (model : pyval) :
  session_state a !! "messages" = Some (PList msgs) →
  session_state a !! "selected_semantic_model_path" = Some model →
  let history := PList (msgs ++ [new_user_message prompt]) in
  let resp := send_snow_api_request env (length (api_log a))
                                    (analyst_request env history model) in
  let result := process_user_input env prompt a in
  (status resp < 400)%Z →
  (∀ turn,
     session_state result.2 !! "messages"
     = Some (PList (msgs ++ [new_user_message prompt; turn])) →
     ∃ body message blocks request_id,
       json_loads env (content resp) = Some body ∧
       getitem body "message" = inr message ∧
       getitem message "content" = inr blocks ∧
       getitem body "request_id" = inr request_id ∧
       getitem turn "role" = inr (PStr "analyst") ∧
       getitem turn "content" = inr blocks ∧
       getitem turn "request_id" = inr request_id) ∧
  (∀ body,
     json_loads env (content resp) = Some body →
     (get_analyst_response env history a).1 = Done (body, None)) ∧
  (∀ body message blocks request_id,
     json_loads env (content resp) = Some body →
     getitem body "message" = inr message →
     getitem message "content" = inr blocks →
     getitem body "request_id" = inr request_id →
     result.1 = RerunSignal ∧
     session_state result.2 !! "messages"
     = Some (PList (msgs ++ [new_user_message prompt;
                             analyst_reply blocks request_id]))).
Proof.
  intros Hm Hs history resp result Hlt. subst result.
  apply Z.ltb_lt in Hlt. split; [|split].
  - intros turn Hturn.
    destruct (appended_turn_inv env prompt a msgs model turn Hm Hs Hturn)
      as (body & notify & Hbody & Hi).
    fold history in Hbody, Hi. fold resp in Hbody, Hi.
    unfold interpret_reply in Hi. rewrite Hlt in Hi.
    destruct (getitem body "message") as [e|message] eqn:Hmsg; [done|].
    destruct (getitem message "content") as [e|blocks] eqn:Hblocks; [done|].
    destruct (getitem body "request_id") as [e|request_id] eqn:Hrid; [done|].
    injection Hi as <- <-.
    by exists body, message, blocks, request_id.
  - intros body Hbody.
    rewrite (get_analyst_response_run env history model a Hs).
    fold resp. by rewrite Hbody, Hlt.
  - intros body message blocks request_id Hbody Hmsg Hblocks Hrid.
    rewrite (process_user_input_run env prompt a msgs model Hm Hs).
    fold history. fold resp. rewrite Hbody. unfold interpret_reply.
    rewrite Hlt, Hmsg, Hblocks, Hrid. sess.
    by rewrite <- app_assoc.
Qed.

Lemma success_reply_appended_witness :
  let env := sample_env (mkResponse 200 answer_body) in
  let result := process_user_input env (PStr "hola") chatting_app in
  (status (mkResponse 200 answer_body) < 400)%Z ∧
  json_loads env answer_body = Some answer_value ∧
  result.1 = RerunSignal ∧
  session_state result.2 !! "messages"
  = Some (PList [new_user_message (PStr BOOTSTRAP_PROMPT);
                 analyst_reply (PList []) (PStr "req-0");
                 new_user_message (PStr "hola");
                 analyst_reply
                   (PList [PDict [("type", PStr "text");
                                  ("text", PStr "Ask about weapons")]])
                   (PStr "req-1")]).
Proof.
  intros env result.
  assert (Hlt : (status (mkResponse 200 answer_body) < 400)%Z) by (cbn; lia).
  assert (Hbody : json_loads env answer_body = Some answer_value) by reflexivity.
  destruct (success_reply_appended env (PStr "hola") chatting_app
              [new_user_message (PStr BOOTSTRAP_PROMPT);
               analyst_reply (PList []) (PStr "req-0")]
              sample_model
              eq_refl eq_refl Hlt) as (_ & _ & Happend).
  split; [exact Hlt|]. split; [exact Hbody|].
  exact (Happend answer_value
           (PDict [("content",
                    PList [PDict [("type", PStr "text");
                                  ("text", PStr "Ask about weapons")]])])
           (PList [PDict [("type", PStr "text"); ("text", PStr "Ask about weapons")]])
           (PStr "req-1") Hbody eq_refl eq_refl eq_refl).
Defined.






Example error_message_sample :
  error_message (sample_env (mkResponse 400 error_body)) 400
                (PStr "req-7") (PStr "390142") (PStr "Invalid semantic model")
  = "
🚨 An Analyst API error has occurred 🚨

* response code: `400`
* request-id: `req-7`
* error code: `390142`

Message:
```
Invalid semantic model
```
        ".
Proof. reflexivity. Qed.

(** C4, as the script behaves — Processing one input never recovers from a
    reply body that is not JSON: the decode error leaves [process_user_input]
    after the user turn was stored, and neither an error turn nor the
    notification is produced. *)
Lemma unparsable_reply_escapes :
  let env := sample_env (mkResponse 502 gateway_page) in
  let result := process_user_input env (PStr "hola") chatting_app in
  result.1 = Raised JSONDecodeError ∧
  session_state result.2 !! "messages"
  = Some (PList [new_user_message (PStr BOOTSTRAP_PROMPT);
                 analyst_reply (PList []) (PStr "req-0");
                 new_user_message (PStr "hola")]) ∧
  session_state result.2 !! "fire_API_error_notify" = None.
Proof. vm_compute. by repeat split. Qed.

(** C4, amended — When the reply body is JSON and carries the fields read for
    its status, processing one input lets no exception out: it ends with the
    rerun signal, and a reply with status 400 or more is surfaced as an error
    turn together with the notification flag.  When the body is not JSON the
    decode error escapes after the user turn was stored, without error turn
    and without notification; the session stays usable: the history and the
    selected model are intact and the next input is processed as usual. *)
Theorem turn_outcome_by_reply (env : environment) (prompt : pyval) (a : appstate)
    (msgs : list pyval) (model : pyval) :
  session_state a !! "messages" = Some (PList msgs) →
  session_state a !! "selected_semantic_model_path" = Some model →
  let history := msgs ++ [new_user_message prompt] in
  let resp := send_snow_api_request env (length (api_log a))
                                    (analyst_request env (PList history) model) in
  let result := process_user_input env prompt a in
  (well_formed_reply env resp = true →
   result.1 = RerunSignal ∧
   ((400 ≤ status resp)%Z →
    ∃ text request_id,
      session_state result.2 !! "messages"
      = Some (PList (history ++ [analyst_error_reply text request_id])) ∧
      session_state result.2 !! "fire_API_error_notify" = Some (PBool true))) ∧
  (json_loads env (content resp) = None →
   result.1 = Raised JSONDecodeError ∧
   session_state result.2 !! "messages" = Some (PList history) ∧
   session_state result.2 !! "selected_semantic_model_path" = Some model ∧
   session_state result.2 !! "fire_API_error_notify"
   = session_state a !! "fire_API_error_notify" ∧
   ∀ next : pyval,
     well_formed_reply env
       (send_snow_api_request env (length (api_log result.2))
          (analyst_request env (PList (history ++ [new_user_message next])) model))
     = true →
     (process_user_input env next result.2).1 = RerunSignal).
Proof.
  intros Hm Hs history resp result. subst result.
  rewrite (process_user_input_run env prompt a msgs model Hm Hs).
  fold history. fold resp. split.
  - intros Hwf. pose proof Hwf as Hwf'.
    apply well_formed_reply_interpret in Hwf' as (body & turn & notify & Hb & Hi & _ & Hn).
    rewrite Hb, Hi. split; [reflexivity|].
    intros Hge. revert Hi. unfold interpret_reply.
    assert (Hlt : (status resp <? 400)%Z = false) by (apply Z.ltb_ge; lia).
    rewrite Hlt in *. subst notify.
    destruct (getitem body "request_id") as [e|rid]; [done|].
    destruct (getitem body "error_code") as [e|code]; [done|].
    destruct (getitem body "message") as [e|message]; [done|].
    intros [= <-]. eexists _, _. cbn [negb]. sess. by split.
  - intros Hnone. rewrite Hnone. cbn [fst snd].
    set (a1 := awaiting prompt msgs _ a).
    assert (Hm1 : session_state a1 !! "messages" = Some (PList history))
      by (unfold a1, awaiting; sess; reflexivity).
    assert (Hs1 : session_state a1 !! "selected_semantic_model_path" = Some model)
      by (unfold a1, awaiting; sess; exact Hs).
    split; [reflexivity|]. split; [exact Hm1|]. split; [exact Hs1|]. split.
    + unfold a1, awaiting; sess. reflexivity.
    + intros next Hwf.
      rewrite (process_user_input_run env next a1 history model Hm1 Hs1).
      apply well_formed_reply_interpret in Hwf as (body & turn & notify & Hb & Hi & _).
      by rewrite Hb, Hi.
Qed.

Lemma turn_outcome_by_reply_witness :
  let good := sample_env (mkResponse 400 error_body) in
  let bad := sample_env (mkResponse 502 gateway_page) in
  (well_formed_reply good (mkResponse 400 error_body) = true ∧
   (process_user_input good (PStr "hola") chatting_app).1 = RerunSignal) ∧
  (json_loads bad gateway_page = None ∧
   (process_user_input bad (PStr "hola") chatting_app).1 = Raised JSONDecodeError).
Proof.
  intros good bad.
  pose proof (turn_outcome_by_reply good (PStr "hola") chatting_app
                [new_user_message (PStr BOOTSTRAP_PROMPT);
                 analyst_reply (PList []) (PStr "req-0")]
                sample_model
                eq_refl eq_refl) as [Hgood _].
  pose proof (turn_outcome_by_reply bad (PStr "hola") chatting_app
                [new_user_message (PStr BOOTSTRAP_PROMPT);
                 analyst_reply (PList []) (PStr "req-0")]
                sample_model
                eq_refl eq_refl) as [_ Hbad].
  split.
  - split; [reflexivity|]. exact (proj1 (Hgood eq_refl)).
  - split; [reflexivity|]. exact (proj1 (Hbad eq_refl)).
Defined.

(** C10 — On the error path (status 400 or more, body a JSON object) the
    recovered error turn is produced exactly when the body has the keys
    [request_id], [error_code] and [message]; when one is missing the turn
    ends with the unhandled [KeyError] of the first missing key, after the
    user turn was stored, with no analyst turn and no notification. *)
Theorem error_path_requires_keys (env : environment) (prompt : pyval) (a : appstate)
    (msgs : list pyval) (model : pyval) (entries : list (string * pyval)) :
  session_state a !! "messages" = Some (PList msgs) →
  session_state a !! "selected_semantic_model_path" = Some model →
  let history := msgs ++ [new_user_message prompt] in
  let resp := send_snow_api_request env (length (api_log a))
                                    (analyst_request env (PList history) model) in
  let result := process_user_input env prompt a in
  (400 ≤ status resp)%Z →
  json_loads env (content resp) = Some (PDict entries) →
  match first_missing entries with
  | None =>
      result.1 = RerunSignal ∧
      ∃ turn, session_state result.2 !! "messages" = Some (PList (history ++ [turn]))
  | Some k =>
      result.1 = Raised (KeyError k) ∧
      session_state result.2 !! "messages" = Some (PList history) ∧
      session_state result.2 !! "fire_API_error_notify"
      = session_state a !! "fire_API_error_notify"
  end.
Proof.
  intros Hm Hs history resp result Hge Hbody. subst result.
  assert (Hlt : (status resp <? 400)%Z = false) by (apply Z.ltb_ge; lia).
  rewrite (process_user_input_run env prompt a msgs model Hm Hs).
  fold history. fold resp. rewrite Hbody.
  unfold interpret_reply, first_missing, ERROR_KEYS, has_key, getitem.
  rewrite Hlt. cbn [find].
  destruct (dict_lookup "request_id" entries); cbn [negb];
    [|by unfold awaiting; sess].
  destruct (dict_lookup "error_code" entries); cbn [negb];
    [|by unfold awaiting; sess].
  destruct (dict_lookup "message" entries); cbn [negb];
    [|by unfold awaiting; sess].
  sess. split; [reflexivity|]. by eexists.
Qed.

Lemma error_path_requires_keys_witness :
  let env := sample_env (mkResponse 400 partial_error_body) in
  let result := process_user_input env (PStr "hola") chatting_app in
  (400 ≤ status (mkResponse 400 partial_error_body))%Z ∧
  json_loads env partial_error_body = Some (PDict [("request_id", PStr "req-9")]) ∧
  result.1 = Raised (KeyError "error_code") ∧
  session_state result.2 !! "messages"
  = Some (PList [new_user_message (PStr BOOTSTRAP_PROMPT);
                 analyst_reply (PList []) (PStr "req-0");
                 new_user_message (PStr "hola")]) ∧
  session_state result.2 !! "fire_API_error_notify" = None.
Proof.
  intros env result.
  assert (Hge : (400 ≤ status (mkResponse 400 partial_error_body))%Z) by (cbn; lia).
  assert (Hbody : json_loads env partial_error_body
                  = Some (PDict [("request_id", PStr "req-9")])) by reflexivity.
  split; [exact Hge|]. split; [exact Hbody|].
  exact (error_path_requires_keys env (PStr "hola") chatting_app
           [new_user_message (PStr BOOTSTRAP_PROMPT);
            analyst_reply (PList []) (PStr "req-0")]
           sample_model
           [("request_id", PStr "req-9")]
           eq_refl eq_refl Hge Hbody).
Defined.

(** ** Elementary steps *)

(** A suggestion button: drawn, and its suggestion recorded when clicked. *)
Lemma suggestion_button_run (label : pyval) (key : string) (v : pyval) (a : appstate) :
  (clicked ← st_button label key;
   if (clicked : bool) then set_attr "active_suggestion" v else pass) a
  = (Done tt,
     if button_clicked (widgets a) key
     then with_session (insert "active_suggestion" v)
            (with_screen (λ evs, evs ++ [Button label key]) a)
     else with_screen (λ evs, evs ++ [Button label key]) a).
Proof.
  unfold st_button. rewrite !bind_run. cbn [emit].
  rewrite bind_run. cbn [read_widgets widgets with_screen mret M_ret].
  destruct (button_clicked (widgets a) key); reflexivity.
Qed.

(** Running a statement touches the cache and the warehouse log only. *)
Lemma get_query_exec_result_frame (env : environment) (query : string) (a : appstate) :
  session_state (get_query_exec_result env query a).2 = session_state a.
Proof.
  unfold get_query_exec_result, st_cache_data, run_query.
  destruct (cache_data a !! query); [reflexivity|].
  destruct (session_sql env (length (sql_log a)) query); reflexivity.
Qed.

(** ** What the script never undoes

    A relation [R] between states that is reflexive and transitive and that
    holds across each elementary update the script performs outside
    [reset_session_state] holds across every function of the script. *)

Section Stability.

Variable env : environment.
Variable R : appstate → appstate → Prop.
Hypothesis R_refl : ∀ a, R a a.
Hypothesis R_trans : ∀ a b c, R a b → R b c → R a c.
Hypothesis R_emit : ∀ ev a, R a (emit ev a).2.
Hypothesis R_call : ∀ req a, R a (call_api env req a).2.
Hypothesis R_query : ∀ query a, R a (get_query_exec_result env query a).2.
Hypothesis R_click : ∀ label key v a,
  R a ((clicked ← st_button label key;
        if (clicked : bool) then set_attr "active_suggestion" v else pass) a).2.
Hypothesis R_suggestion : ∀ v a,
  R a (with_session (insert "active_suggestion" v) a).
Hypothesis R_flag : ∀ v a,
  R a (with_session (insert "fire_API_error_notify" v) a).
Hypothesis R_model : ∀ v a,
  R a (with_session (insert "selected_semantic_model_path" v) a).
Hypothesis R_append : ∀ items m a,
  session_state a !! "messages" = Some (PList items) →
  R a (with_session (insert "messages" (PList (items ++ [m]))) a).

Lemma stable_ret {A} (x : A) : stable R (mret x).
Proof. intros a. apply R_refl. Qed.

Lemma stable_raise {A} (e : exn) : stable R (@raise A e).
Proof. intros a. apply R_refl. Qed.

Lemma stable_rerun {A} : stable R (@st_rerun A).
Proof. intros a. apply R_refl. Qed.

Lemma stable_pass : stable R pass.
Proof. intros a. apply R_refl. Qed.

Lemma stable_lift {A} (r : exn + A) : stable R (lift r).
Proof. destruct r; [apply stable_raise | apply stable_ret]. Qed.

Lemma stable_bind {A B} (m : M A) (f : A → M B) :
  stable R m → (∀ x, stable R (f x)) → stable R (m ≫= f).
Proof.
  intros Hm Hf a. rewrite bind_run. specialize (Hm a).
  destruct (m a) as [[x| |] a']; cbn [snd] in *; [|done..].
  eapply R_trans; [exact Hm | apply Hf].
Qed.

Lemma stable_emit (ev : ui_event) : stable R (emit ev).
Proof. intros a. apply R_emit. Qed.

Lemma stable_get_attr (name : string) : stable R (get_attr name).
Proof. intros a. unfold get_attr. destruct (_ !! _); apply R_refl. Qed.

Lemma stable_session_get (name : string) : stable R (session_get name).
Proof. intros a. unfold session_get. destruct (_ !! _); apply R_refl. Qed.

Lemma stable_session_has (name : string) : stable R (session_has name).
Proof. intros a. apply R_refl. Qed.

Lemma stable_read_widgets : stable R read_widgets.
Proof. intros a. apply R_refl. Qed.

Lemma stable_set_suggestion (v : pyval) : stable R (set_attr "active_suggestion" v).
Proof. intros a. apply R_suggestion. Qed.

Lemma stable_set_flag (v : pyval) : stable R (set_attr "fire_API_error_notify" v).
Proof. intros a. apply R_flag. Qed.

Lemma stable_set_model (v : pyval) :
  stable R (set_attr "selected_semantic_model_path" v).
Proof. intros a. apply R_model. Qed.

Lemma stable_messages_append (m : pyval) : stable R (messages_append m).
Proof.
  intros a. unfold messages_append. rewrite bind_run. unfold get_attr.
  destruct (session_state a !! "messages") as [[]|] eqn:Hm;
    try apply R_refl.
  by apply R_append.
Qed.

Lemma stable_for_each {A} (xs : list A) (body : A → M unit) :
  (∀ x, stable R (body x)) → stable R (for_each xs body).
Proof.
  intros Hbody. induction xs as [|x xs IH]; cbn [for_each].
  - apply stable_ret.
  - apply stable_bind; [apply Hbody | intros _; exact IH].
Qed.

Lemma stable_for_enumerate {A} (xs : list A) (body : Z → A → M unit) :
  (∀ i x, stable R (body i x)) → stable R (for_enumerate xs body).
Proof.
  intros Hbody. unfold for_enumerate. generalize 0%Z.
  induction xs as [|x xs IH]; intros i; cbn [for_enumerate_from].
  - apply stable_ret.
  - apply stable_bind; [apply Hbody | intros _; apply IH].
Qed.

Lemma stable_st_button (label : pyval) (key : string) : stable R (st_button label key).
Proof.
  unfold st_button. apply stable_bind; [apply stable_emit | intros _].
  apply stable_bind; [apply stable_read_widgets | intros w; apply stable_ret].
Qed.

Lemma stable_st_selectbox (label : string) (options : list string) (key : string) :
  stable R (st_selectbox label options key).
Proof.
  unfold st_selectbox. apply stable_bind; [apply stable_emit | intros _].
  apply stable_bind; [apply stable_read_widgets | intros w; apply stable_ret].
Qed.

Lemma stable_st_chat_input (placeholder : string) : stable R (st_chat_input placeholder).
Proof.
  unfold st_chat_input. apply stable_bind; [apply stable_emit | intros _].
  apply stable_bind; [apply stable_read_widgets | intros w; apply stable_ret].
Qed.

Lemma stable_get_query_exec_result (query : string) :
  stable R (get_query_exec_result env query).
Proof. intros a. apply R_query. Qed.

Lemma stable_call_api (req : request) : stable R (call_api env req).
Proof. intros a. apply R_call. Qed.

Lemma stable_suggestion_button (label : pyval) (key : string) (v : pyval) :
  stable R (clicked ← st_button label key;
            if (clicked : bool) then set_attr "active_suggestion" v else pass).
Proof. intros a. apply R_click. Qed.

Ltac stable_step :=
  lazymatch goal with
  | |- stable _ (mbind (λ clicked : bool,
                          if clicked then set_attr "active_suggestion" _ else pass)
                       (st_button _ _)) => apply stable_suggestion_button
  | |- stable _ (mbind _ _) => apply stable_bind; [|intros ?]
  | |- stable _ (mret _) => apply stable_ret
  | |- stable _ (raise _) => apply stable_raise
  | |- stable _ st_rerun => apply stable_rerun
  | |- stable _ pass => apply stable_pass
  | |- stable _ (lift _) => apply stable_lift
  | |- stable _ (emit _) => apply stable_emit
  | |- stable _ (get_attr _) => apply stable_get_attr
  | |- stable _ (session_get _) => apply stable_session_get
  | |- stable _ (session_has _) => apply stable_session_has
  | |- stable _ (set_attr "active_suggestion" _) => apply stable_set_suggestion
  | |- stable _ (set_attr "fire_API_error_notify" _) => apply stable_set_flag
  | |- stable _ (set_attr "selected_semantic_model_path" _) => apply stable_set_model
  | |- stable _ (messages_append _) => apply stable_messages_append
  | |- stable _ (st_button _ _) => apply stable_st_button
  | |- stable _ (st_selectbox _ _ _) => apply stable_st_selectbox
  | |- stable _ (st_chat_input _) => apply stable_st_chat_input
  | |- stable _ (get_query_exec_result _ _) => apply stable_get_query_exec_result
  | |- stable _ (call_api _ _) => apply stable_call_api
  | |- stable _ (for_each _ _) => apply stable_for_each; intros ?; cbv beta
  | |- stable _ (for_enumerate _ _) => apply stable_for_enumerate; intros ? ?; cbv beta
  | |- stable _ (if ?c then _ else _) => destruct c
  | |- stable _ (match ?x with _ => _ end) => destruct x
  end.

Ltac stable_auto :=
  unfold st_title, st_markdown, st_divider, st_chat_message, st_spinner, st_toast,
    st_expander, st_code, st_error, st_write, st_tabs, st_dataframe,
    st_line_chart, st_bar_chart;
  repeat stable_step.

Lemma stable_display_charts_tab (df : DataFrame) (idx : Z) :
  stable R (display_charts_tab env df idx).
Proof. unfold display_charts_tab. stable_auto. Qed.

Lemma stable_display_sql_query (sql : string) (idx : Z) :
  stable R (display_sql_query env sql idx).
Proof.
  unfold display_sql_query. stable_auto. apply stable_display_charts_tab.
Qed.

Lemma stable_display_message (content : pyval) (idx : Z) :
  stable R (display_message env content idx).
Proof.
  unfold display_message. stable_auto; apply stable_display_sql_query.
Qed.

Lemma stable_display_conversation : stable R (display_conversation env).
Proof.
  unfold display_conversation. stable_auto. apply stable_display_message.
Qed.

Lemma stable_get_analyst_response (messages : pyval) :
  stable R (get_analyst_response env messages).
Proof.
  unfold get_analyst_response. stable_auto.
Qed.

Lemma stable_process_user_input (prompt : pyval) :
  stable R (process_user_input env prompt).
Proof.
  unfold process_user_input. stable_auto.
  - apply stable_display_message.
  - apply stable_get_analyst_response.
Qed.

Lemma stable_handle_user_inputs : stable R (handle_user_inputs env).
Proof.
  unfold handle_user_inputs. stable_auto; apply stable_process_user_input.
Qed.

Lemma stable_handle_error_notifications : stable R handle_error_notifications.
Proof. unfold handle_error_notifications. stable_auto. Qed.

(** The part of [main] that follows the header. *)
Lemma stable_main_after_header :
  stable R (messages ← get_attr "messages";
            n ← lift (py_len messages);
            (if (n =? 0)%Z then process_user_input env (PStr BOOTSTRAP_PROMPT)
             else pass);;
            display_conversation env;;
            handle_user_inputs env;;
            handle_error_notifications).
Proof.
  stable_auto.
  - apply stable_process_user_input.
  - apply stable_display_conversation.
  - apply stable_handle_user_inputs.
  - apply stable_handle_error_notifications.
Qed.

Hypothesis R_reset : stable R reset_session_state.
Hypothesis R_view : ∀ a scr w,
  R a (mkApp (session_state a) (cache_data a) (api_log a) (sql_log a) scr w).

Lemma stable_show_header_and_sidebar : stable R show_header_and_sidebar.
Proof.
  unfold show_header_and_sidebar. stable_auto; exact R_reset.
Qed.

Lemma stable_main : stable R (main env).
Proof.
  unfold main.
  apply stable_bind; [apply stable_session_has | intros has].
  apply stable_bind; [destruct has; [apply stable_pass | exact R_reset] | intros _].
  apply stable_bind; [apply stable_show_header_and_sidebar | intros _].
  apply stable_main_after_header.
Qed.

Lemma stable_script_run (w : widget_values) : stable R (script_run env w).
Proof.
  intros a. unfold script_run.
  eapply R_trans; [apply (R_view a [] w)|].
  apply stable_bind; [|intros _; apply stable_main].
  destruct (model_changed w); [exact R_reset | apply stable_pass].
Qed.

End Stability.

Lemma grows_refl (a : appstate) : grows a a.
Proof. intros msgs Hm. exists []. by rewrite app_nil_r. Qed.

Lemma grows_trans (a b c : appstate) : grows a b → grows b c → grows a c.
Proof.
  intros Hab Hbc msgs Hm.
  destruct (Hab msgs Hm) as [more Hb]. destruct (Hbc _ Hb) as [more' Hc].
  exists (more ++ more'). by rewrite app_assoc.
Qed.

Lemma grows_same_session (a b : appstate) :
  session_state b = session_state a → grows a b.
Proof. intros Heq msgs Hm. exists []. by rewrite Heq, app_nil_r. Qed.

Lemma grows_session (k : string) (v : pyval) (a : appstate) :
  k ≠ "messages" → grows a (with_session (insert k v) a).
Proof.
  intros Hne msgs Hm. exists []. sess. by rewrite app_nil_r.
Qed.

Lemma grows_append (items : list pyval) (m : pyval) (a : appstate) :
  session_state a !! "messages" = Some (PList items) →
  grows a (with_session (insert "messages" (PList (items ++ [m]))) a).
Proof.
  intros Hitems msgs Hm. exists [m]. sess. congruence.
Qed.

Lemma grows_same_messages (a b : appstate) :
  session_state b !! "messages" = session_state a !! "messages" → grows a b.
Proof. intros Heq msgs Hm. exists []. by rewrite Heq, app_nil_r. Qed.

Ltac grows_facts :=
  first [ exact grows_refl | exact grows_trans | exact grows_append
        | intros; apply grows_session; done
        | intros; apply grows_same_session; reflexivity
        | intros; apply grows_same_session; apply get_query_exec_result_frame
        | intros; apply grows_same_messages;
          rewrite suggestion_button_run; by destruct (button_clicked _ _); sess ].








Lemma process_user_input_grows (env : environment) (prompt : pyval) :
  stable grows (process_user_input env prompt).
Proof. apply stable_process_user_input; grows_facts. Qed.

Lemma main_after_header_grows (env : environment) :
  stable grows (messages ← get_attr "messages";
                n ← lift (py_len messages);
                (if (n =? 0)%Z then process_user_input env (PStr BOOTSTRAP_PROMPT)
                 else pass);;
                display_conversation env;;
                handle_user_inputs env;;
                handle_error_notifications).
Proof. apply stable_main_after_header; grows_facts. Qed.


(** ** Session reset *)

(** C5 — [reset_session_state] sets [messages] to the empty list and
    [active_suggestion] to [None] whatever the state was, and resetting
    twice gives the same state as resetting once. *)
Theorem reset_clears_and_is_idempotent (a : appstate) :
  (reset_session_state a).1 = Done tt ∧
  session_state (reset_session_state a).2 !! "messages" = Some (PList []) ∧
  session_state (reset_session_state a).2 !! "active_suggestion" = Some PNone ∧
  reset_session_state (reset_session_state a).2 = reset_session_state a.
Proof.
  unfold reset_session_state. mrun. repeat split.
  unfold with_session. cbn -[insert]. do 2 f_equal.
  apply map_eq. intros k.
  destruct (decide (k = "active_suggestion")) as [->|Hk1];
    [by rewrite !lookup_insert_eq|].
  destruct (decide (k = "messages")) as [->|Hk2].
  - rewrite !(lookup_insert_ne _ "active_suggestion") by done.
    by rewrite !lookup_insert_eq.
  - by repeat (rewrite lookup_insert_ne by done).
Qed.

(** ** Error notification *)

(** C9 — When the notification flag is set, the handler shows the notice
    once and resets the flag to [False]; run again on the resulting state it
    shows nothing and changes nothing. *)
Theorem error_notification_shown_once (a : appstate) :
  session_state a !! "fire_API_error_notify" = Some (PBool true) →
  let shown := handle_error_notifications a in
  shown.1 = Done tt ∧
  screen shown.2 = screen a ++ [Toast "An API error has occured!" "🚨"] ∧
  session_state shown.2 !! "fire_API_error_notify" = Some (PBool false) ∧
  handle_error_notifications shown.2 = (Done tt, shown.2).
Proof.
  intros Hflag shown. subst shown.
  unfold handle_error_notifications, st_toast. mrun. rewrite Hflag. mrun.
  by repeat split.
Qed.

Lemma error_notification_shown_once_witness :
  let env := sample_env (mkResponse 400 error_body) in
  let a := (process_user_input env (PStr "hola") chatting_app).2 in
  session_state a !! "fire_API_error_notify" = Some (PBool true) ∧
  screen (handle_error_notifications a).2
  = screen a ++ [Toast "An API error has occured!" "🚨"] ∧
  handle_error_notifications (handle_error_notifications a).2
  = (Done tt, (handle_error_notifications a).2).
Proof.
  intros env a.
  assert (Hflag : session_state a !! "fire_API_error_notify" = Some (PBool true))
    by reflexivity.
  destruct (error_notification_shown_once a Hflag) as (_ & Hscreen & _ & Hagain).
  exact (conj Hflag (conj Hscreen Hagain)).
Defined.

(** ** Query results *)

Lemma get_query_exec_result_hit (env : environment) (query : string) (r : query_result)
    (a : appstate) :
  cache_data a !! query = Some r →
  get_query_exec_result env query a = (Done r, a).
Proof.
  intros Hhit. unfold get_query_exec_result, st_cache_data. by rewrite Hhit.
Qed.







(** ** Charts *)

(** The chart tab is reached only with a table that has rows and columns. *)
Lemma display_sql_query_run (env : environment) (sql : string) (idx : Z) (a : appstate) :
  let a1 :=
    with_screen (λ evs, evs ++ [Spinner "Corriendo consulta SQL..."])
      (with_screen (λ evs, evs ++ [Expander "Resultados" true])
         (with_screen (λ evs, evs ++ [Code sql "sql"])
            (with_screen (λ evs, evs ++ [Expander "SQL Query" false]) a))) in
  display_sql_query env sql idx a =
  match get_query_exec_result env sql a1 with
  | (Done (None, err_msg), a2) =>
      (Done tt,
       with_screen (λ evs, evs ++ [ErrorBox ("Could not execute generated SQL query. Error: "
                                             +:+ from_option id "None" err_msg)]) a2)
  | (Done (Some df, _), a2) =>
      if df_empty df
      then (Done tt, with_screen (λ evs, evs ++ [Write "Query returned no data"]) a2)
      else display_charts_tab env df idx
             (with_screen (λ evs, evs ++ [Dataframe df])
                (with_screen (λ evs, evs ++ [Tabs ["Datos 📄"; "Grafico 📈 "]]) a2))
  | (Raised e, a2) => (Raised e, a2)
  | (RerunSignal, a2) => (RerunSignal, a2)
  end.
Proof.
  intros a1. unfold display_sql_query, st_expander, st_code, st_spinner.
  do 4 (rewrite bind_run; cbn [emit]). fold a1.
  rewrite bind_run.
  destruct (get_query_exec_result env sql a1) as [[[[df|] err_msg]| |] a2];
    try reflexivity.
  destruct (df_empty df); reflexivity.
Qed.

(** C6 — For a non-empty result: with fewer than two columns the chart tab
    writes the notice that at least two columns are required and shows no
    selector at all; with two columns or more it offers, for the Y axis,
    exactly the columns other than the one chosen for the X axis, so the X
    choice is never among the Y options. *)
Theorem chart_axis_choices (env : environment) (df : DataFrame) (idx : Z) (a : appstate) :
  df_empty df = false →
  let shown := display_charts_tab env df idx a in
  let all_cols : gset string := list_to_set (columns df) in
  let x_key := "x_col_select_" +:+ pretty idx in
  let x_col := selectbox_value (widgets a) x_key (elements all_cols) in
  let y_options := elements (all_cols ∖ chosen x_col) in
  (length (columns df) < 2 →
   shown = (Done tt,
            with_screen (λ evs, evs ++ [Write "Al menos 2 columnas requeridas"]) a)) ∧
  (2 ≤ length (columns df) →
   (∃ rest,
      screen shown.2
      = screen a ++ Selectbox "Eje X" (elements all_cols) x_key
                 :: Selectbox "Eje Y" y_options ("y_col_select_" +:+ pretty idx)
                 :: rest) ∧
   (∀ c, c ∈ y_options ↔ c ∈ columns df ∧ x_col ≠ Some c) ∧
   (∀ c, x_col = Some c → c ∉ y_options)).
Proof.
  intros _ shown all_cols x_key x_col y_options. split.
  - intros Hlt. subst shown. unfold display_charts_tab.
    destruct (Nat.leb_spec 2 (length (columns df))) as [Hge|_]; [lia|].
    reflexivity.
  - intros Hge. split; [|split].
    + subst shown. unfold display_charts_tab.
      destruct (Nat.leb_spec 2 (length (columns df))) as [_|Hlt]; [|lia].
      unfold st_selectbox, st_line_chart, st_bar_chart. mrun.
      fold all_cols. fold x_key. fold x_col. fold y_options.
      repeat match goal with
             | |- context [bool_decide ?P] => destruct (bool_decide P)
             | |- context [set_index_getitem ?e ?d ?x ?y] =>
                 destruct (set_index_getitem e d x y)
             end; mrun; rewrite <- ?app_assoc; cbn [List.app]; by eexists.
    + intros c. subst y_options. rewrite elem_of_elements, elem_of_difference.
      subst all_cols. rewrite elem_of_list_to_set.
      destruct x_col as [x|]; cbn [chosen].
      * rewrite elem_of_singleton.
        split; (intros [Hin Hne]; split; [exact Hin | congruence]).
      * rewrite elem_of_empty.
        split; (intros [Hin _]; split; [exact Hin | first [done | by intros []]]).
    + intros c Hx. subst y_options. rewrite elem_of_elements, Hx.
      cbn [chosen]. rewrite elem_of_difference, elem_of_singleton.
      by intros [_ Hne].
Qed.

Lemma chart_axis_choices_witness :
  let env := sample_env (mkResponse 200 answer_body) in
  (df_empty sample_table = false ∧
   ∃ rest,
     screen (display_charts_tab env sample_table 1 chatting_app).2
     = Selectbox "Eje X" (elements (list_to_set (columns sample_table) : gset string))
                 "x_col_select_1"
       :: Selectbox "Eje Y"
            (elements ((list_to_set (columns sample_table) : gset string)
                       ∖ chosen (head (elements (list_to_set (columns sample_table)
                                                   : gset string)))))
            "y_col_select_1"
       :: rest) ∧
  (df_empty narrow_table = false ∧
   display_charts_tab env narrow_table 1 chatting_app
   = (Done tt,
      with_screen (λ evs, evs ++ [Write "Al menos 2 columnas requeridas"]) chatting_app)).
Proof.
  intros env. split.
  - split; [reflexivity|].
    destruct (chart_axis_choices env sample_table 1 chatting_app eq_refl) as [_ Hwide].
    destruct (Hwide (le_n 2)) as [Hscreen _]. exact Hscreen.
  - split; [reflexivity|].
    destruct (chart_axis_choices env narrow_table 1 chatting_app eq_refl) as [Hnarrow _].
    exact (Hnarrow (le_n 2)).
Defined.

Example chart_options_sample :
  screen (display_charts_tab (sample_env (mkResponse 200 answer_body))
                             sample_table 1 chatting_app).2
  = [Selectbox "Eje X" ["WEAPON"; "DAMAGE"] "x_col_select_1";
     Selectbox "Eje Y" ["DAMAGE"] "y_col_select_1";
     Selectbox "Select chart type" [LINE_CHART_OPTION; BAR_CHART_OPTION] "chart_type_1";
     LineChart sample_table (Some "WEAPON") (Some "DAMAGE")].
Proof. vm_compute. reflexivity. Qed.

(** ** The conversation *)

Lemma show_header_and_sidebar_run (a : appstate) :
  show_header_and_sidebar a
  = if button_clicked (widgets a) CLEAR_BUTTON
    then reset_session_state (header_shown a)
    else (Done tt, header_shown a).
Proof.
  unfold show_header_and_sidebar, st_title, st_markdown, st_selectbox, st_divider,
    st_button.
  mrun. unfold CLEAR_BUTTON. destruct (button_clicked _ _); reflexivity.
Qed.

Lemma script_run_grows (env : environment) (w : widget_values) (a : appstate) :
  resets w = false → grows a (script_run env w a).2.
Proof.
  intros Hw msgs Hm. apply orb_false_elim in Hw as [Hmodel Hclear].
  unfold script_run. rewrite Hmodel.
  set (a0 := mkApp _ _ _ _ _ _).
  assert (Hm0 : session_state a0 !! "messages" = Some (PList msgs)) by exact Hm.
  rewrite bind_run. cbn [pass mret M_ret]. unfold main.
  rewrite bind_run. cbn [session_has]. rewrite Hm0.
  rewrite bool_decide_eq_true_2 by by eexists.
  rewrite bind_run. cbn [pass mret M_ret].
  rewrite bind_run, show_header_and_sidebar_run.
  change (widgets a0) with w. rewrite Hclear.
  apply (main_after_header_grows env (header_shown a0) msgs).
  unfold header_shown. sess. exact Hm0.
Qed.

Lemma run_session_grows (env : environment) (events : list widget_values) (a : appstate) :
  Forall (λ w, resets w = false) events → grows a (run_session env events a).
Proof.
  intros Hev. revert a. induction Hev as [|w events Hw _ IH]; intros a.
  - apply grows_refl.
  - change (run_session env (w :: events) a)
      with (run_session env events (script_run env w a).2).
    exact (grows_trans _ _ _ (script_run_grows env w a Hw) (IH _)).
Qed.

Lemma conversation_length (prompts replies : list pyval) :
  length replies = length prompts →
  length (conversation prompts replies) = 2 * length prompts.
Proof.
  revert replies. induction prompts as [|p prompts IH]; intros [|r replies] Hlen;
    try done.
  cbn [length] in Hlen. unfold conversation in *. cbn [zip_with concat].
  rewrite length_app, IH by lia. cbn [length]. lia.
Qed.

Lemma submit_all_conversation (env : environment) (prompts : list pyval) (a : appstate)
    (msgs : list pyval) (model : pyval) :
  (∀ n req, well_formed_reply env (send_snow_api_request env n req) = true) →
  session_state a !! "messages" = Some (PList msgs) →
  session_state a !! "selected_semantic_model_path" = Some model →
  ∃ replies, extended_by (submit_all env prompts a) msgs prompts replies.
Proof.
  intros Hwf. revert a msgs.
  induction prompts as [|p prompts IH]; intros a msgs Hm Hs.
  - exists []. split; [done|]. split; [done|].
    cbn [submit_all foldl conversation zip_with concat]. by rewrite app_nil_r.
  - cbn [submit_all foldl].
    rewrite (process_user_input_run env p a msgs model Hm Hs).
    destruct (well_formed_reply_interpret env _ (Hwf (length (api_log a))
                (analyst_request env (PList (msgs ++ [new_user_message p])) model)))
      as (body & turn & notify & Hb & Hi & Hrole & _).
    rewrite Hb, Hi. cbn [snd].
    match goal with
    | |- context [foldl _ ?a1 prompts] =>
        destruct (IH a1 ((msgs ++ [new_user_message p]) ++ [turn]))
          as (replies & Hlen & Hroles & Hfinal)
    end.
    + sess. reflexivity.
    + destruct notify; unfold awaiting; sess; exact Hs.
    + exists (turn :: replies). split; [cbn [length]; lia|].
      split; [by constructor|].
      unfold submit_all in Hfinal. rewrite Hfinal.
      unfold conversation. cbn [zip_with concat].
      by rewrite <- !app_assoc.
Qed.

Lemma same_history_refl (a : appstate) : same_history a a.
Proof. by split. Qed.

Lemma same_history_trans (a b c : appstate) :
  same_history a b → same_history b c → same_history a c.
Proof. intros [H1 H2] [H3 H4]. split; congruence. Qed.

Lemma same_history_session (a b : appstate) :
  session_state b = session_state a → same_history a b.
Proof. intros Heq. split; by rewrite Heq. Qed.

Lemma same_history_insert (k : string) (v : pyval) (a : appstate) :
  k ≠ "messages" → k ≠ "selected_semantic_model_path" →
  same_history a (with_session (insert k v) a).
Proof. intros H1 H2. split; sess; reflexivity. Qed.

Ltac same_facts :=
  first [ exact same_history_refl | exact same_history_trans
        | intros; apply same_history_insert; done
        | intros; apply same_history_session; reflexivity
        | intros; apply same_history_session; apply get_query_exec_result_frame
        | intros; rewrite suggestion_button_run; destruct (button_clicked _ _);
          split; sess; reflexivity ].

Lemma display_conversation_same (env : environment) :
  stable same_history (display_conversation env).
Proof. apply stable_display_conversation; same_facts. Qed.

Lemma handle_error_notifications_same : stable same_history handle_error_notifications.
Proof. apply stable_handle_error_notifications; same_facts. Qed.

(** One input, answered by a well-formed reply: exactly two turns. *)
Lemma process_user_input_exchange (env : environment) (prompt : pyval) (a : appstate)
    (msgs : list pyval) (model : pyval) :
  (∀ n req, well_formed_reply env (send_snow_api_request env n req) = true) →
  session_state a !! "messages" = Some (PList msgs) →
  session_state a !! "selected_semantic_model_path" = Some model →
  ∃ reply,
    is_analyst_turn reply ∧
    session_state (process_user_input env prompt a).2 !! "messages"
    = Some (PList (msgs ++ [new_user_message prompt; reply])).
Proof.
  intros Hwf Hm Hs.
  rewrite (process_user_input_run env prompt a msgs model Hm Hs).
  destruct (well_formed_reply_interpret env _ (Hwf (length (api_log a))
              (analyst_request env (PList (msgs ++ [new_user_message prompt])) model)))
    as (body & turn & notify & Hb & Hi & Hrole & _).
  rewrite Hb, Hi. exists turn. split; [exact Hrole|].
  sess. by rewrite <- app_assoc.
Qed.

(** Within one execution of the script at most one input is processed. *)

Section Exchange.

Variable env : environment.
Hypothesis Hwf : ∀ n req, well_formed_reply env (send_snow_api_request env n req) = true.

Lemma handle_user_inputs_exchange (a : appstate) (msgs : list pyval) (model : pyval) :
  session_state a !! "messages" = Some (PList msgs) →
  session_state a !! "selected_semantic_model_path" = Some model →
  at_most_one_exchange msgs (handle_user_inputs env a).2.
Proof.
  intros Hm Hs. unfold handle_user_inputs, st_chat_input.
  rewrite bind_run, bind_run. cbn [emit].
  rewrite bind_run. cbn [read_widgets mret M_ret].
  set (a1 := with_screen _ a).
  assert (Hm1 : session_state a1 !! "messages" = Some (PList msgs)) by exact Hm.
  assert (Hs1 : session_state a1 !! "selected_semantic_model_path" = Some model)
    by exact Hs.
  set (ui := from_option PStr PNone _).
  destruct (truthy ui).
  - right. destruct (process_user_input_exchange env ui a1 msgs model Hwf Hm1 Hs1)
      as (reply & Hrole & Hfinal). by eexists _, reply.
  - rewrite bind_run. unfold get_attr at 1.
    destruct (session_state a1 !! "active_suggestion") as [active|] eqn:Hactive;
      [|by left].
    destruct (is_None active); cbn [negb]; [by left|].
    rewrite bind_run. unfold get_attr at 1. rewrite Hactive.
    rewrite bind_run. cbn [set_attr].
    set (a2 := with_session _ a1).
    assert (Hm2 : session_state a2 !! "messages" = Some (PList msgs))
      by (unfold a2; sess; exact Hm1).
    assert (Hs2 : session_state a2 !! "selected_semantic_model_path" = Some model)
      by (unfold a2; sess; exact Hs1).
    right. destruct (process_user_input_exchange env active a2 msgs model Hwf Hm2 Hs2)
      as (reply & Hrole & Hfinal). by eexists _, reply.
Qed.

Lemma at_most_one_exchange_same (msgs : list pyval) (a a' : appstate) :
  at_most_one_exchange msgs a → same_history a a' → at_most_one_exchange msgs a'.
Proof.
  intros [Hsame|(prompt & reply & Hrole & Hfinal)] [Hm _].
  - left. by rewrite Hm.
  - right. exists prompt, reply. by rewrite Hm.
Qed.

Lemma script_run_exchange (w : widget_values) (a : appstate) (msgs : list pyval) :
  session_state a !! "messages" = Some (PList msgs) →
  resets w = false →
  at_most_one_exchange msgs (script_run env w a).2.
Proof.
  intros Hm Hw. apply orb_false_elim in Hw as [Hmodel Hclear].
  unfold script_run. rewrite Hmodel.
  set (a0 := mkApp _ _ _ _ _ _).
  assert (Hm0 : session_state a0 !! "messages" = Some (PList msgs)) by exact Hm.
  rewrite bind_run. cbn [pass mret M_ret]. unfold main.
  rewrite bind_run. cbn [session_has]. rewrite Hm0.
  rewrite bool_decide_eq_true_2 by by eexists.
  rewrite bind_run. cbn [pass mret M_ret].
  rewrite bind_run, show_header_and_sidebar_run.
  change (widgets a0) with w. rewrite Hclear.
  set (ah := header_shown a0).
  assert (Hmh : session_state ah !! "messages" = Some (PList msgs))
    by (unfold ah, header_shown; sess; exact Hm0).
  assert (Hsh : ∃ model, session_state ah !! "selected_semantic_model_path" = Some model)
    by (eexists; unfold ah, header_shown; sess; reflexivity).
  destruct Hsh as [model Hsh].
  rewrite (bind_done _ _ _ _ _ (get_attr_run _ _ _ Hmh)).
  rewrite bind_run. cbn [lift py_len mret M_ret].
  destruct msgs as [|m msgs'].
  - change (Z.of_nat (length (@nil pyval)) =? 0)%Z with true. cbv iota.
    rewrite (ends_run_absorbs _ _ _ (process_user_input_ends_run env _)).
    right. destruct (process_user_input_exchange env (PStr BOOTSTRAP_PROMPT) ah [] model
                       Hwf Hmh Hsh) as (reply & Hrole & Hfinal).
    by eexists _, reply.
  - replace (Z.of_nat (length (m :: msgs')) =? 0)%Z with false
      by (symmetry; apply Z.eqb_neq; cbn [length]; lia).
    rewrite bind_run. cbn [pass mret M_ret].
    rewrite bind_run.
    pose proof (display_conversation_same env ah) as [Hmd Hsd].
    destruct (display_conversation env ah) as [[[]| |] ad]; cbn [snd] in *;
      [|left; by rewrite Hmd|left; by rewrite Hmd].
    rewrite Hmh in Hmd. rewrite Hsh in Hsd.
    rewrite bind_run.
    pose proof (handle_user_inputs_exchange ad _ model Hmd Hsd) as Hex.
    destruct (handle_user_inputs env ad) as [[[]| |] au]; cbn [snd] in *;
      [|exact Hex|exact Hex].
    apply (at_most_one_exchange_same _ au); [exact Hex|].
    apply handle_error_notifications_same.
Qed.

Lemma run_session_exchanges (events : list widget_values) (a : appstate)
    (msgs : list pyval) :
  session_state a !! "messages" = Some (PList msgs) →
  Forall (λ w, resets w = false) events →
  ∃ prompts replies,
    length prompts ≤ length events ∧
    extended_by (run_session env events a) msgs prompts replies.
Proof.
  intros Hm Hev. revert a msgs Hm.
  induction Hev as [|w events Hw _ IH]; intros a msgs Hm.
  - exists [], []. split; [done|]. split; [done|]. split; [done|].
    cbn [run_session foldl conversation zip_with concat]. by rewrite app_nil_r.
  - change (run_session env (w :: events) a)
      with (run_session env events (script_run env w a).2).
    destruct (script_run_exchange w a msgs Hm Hw)
      as [Hsame|(prompt & reply & Hrole & Hmore)].
    + destruct (IH _ msgs Hsame) as (prompts & replies & Hle & Hext).
      exists prompts, replies. split; [cbn [length]; lia | exact Hext].
    + destruct (IH _ _ Hmore) as (prompts & replies & Hle & Hlen & Hroles & Hfinal).
      exists (prompt :: prompts), (reply :: replies).
      split; [cbn [length]; lia|]. split; [cbn [length]; lia|].
      split; [by constructor|].
      rewrite Hfinal. unfold conversation. cbn [zip_with concat].
      by rewrite <- !app_assoc.
Qed.

End Exchange.

(** ** Bootstrap *)

Lemma reset_session_state_run (a : appstate) :
  reset_session_state a
  = (Done tt,
     with_session (insert "active_suggestion" PNone)
       (with_session (insert "messages" (PList [])) a)).
Proof. reflexivity. Qed.

(** The state in which [main] reaches its test on the length of the
    history. *)
Lemma main_header_state (a : appstate) :
  ∃ a0,
    ((has_messages ← session_has "messages";
      (if (has_messages : bool) then pass else reset_session_state);;
      show_header_and_sidebar) a) = (Done tt, a0) ∧
    api_log a0 = api_log a ∧
    session_state a0 !! "selected_semantic_model_path"
    = Some (from_option PStr PNone
              (selectbox_value (widgets a) "selected_semantic_model_path"
                               AVAILABLE_SEMANTIC_MODELS_PATHS)) ∧
    (session_state a !! "messages" = None ∨
     button_clicked (widgets a) CLEAR_BUTTON = true →
     session_state a0 !! "messages" = Some (PList [])) ∧
    (button_clicked (widgets a) CLEAR_BUTTON = false →
     is_Some (session_state a !! "messages") →
     session_state a0 !! "messages" = session_state a !! "messages").
Proof.
  rewrite bind_run. cbn [session_has].
  destruct (session_state a !! "messages") as [v|] eqn:Hm.
  - rewrite bool_decide_eq_true_2 by by eexists.
    rewrite bind_run. cbn [pass mret M_ret].
    rewrite show_header_and_sidebar_run.
    destruct (button_clicked (widgets a) CLEAR_BUTTON) eqn:Hclick.
    + rewrite reset_session_state_run. eexists. split; [reflexivity|].
      unfold header_shown. sess. repeat split; try done.
    + eexists. split; [reflexivity|].
      unfold header_shown. sess. repeat split; try done.
      intros [?|?]; done.
  - rewrite bool_decide_eq_false_2 by by intros [? ?].
    rewrite bind_run, reset_session_state_run.
    rewrite show_header_and_sidebar_run. sess.
    destruct (button_clicked (widgets a) CLEAR_BUTTON) eqn:Hclick.
    + rewrite reset_session_state_run. eexists. split; [reflexivity|].
      unfold header_shown. sess. repeat split; try done.
    + eexists. split; [reflexivity|].
      unfold header_shown. sess. repeat split; try done.
Qed.

Lemma main_bootstrap (env : environment) (a a0 : appstate) :
  ((has_messages ← session_has "messages";
    (if (has_messages : bool) then pass else reset_session_state);;
    show_header_and_sidebar) a) = (Done tt, a0) →
  session_state a0 !! "messages" = Some (PList []) →
  main env a = process_user_input env (PStr BOOTSTRAP_PROMPT) a0.
Proof.
  intros Hhead Hempty. unfold main.
  rewrite bind_run in Hhead. rewrite bind_run.
  destruct (session_has "messages" a) as [[has| |] a1]; try done.
  rewrite bind_run in Hhead. rewrite bind_run.
  destruct ((if has then pass else reset_session_state) a1) as [[[]| |] a2]; try done.
  rewrite bind_run, Hhead.
  rewrite (bind_done _ _ _ _ _ (get_attr_run _ _ _ Hempty)).
  rewrite bind_run. cbn [lift py_len mret M_ret length Z.of_nat Z.eqb].
  apply ends_run_absorbs, process_user_input_ends_run.
Qed.

(** C8 — When [main] finds no history, an empty history, or the clear
    button clicked, it hands its opening question, "¿Que pregunta quieres
    hacer?", to [process_user_input], the routine that processes real inputs: the
    run is that of [process_user_input] on the state with the header drawn
    and an empty history, the analyst endpoint is called once with the user
    turn of the prompt as the whole history, and a well-formed reply leaves
    that user turn followed by one analyst turn. *)
Theorem empty_history_is_bootstrapped (env : environment) (a : appstate) :
  session_state a !! "messages" = None ∨
  session_state a !! "messages" = Some (PList []) ∨
  button_clicked (widgets a) CLEAR_BUTTON = true →
  ∃ a0 model,
    session_state a0 !! "messages" = Some (PList []) ∧
    session_state a0 !! "selected_semantic_model_path" = Some model ∧
    api_log a0 = api_log a ∧
    main env a = process_user_input env (PStr BOOTSTRAP_PROMPT) a0 ∧
    let req := analyst_request env (PList [new_user_message (PStr BOOTSTRAP_PROMPT)])
                               model in
    api_log (main env a).2 = api_log a ++ [req] ∧
    (well_formed_reply env (send_snow_api_request env (length (api_log a)) req) = true →
     (main env a).1 = RerunSignal ∧
     ∃ reply,
       is_analyst_turn reply ∧
       session_state (main env a).2 !! "messages"
       = Some (PList [new_user_message (PStr BOOTSTRAP_PROMPT); reply])).
Proof.
  intros Hcase.
  destruct (main_header_state a) as (a0 & Hhead & Hlog & Hmodel & Hreset & Hkeep).
  assert (Hempty : session_state a0 !! "messages" = Some (PList [])).
  { destruct Hcase as [Hnone|[Hnil|Hclick]]; [by apply Hreset; left | | by apply Hreset; right].
    destruct (button_clicked (widgets a) CLEAR_BUTTON) eqn:Hclick;
      [by apply Hreset; right|].
    rewrite Hkeep; [exact Hnil | reflexivity | by eexists]. }
  exists a0, (from_option PStr PNone
                (selectbox_value (widgets a) "selected_semantic_model_path"
                                 AVAILABLE_SEMANTIC_MODELS_PATHS)).
  split; [exact Hempty|]. split; [exact Hmodel|]. split; [exact Hlog|].
  split; [by apply main_bootstrap|].
  rewrite (main_bootstrap env a a0 Hhead Hempty).
  rewrite (process_user_input_run env _ a0 [] _ Hempty Hmodel).
  cbn [List.app]. rewrite Hlog.
  set (req := analyst_request _ _ _).
  set (resp := send_snow_api_request env _ req).
  split.
  - destruct (json_loads env (content resp)) as [body|]; [|unfold awaiting; by sess; rewrite Hlog].
    destruct (interpret_reply env resp body) as [e|[turn [|]]];
      unfold awaiting; sess; by rewrite Hlog.
  - intros Hwf.
    destruct (well_formed_reply_interpret env resp Hwf)
      as (body & turn & notify & Hb & Hi & Hrole & _).
    rewrite Hb, Hi. split; [reflexivity|]. exists turn. split; [exact Hrole|].
    sess. reflexivity.
Qed.

Lemma empty_history_is_bootstrapped_witness :
  let env := sample_env (mkResponse 200 answer_body) in
  session_state fresh_app !! "messages" = None ∧
  ∃ a0 model,
    session_state a0 !! "messages" = Some (PList []) ∧
    session_state a0 !! "selected_semantic_model_path" = Some model ∧
    api_log a0 = [] ∧
    main env fresh_app = process_user_input env (PStr BOOTSTRAP_PROMPT) a0.
Proof.
  intros env.
  assert (Hnone : session_state fresh_app !! "messages" = None) by reflexivity.
  split; [exact Hnone|].
  destruct (empty_history_is_bootstrapped env fresh_app (or_introl Hnone))
    as (a0 & model & Hempty & Hmodel & Hlog & Hrun & _).
  exact (ex_intro _ a0 (ex_intro _ model
           (conj Hempty (conj Hmodel (conj Hlog Hrun))))).
Defined.

(** ** Where inputs come from

    Typed text and a clicked suggestion reach [process_user_input] unchanged
    (the bootstrap prompt does so by [main_bootstrap]). *)

Lemma handle_user_inputs_typed (env : environment) (text : string) (a : appstate) :
  chat_input_value (widgets a) = Some text →
  text ≠ "" →
  handle_user_inputs env a
  = process_user_input env (PStr text)
      (with_screen (λ evs, evs ++ [ChatInput "¿Cual es tu pregunta?"]) a).
Proof.
  intros Htext Hne. unfold handle_user_inputs, st_chat_input.
  rewrite bind_run, bind_run. cbn [emit].
  rewrite bind_run. cbn [read_widgets widgets with_screen mret M_ret].
  rewrite Htext. cbn [from_option truthy].
  destruct (String.eqb_spec text ""); [done|]. reflexivity.
Qed.

Lemma handle_user_inputs_suggestion (env : environment) (suggestion : pyval)
    (a : appstate) :
  chat_input_value (widgets a) = None →
  session_state a !! "active_suggestion" = Some suggestion →
  is_None suggestion = false →
  handle_user_inputs env a
  = process_user_input env suggestion
      (with_session (insert "active_suggestion" PNone)
         (with_screen (λ evs, evs ++ [ChatInput "¿Cual es tu pregunta?"]) a)).
Proof.
  intros Htext Hactive Hsome. unfold handle_user_inputs, st_chat_input.
  rewrite bind_run, bind_run. cbn [emit].
  rewrite bind_run. cbn [read_widgets widgets with_screen mret M_ret].
  rewrite Htext. cbn [from_option truthy].
  rewrite bind_run. unfold get_attr at 1. sess. rewrite Hactive, Hsome.
  cbn [negb]. rewrite bind_run. unfold get_attr at 1. sess. rewrite Hactive.
  rewrite bind_run. reflexivity.
Qed.

(** ** Two turns per input *)

(** C1, as the script behaves — An input whose reply cannot be parsed leaves
    only its user turn behind: after two such inputs a history of two turns
    has four turns, not six. *)
Lemma unparsable_replies_add_one_turn_each :
  let env := sample_env (mkResponse 502 gateway_page) in
  session_state chatting_app !! "messages"
  = Some (PList [new_user_message (PStr BOOTSTRAP_PROMPT);
                 analyst_reply (PList []) (PStr "req-0")]) ∧
  session_state (submit_all env [PStr "hola"; PStr "otra vez"] chatting_app) !! "messages"
  = Some (PList [new_user_message (PStr BOOTSTRAP_PROMPT);
                 analyst_reply (PList []) (PStr "req-0");
                 new_user_message (PStr "hola");
                 new_user_message (PStr "otra vez")]).
Proof. vm_compute. by split. Qed.

Lemma submit_all_snoc (env : environment) (before : list pyval) (prompt : pyval)
    (a : appstate) :
  submit_all env (before ++ [prompt]) a
  = (process_user_input env prompt (submit_all env before a)).2.
Proof. unfold submit_all. by rewrite foldl_app. Qed.

(** Whatever the replies were, the history is still a list that extends
    the one before, and the model is the same. *)
Lemma submit_all_history (env : environment) (before : list pyval) (a : appstate)
    (msgs : list pyval) (model : pyval) :
  session_state a !! "messages" = Some (PList msgs) →
  session_state a !! "selected_semantic_model_path" = Some model →
  ∃ earlier,
    session_state (submit_all env before a) !! "messages"
    = Some (PList (msgs ++ earlier)) ∧
    session_state (submit_all env before a) !! "selected_semantic_model_path"
    = Some model.
Proof.
  revert a msgs. induction before as [|p before IH]; intros a msgs Hm Hs.
  - exists []. by rewrite app_nil_r.
  - change (submit_all env (p :: before) a)
      with (submit_all env before (process_user_input env p a).2).
    destruct (process_user_input_turns env p a msgs model Hm Hs)
      as (_ & _ & Hs1 & more & Hm1).
    destruct (IH _ _ Hm1 Hs1) as (earlier & Hm2 & Hs2).
    exists (more ++ earlier). by rewrite app_assoc.
Qed.

(** C1, amended — Each processed input whose own reply is JSON and carries
    the fields read for its status appends exactly two turns, first the
    user turn whose content is one text block holding the input, then one
    analyst turn, so [messages] grows by exactly two for that input; an input
    whose reply is not of this kind leaves its user turn alone.  This holds
    for every input of a sequence handed to [process_user_input], whatever
    the replies to the inputs before it were, and for the three places an
    input comes from: text typed in the chat box, a clicked suggestion, and
    the opening question of an empty history.  When all replies are well
    formed, [k] inputs leave [2 k] new turns, and executions of the script
    process at most one input each.  Whatever the replies are, executions
    that neither change the model nor click the clear button only extend
    [messages] at its end. *)
Theorem messages_grow_by_two_per_input (env : environment) (a : appstate)
    (msgs : list pyval) :
  session_state a !! "messages" = Some (PList msgs) →
  (∀ (model : pyval) (before : list pyval) (prompt : pyval),
     session_state a !! "selected_semantic_model_path" = Some model →
     ∃ earlier,
       let a1 := submit_all env before a in
       let history := (msgs ++ earlier) ++ [new_user_message prompt] in
       let resp := send_snow_api_request env (length (api_log a1))
                     (analyst_request env (PList history) model) in
       let after := submit_all env (before ++ [prompt]) a in
       session_state a1 !! "messages" = Some (PList (msgs ++ earlier)) ∧
       (well_formed_reply env resp = true →
        ∃ reply,
          is_analyst_turn reply ∧
          session_state after !! "messages" = Some (PList (history ++ [reply])) ∧
          length (history ++ [reply]) = length (msgs ++ earlier) + 2) ∧
       (well_formed_reply env resp = false →
        session_state after !! "messages" = Some (PList history))) ∧
  (∀ (model : pyval) (text : string),
     session_state a !! "selected_semantic_model_path" = Some model →
     chat_input_value (widgets a) = Some text →
     text ≠ "" →
     well_formed_reply env
       (send_snow_api_request env (length (api_log a))
          (analyst_request env (PList (msgs ++ [new_user_message (PStr text)])) model))
     = true →
     ∃ reply,
       is_analyst_turn reply ∧
       session_state (handle_user_inputs env a).2 !! "messages"
       = Some (PList (msgs ++ [new_user_message (PStr text); reply]))) ∧
  (∀ (model suggestion : pyval),
     session_state a !! "selected_semantic_model_path" = Some model →
     chat_input_value (widgets a) = None →
     session_state a !! "active_suggestion" = Some suggestion →
     is_None suggestion = false →
     well_formed_reply env
       (send_snow_api_request env (length (api_log a))
          (analyst_request env (PList (msgs ++ [new_user_message suggestion])) model))
     = true →
     ∃ reply,
       is_analyst_turn reply ∧
       session_state (handle_user_inputs env a).2 !! "messages"
       = Some (PList (msgs ++ [new_user_message suggestion; reply]))) ∧
  (msgs = [] →
   well_formed_reply env
     (send_snow_api_request env (length (api_log a))
        (analyst_request env (PList [new_user_message (PStr BOOTSTRAP_PROMPT)])
           (from_option PStr PNone
              (selectbox_value (widgets a) "selected_semantic_model_path"
                               AVAILABLE_SEMANTIC_MODELS_PATHS))))
   = true →
   ∃ reply,
     is_analyst_turn reply ∧
     session_state (main env a).2 !! "messages"
     = Some (PList [new_user_message (PStr BOOTSTRAP_PROMPT); reply])) ∧
  (∀ prompts : list pyval,
     is_Some (session_state a !! "selected_semantic_model_path") →
     (∀ n req, well_formed_reply env (send_snow_api_request env n req) = true) →
     ∃ replies,
       extended_by (submit_all env prompts a) msgs prompts replies ∧
       length (msgs ++ conversation prompts replies)
       = length msgs + 2 * length prompts) ∧
  (∀ events : list widget_values,
     Forall (λ w, resets w = false) events →
     (∃ more,
        session_state (run_session env events a) !! "messages"
        = Some (PList (msgs ++ more))) ∧
     ((∀ n req, well_formed_reply env (send_snow_api_request env n req) = true) →
      ∃ prompts replies,
        length prompts ≤ length events ∧
        extended_by (run_session env events a) msgs prompts replies ∧
        length (msgs ++ conversation prompts replies)
        = length msgs + 2 * length prompts)).
Proof.
  intros Hm. split; [|split; [|split; [|split; [|split]]]].
  - intros model before prompt Hs.
    destruct (submit_all_history env before a msgs model Hm Hs) as (earlier & Hm1 & Hs1).
    exists earlier. cbv zeta. rewrite submit_all_snoc.
    destruct (process_user_input_turns env prompt _ _ model Hm1 Hs1)
      as (Hgood & Hbad & _).
    split; [exact Hm1|]. split; [|exact Hbad].
    intros Hwf. destruct (Hgood Hwf) as (reply & Hrole & Hafter).
    exists reply. split; [exact Hrole|]. split; [exact Hafter|].
    rewrite !length_app. cbn [length]. lia.
  - intros model text Hs Htext Hne Hwf.
    rewrite (handle_user_inputs_typed env text a Htext Hne).
    destruct (process_user_input_turns env (PStr text)
                (with_screen (λ evs, evs ++ [ChatInput "¿Cual es tu pregunta?"]) a)
                msgs model Hm Hs) as (Hgood & _).
    destruct (Hgood Hwf) as (reply & Hrole & Hafter).
    exists reply. split; [exact Hrole|]. by rewrite Hafter, <- app_assoc.
  - intros model suggestion Hs Htext Hactive Hsome Hwf.
    rewrite (handle_user_inputs_suggestion env suggestion a Htext Hactive Hsome).
    set (a1 := with_session _ _).
    assert (Hm1 : session_state a1 !! "messages" = Some (PList msgs))
      by (unfold a1; sess; exact Hm).
    assert (Hs1 : session_state a1 !! "selected_semantic_model_path" = Some model)
      by (unfold a1; sess; exact Hs).
    destruct (process_user_input_turns env suggestion a1 msgs model Hm1 Hs1)
      as (Hgood & _).
    destruct (Hgood Hwf) as (reply & Hrole & Hafter).
    exists reply. split; [exact Hrole|]. by rewrite Hafter, <- app_assoc.
  - intros -> Hwf.
    destruct (main_header_state a) as (a0 & Hhead & Hlog & Hmodel & Hreset & Hkeep).
    assert (Hempty : session_state a0 !! "messages" = Some (PList [])).
    { destruct (button_clicked (widgets a) CLEAR_BUTTON) eqn:Hclick;
        [by apply Hreset; right|].
      rewrite Hkeep; [exact Hm | reflexivity | by eexists]. }
    rewrite (main_bootstrap env a a0 Hhead Hempty).
    destruct (process_user_input_turns env (PStr BOOTSTRAP_PROMPT) a0 [] _ Hempty Hmodel)
      as (Hgood & _).
    rewrite Hlog in Hgood. exact (Hgood Hwf).
  - intros prompts [model Hs] Hwf.
    destruct (submit_all_conversation env prompts a msgs model Hwf Hm Hs)
      as (replies & Hext).
    exists replies. split; [exact Hext|].
    rewrite length_app, conversation_length; [done | apply Hext].
  - intros events Hev. split.
    + by apply (run_session_grows env events a Hev).
    + intros Hwf.
      destruct (run_session_exchanges env Hwf events a msgs Hm Hev)
        as (prompts & replies & Hle & Hext).
      exists prompts, replies. split; [exact Hle|]. split; [exact Hext|].
      rewrite length_app, conversation_length; [done | apply Hext].
Qed.

Lemma messages_grow_by_two_per_input_witness :
  let before := [new_user_message (PStr BOOTSTRAP_PROMPT);
                 analyst_reply (PList []) (PStr "req-0")] in
  session_state chatting_app !! "messages" = Some (PList before) ∧
  well_formed_reply flaky_env (flaky_api 0 (analyst_request flaky_env PNone PNone)) = false ∧
  well_formed_reply flaky_env (flaky_api 1 (analyst_request flaky_env PNone PNone)) = true ∧
  session_state (submit_all flaky_env [PStr "hola"] chatting_app) !! "messages"
  = Some (PList (before ++ [new_user_message (PStr "hola")])) ∧
  (∃ reply,
     is_analyst_turn reply ∧
     session_state (submit_all flaky_env [PStr "hola"; PStr "otra vez"] chatting_app)
       !! "messages"
     = Some (PList (before ++ [new_user_message (PStr "hola");
                               new_user_message (PStr "otra vez"); reply]))) ∧
  (let env := sample_env (mkResponse 200 answer_body) in
   let events := [idle_widgets; typing_widgets] in
   (∀ n req, well_formed_reply env (send_snow_api_request env n req) = true) ∧
   Forall (λ w, resets w = false) events ∧
   ∃ asked replies,
     length asked ≤ 2 ∧
     extended_by (run_session env events chatting_app) before asked replies).
Proof.
  intros before.
  assert (Hm : session_state chatting_app !! "messages" = Some (PList before))
    by reflexivity.
  destruct (messages_grow_by_two_per_input flaky_env chatting_app before Hm)
    as (Hinput & _).
  split; [exact Hm|]. split; [reflexivity|]. split; [reflexivity|].
  destruct (Hinput sample_model [] (PStr "hola") eq_refl) as (e0 & Hm0 & _ & Hfirst).
  change (Some (PList before) = Some (PList (before ++ e0))) in Hm0.
  assert (He0 : before ++ [] = before ++ e0) by (rewrite app_nil_r; congruence).
  apply app_inv_head in He0. subst e0. specialize (Hfirst eq_refl).
  rewrite app_nil_r in Hfirst.
  change ([] ++ [PStr "hola"]) with [PStr "hola"] in Hfirst.
  split; [exact Hfirst|]. split.
  - destruct (Hinput sample_model [PStr "hola"] (PStr "otra vez") eq_refl)
      as (e1 & Hm1 & Hsecond & _).
    rewrite Hfirst in Hm1.
    assert (He1 : before ++ [new_user_message (PStr "hola")] = before ++ e1)
      by congruence.
    apply app_inv_head in He1. subst e1. destruct (Hsecond eq_refl) as (reply & Hrole & Hafter & _).
    exists reply. split; [exact Hrole|].
    change ([PStr "hola"] ++ [PStr "otra vez"]) with [PStr "hola"; PStr "otra vez"]
      in Hafter.
    rewrite Hafter. by rewrite <- !app_assoc.
  - intros env events.
    assert (Hwf : ∀ n req, well_formed_reply env (send_snow_api_request env n req) = true)
      by (intros n req; reflexivity).
    assert (Hev : Forall (λ w, resets w = false) events) by (repeat constructor).
    destruct (messages_grow_by_two_per_input env chatting_app before Hm)
      as (_ & _ & _ & _ & _ & Hruns).
    destruct (Hruns events Hev) as [_ Hpairs].
    destruct (Hpairs Hwf) as (asked & replies & Hle & Hext & _).
    split; [exact Hwf|]. split; [exact Hev|]. by exists asked, replies.
Defined.

(** ** Sample runs *)

(** A clicked suggestion is taken up in the same run and cleared. *)
Example suggestion_click_sample :
  let after := script_run (sample_env (mkResponse 200 answer_body))
                          clicking_widgets analysed_app in
  after.1 = RerunSignal ∧
  session_state after.2 !! "active_suggestion" = Some PNone ∧
  session_state after.2 !! "messages"
  = Some (PList [new_user_message (PStr "weapons by damage");
                 analyst_reply rich_content (PStr "req-0");
                 new_user_message (PStr "Average damage?");
                 analyst_reply
                   (PList [PDict [("type", PStr "text");
                                  ("text", PStr "Ask about weapons")]])
                   (PStr "req-1")]).
Proof. vm_compute. by repeat split. Qed.

(** Typed text is answered in the run that receives it. *)
Example typed_input_sample :
  let after := script_run (sample_env (mkResponse 200 answer_body))
                          typing_widgets chatting_app in
  after.1 = RerunSignal ∧
  session_state after.2 !! "messages"
  = Some (PList [new_user_message (PStr BOOTSTRAP_PROMPT);
                 analyst_reply (PList []) (PStr "req-0");
                 new_user_message (PStr "hola");
                 analyst_reply
                   (PList [PDict [("type", PStr "text");
                                  ("text", PStr "Ask about weapons")]])
                   (PStr "req-1")]).
Proof. vm_compute. by repeat split. Qed.

(** A generated statement is run once, however often the page is drawn. *)
Example statement_runs_once_sample :
  let env := sample_env (mkResponse 200 answer_body) in
  sql_log (run_session env [idle_widgets; idle_widgets; idle_widgets] analysed_app)
  = ["SELECT WEAPON, DAMAGE FROM WEAPONS"].
Proof. vm_compute. reflexivity. Qed.

(** After an API error the notice is shown in the next run and not in the
    one after it. *)
Example notification_sample :
  let env := sample_env (mkResponse 400 error_body) in
  let failed := (script_run env idle_widgets fresh_app).2 in
  let next := (script_run env idle_widgets failed).2 in
  let later := (script_run env idle_widgets next).2 in
  session_state failed !! "fire_API_error_notify" = Some (PBool true) ∧
  last (screen next) = Some (Toast "An API error has occured!" "🚨") ∧
  last (screen later) = Some (ChatInput "¿Cual es tu pregunta?").
Proof. vm_compute. by repeat split. Qed.

(** * Further properties of the script *)

(** X1 — [get_analyst_response] sends exactly one POST request to the
    analyst endpoint, with the time limit of 50000 ms and a body holding the
    messages it was given and the selected model prefixed by [@], whatever
    the reply is and also when the reply cannot be parsed; it changes
    nothing else and never asks for a rerun.  Without a selected model it
    fails before sending anything. *)
Theorem get_analyst_response_sends_once (env : environment) (messages : pyval)
    (a : appstate) :
  let result := get_analyst_response env messages a in
  match session_state a !! "selected_semantic_model_path" with
  | None =>
      result = (Raised (AttributeError "selected_semantic_model_path"), a)
  | Some model =>
      api_log result.2
      = api_log a
        ++ [mkRequest "POST" "/api/v2/cortex/analyst/message" (PDict []) (PDict [])
              (PDict [("messages", messages);
                      ("semantic_model_file", PStr ("@" +:+ py_str env model))])
              PNone 50000] ∧
      session_state result.2 = session_state a ∧
      cache_data result.2 = cache_data a ∧
      sql_log result.2 = sql_log a ∧
      screen result.2 = screen a ∧
      result.1 ≠ RerunSignal
  end.
Proof.
  intros result. subst result.
  destruct (session_state a !! "selected_semantic_model_path") as [model|] eqn:Hs.
  - rewrite (get_analyst_response_run env messages model a Hs).
    destruct (json_loads env _) as [body|]; [|by repeat split].
    destruct (_ <? _)%Z; [by repeat split|].
    destruct (getitem body "request_id"); [by repeat split|].
    destruct (getitem body "error_code"); [by repeat split|].
    destruct (getitem body "message"); by repeat split.
  - unfold get_analyst_response. rewrite bind_run. unfold get_attr. by rewrite Hs.
Qed.

(** X2 — On the success path (status below 400, body a JSON object) the
    answer turn is appended only when the body has [message], a dictionary
    with [content], and [request_id].  They are read in this order, and the
    first that is missing ends the turn with its [KeyError] (a [message]
    that is not a dictionary, with a type error), after the user turn was
    stored and without notification. *)
Theorem success_path_requires_keys (env : environment) (prompt : pyval) (a : appstate)
    (msgs : list pyval) (model : pyval) (entries : list (string * pyval)) :
  session_state a !! "messages" = Some (PList msgs) →
  session_state a !! "selected_semantic_model_path" = Some model →
  let history := msgs ++ [new_user_message prompt] in
  let resp := send_snow_api_request env (length (api_log a))
                                    (analyst_request env (PList history) model) in
  let result := process_user_input env prompt a in
  (status resp < 400)%Z →
  json_loads env (content resp) = Some (PDict entries) →
  match dict_lookup "message" entries with
  | None => result.1 = Raised (KeyError "message") ∧ user_turn_only a history result.2
  | Some (PDict message) =>
      match dict_lookup "content" message with
      | None => result.1 = Raised (KeyError "content") ∧ user_turn_only a history result.2
      | Some blocks =>
          match dict_lookup "request_id" entries with
          | None =>
              result.1 = Raised (KeyError "request_id") ∧
              user_turn_only a history result.2
          | Some request_id =>
              result.1 = RerunSignal ∧
              user_turn_only a (history ++ [analyst_reply blocks request_id]) result.2
          end
      end
  | Some _ => result.1 = Raised TypeError ∧ user_turn_only a history result.2
  end.
Proof.
  intros Hm Hs history resp result Hlt Hbody. subst result.
  apply Z.ltb_lt in Hlt.
  rewrite (process_user_input_run env prompt a msgs model Hm Hs).
  fold history. fold resp. rewrite Hbody.
  unfold interpret_reply, user_turn_only. rewrite Hlt.
  cbn [getitem].
  destruct (dict_lookup "message" entries) as [message|];
    [|by unfold awaiting; sess].
  destruct message as [|b|n|bits|s|items|message]; try (by cbn [getitem]; unfold awaiting; sess).
  cbn [getitem].
  destruct (dict_lookup "content" message) as [blocks|];
    [|by unfold awaiting; sess].
  destruct (dict_lookup "request_id" entries) as [request_id|];
    [|by unfold awaiting; sess].
  by unfold awaiting; sess.
Qed.

Lemma success_path_requires_keys_witness :
  let result := process_user_input headless_env (PStr "hola") chatting_app in
  (status (mkResponse 200 headless_body) < 400)%Z ∧
  json_loads headless_env headless_body = Some headless_value ∧
  result.1 = Raised (KeyError "request_id") ∧
  user_turn_only chatting_app
    [new_user_message (PStr BOOTSTRAP_PROMPT);
     analyst_reply (PList []) (PStr "req-0");
     new_user_message (PStr "hola")] result.2.
Proof.
  intros result.
  assert (Hlt : (status (mkResponse 200 headless_body) < 400)%Z) by (cbn; lia).
  assert (Hbody : json_loads headless_env headless_body = Some headless_value)
    by reflexivity.
  split; [exact Hlt|]. split; [exact Hbody|].
  exact (success_path_requires_keys headless_env (PStr "hola") chatting_app
           [new_user_message (PStr BOOTSTRAP_PROMPT);
            analyst_reply (PList []) (PStr "req-0")]
           sample_model
           [("message", PDict [("content", PList [])])]
           eq_refl eq_refl Hlt Hbody).
Defined.

(** X3 — [process_user_input] relies on an initialised session: without
    [messages] it fails at once with an attribute error and changes
    nothing; without a selected model it fails only after the user turn was
    stored, and sends no request. *)
Theorem process_user_input_needs_session (env : environment) (prompt : pyval) (a : appstate) :
  let result := process_user_input env prompt a in
  (session_state a !! "messages" = None →
   result = (Raised (AttributeError "messages"), a)) ∧
  (∀ msgs,
     session_state a !! "messages" = Some (PList msgs) →
     session_state a !! "selected_semantic_model_path" = None →
     result.1 = Raised (AttributeError "selected_semantic_model_path") ∧
     session_state result.2 !! "messages"
     = Some (PList (msgs ++ [new_user_message prompt])) ∧
     api_log result.2 = api_log a).
Proof.
  intros result. subst result. split.
  - intros Hnone. unfold process_user_input, messages_append.
    rewrite !bind_run. unfold get_attr. by rewrite Hnone.
  - intros msgs Hm Hs.
    unfold process_user_input, messages_append, st_chat_message, st_spinner,
      get_analyst_response.
    mrun. rewrite Hm. mrun. rewrite Hs. sess. by repeat split.
Qed.

Lemma process_user_input_needs_session_witness :
  let env := sample_env (mkResponse 200 answer_body) in
  session_state fresh_app !! "messages" = None ∧
  process_user_input env (PStr "hola") fresh_app
  = (Raised (AttributeError "messages"), fresh_app).
Proof.
  intros env.
  assert (Hnone : session_state fresh_app !! "messages" = None) by reflexivity.
  split; [exact Hnone|].
  exact (proj1 (process_user_input_needs_session env (PStr "hola") fresh_app) Hnone).
Defined.

(** X4 — Whatever the reply, processing an input sends exactly one request,
    which carries the whole history including the new user turn, and the
    selected model; it draws the user turn and the waiting analyst
    container, appends the user turn and at most one more turn, and touches
    neither the stored query results nor the warehouse. *)
Theorem process_user_input_sends_history (env : environment) (prompt : pyval) (a : appstate)
    (msgs : list pyval) (model : pyval) :
  session_state a !! "messages" = Some (PList msgs) →
  session_state a !! "selected_semantic_model_path" = Some model →
  let result := process_user_input env prompt a in
  api_log result.2
  = api_log a ++ [analyst_request env (PList (msgs ++ [new_user_message prompt])) model] ∧
  (∃ more,
     length more ≤ 1 ∧
     session_state result.2 !! "messages"
     = Some (PList (msgs ++ new_user_message prompt :: more))) ∧
  screen result.2
  = screen a ++ [ChatMessage (PStr "user"); Markdown prompt;
                 ChatMessage (PStr "analyst");
                 Spinner "Esperando la respuesta del Analista..."] ∧
  cache_data result.2 = cache_data a ∧
  sql_log result.2 = sql_log a.
Proof.
  intros Hm Hs result. subst result.
  rewrite (process_user_input_run env prompt a msgs model Hm Hs).
  assert (Hscreen : ∀ l : list ui_event, ∀ e1 e2 e3 e4,
            (((l ++ [e1]) ++ [e2]) ++ [e3]) ++ [e4] = l ++ [e1; e2; e3; e4])
    by (intros; by rewrite <- !app_assoc).
  destruct (json_loads env _) as [body|].
  - destruct (interpret_reply env _ body) as [e|[turn [|]]];
      unfold awaiting; sess.
      all: (split; [reflexivity|]). all: (split; [|by rewrite Hscreen]).
      all: first [ exists []; split; [cbn [length]; lia | done]
                 | exists [turn]; split; [done|]; by rewrite <- app_assoc ].
  - unfold awaiting; sess.
    split; [reflexivity|]. split; [|by rewrite Hscreen].
    exists []. split; [cbn [length]; lia | done].
Qed.

Lemma process_user_input_sends_history_witness :
  let env := sample_env (mkResponse 502 gateway_page) in
  let result := process_user_input env (PStr "hola") chatting_app in
  api_log result.2
  = [analyst_request env
       (PList [new_user_message (PStr BOOTSTRAP_PROMPT);
               analyst_reply (PList []) (PStr "req-0");
               new_user_message (PStr "hola")]) sample_model].
Proof.
  intros env result.
  exact (proj1 (process_user_input_sends_history env (PStr "hola") chatting_app
                  [new_user_message (PStr BOOTSTRAP_PROMPT);
                   analyst_reply (PList []) (PStr "req-0")]
                  sample_model eq_refl eq_refl)).
Defined.

(** ** Requests to the analyst endpoint *)

Lemma get_query_exec_result_quiet (env : environment) (query : string) (a : appstate) :
  api_log (get_query_exec_result env query a).2 = api_log a ∧
  widgets (get_query_exec_result env query a).2 = widgets a ∧
  screen (get_query_exec_result env query a).2 = screen a.
Proof.
  unfold get_query_exec_result, st_cache_data, run_query.
  destruct (cache_data a !! query); [done|].
  by destruct (session_sql env (length (sql_log a)) query).
Qed.

Lemma calm_ret {A} (x : A) : calm (mret x).
Proof. by intros a. Qed.

Lemma calm_raise {A} (e : exn) : calm (@raise A e).
Proof. by intros a. Qed.

Lemma calm_pass : calm pass.
Proof. by intros a. Qed.

Lemma calm_lift {A} (r : exn + A) : calm (lift r).
Proof. destruct r as [e|x]; by intros a. Qed.

Lemma calm_emit (ev : ui_event) : calm (emit ev).
Proof. by intros a. Qed.

Lemma calm_get_attr (name : string) : calm (get_attr name).
Proof. intros a. unfold get_attr. by destruct (_ !! _). Qed.

Lemma calm_session_get (name : string) : calm (session_get name).
Proof. intros a. unfold session_get. by destruct (_ !! _). Qed.

Lemma calm_session_has (name : string) : calm (session_has name).
Proof. by intros a. Qed.

Lemma calm_set_attr (name : string) (v : pyval) : calm (set_attr name v).
Proof. by intros a. Qed.

Lemma calm_read_widgets : calm read_widgets.
Proof. by intros a. Qed.

Lemma calm_bind {A B} (m : M A) (f : A → M B) :
  calm m → (∀ x, calm (f x)) → calm (m ≫= f).
Proof.
  intros Hm Hf a. rewrite bind_run. destruct (Hm a) as [Hlog Hrun].
  destruct (m a) as [[x| |] a']; cbn [fst snd] in *; [|done..].
  rewrite <- Hlog. apply Hf.
Qed.

Lemma calm_for_each {A} (xs : list A) (body : A → M unit) :
  (∀ x, calm (body x)) → calm (for_each xs body).
Proof.
  intros Hbody. induction xs as [|x xs IH]; cbn [for_each].
  - apply calm_ret.
  - apply calm_bind; [apply Hbody | intros _; exact IH].
Qed.

Lemma calm_for_enumerate {A} (xs : list A) (body : Z → A → M unit) :
  (∀ i x, calm (body i x)) → calm (for_enumerate xs body).
Proof.
  intros Hbody. unfold for_enumerate. generalize 0%Z.
  induction xs as [|x xs IH]; intros i; cbn [for_enumerate_from].
  - apply calm_ret.
  - apply calm_bind; [apply Hbody | intros _; apply IH].
Qed.

Lemma calm_get_query_exec_result (env : environment) (query : string) :
  calm (get_query_exec_result env query).
Proof.
  intros a. split; [apply get_query_exec_result_quiet|].
  unfold get_query_exec_result, st_cache_data, run_query.
  destruct (cache_data a !! query); [done|].
  by destruct (session_sql env (length (sql_log a)) query).
Qed.

Lemma calm_messages_append (m : pyval) : calm (messages_append m).
Proof.
  unfold messages_append. apply calm_bind; [apply calm_get_attr | intros v].
  destruct v; first [apply calm_set_attr | apply calm_raise].
Qed.

Ltac calm_step :=
  lazymatch goal with
  | |- calm (mbind _ _) => apply calm_bind; [|intros ?]
  | |- calm (mret _) => apply calm_ret
  | |- calm (raise _) => apply calm_raise
  | |- calm pass => apply calm_pass
  | |- calm (lift _) => apply calm_lift
  | |- calm (emit _) => apply calm_emit
  | |- calm (get_attr _) => apply calm_get_attr
  | |- calm (session_get _) => apply calm_session_get
  | |- calm (session_has _) => apply calm_session_has
  | |- calm (set_attr _ _) => apply calm_set_attr
  | |- calm read_widgets => apply calm_read_widgets
  | |- calm (messages_append _) => apply calm_messages_append
  | |- calm (get_query_exec_result _ _) => apply calm_get_query_exec_result
  | |- calm (for_each _ _) => apply calm_for_each; intros ?; cbv beta
  | |- calm (for_enumerate _ _) => apply calm_for_enumerate; intros ? ?; cbv beta
  | |- calm (if ?c then _ else _) => destruct c
  | |- calm (match ?x with _ => _ end) => destruct x
  end.

Ltac calm_auto :=
  unfold st_title, st_markdown, st_divider, st_chat_message, st_spinner, st_toast,
    st_expander, st_code, st_error, st_write, st_tabs, st_dataframe,
    st_line_chart, st_bar_chart, st_button, st_selectbox, st_chat_input,
    reset_session_state;
  repeat calm_step.

Lemma calm_display_charts_tab (env : environment) (df : DataFrame) (idx : Z) :
  calm (display_charts_tab env df idx).
Proof. unfold display_charts_tab. calm_auto. Qed.

Lemma calm_display_sql_query (env : environment) (sql : string) (idx : Z) :
  calm (display_sql_query env sql idx).
Proof. unfold display_sql_query. calm_auto. apply calm_display_charts_tab. Qed.

Lemma calm_display_message (env : environment) (content : pyval) (idx : Z) :
  calm (display_message env content idx).
Proof. unfold display_message. calm_auto; apply calm_display_sql_query. Qed.

Lemma calm_display_conversation (env : environment) : calm (display_conversation env).
Proof. unfold display_conversation. calm_auto. apply calm_display_message. Qed.

Lemma calm_handle_error_notifications : calm handle_error_notifications.
Proof. unfold handle_error_notifications. calm_auto. Qed.

Lemma calm_show_header_and_sidebar : calm show_header_and_sidebar.
Proof. unfold show_header_and_sidebar. calm_auto. Qed.

Lemma one_shot_calm {A} (m : M A) : calm m → one_shot m.
Proof. intros Hm a. left. apply Hm. Qed.

Lemma one_shot_bind {A B} (m : M A) (f : A → M B) :
  one_shot m → (∀ x, one_shot (f x)) → one_shot (m ≫= f).
Proof.
  intros Hm Hf a. rewrite bind_run. specialize (Hm a).
  destruct (m a) as [[x| |] a'] eqn:Hrun; cbn [fst snd] in *.
  - destruct Hm as [[Hm _]|[_ Hm]]; [|by destruct (Hm x)].
    rewrite <- Hm. apply Hf.
  - destruct Hm as [[Hm Hr]|[Hm _]]; [left | right]; by split.
  - destruct Hm as [[Hm Hr]|[Hm _]]; [left | right]; by split.
Qed.

(** The request is the only thing [get_analyst_response] may fail before. *)
Lemma get_analyst_response_calls (env : environment) (messages : pyval) (a : appstate) :
  get_analyst_response env messages a
  = (Raised (AttributeError "selected_semantic_model_path"), a) ∨
  ∃ req, api_log (get_analyst_response env messages a).2 = api_log a ++ [req].
Proof.
  unfold get_analyst_response. rewrite bind_run. unfold get_attr.
  destruct (session_state a !! "selected_semantic_model_path") as [model|];
    [|by left].
  right. exists (analyst_request env messages model).
  rewrite bind_run. cbn [call_api]. rewrite bind_run.
  destruct (json_loads env _) as [body|]; [|reflexivity].
  cbn [mret M_ret].
  destruct (_ <? _)%Z; [reflexivity|].
  rewrite !bind_run.
  destruct (getitem body "request_id"); [reflexivity|]. cbn [lift mret M_ret].
  destruct (getitem body "error_code"); [reflexivity|]. cbn [lift mret M_ret].
  destruct (getitem body "message"); reflexivity.
Qed.

Lemma process_user_input_one_shot (env : environment) (prompt : pyval) :
  one_shot (process_user_input env prompt).
Proof.
  unfold process_user_input.
  do 9 (apply one_shot_bind;
          [apply one_shot_calm; first [apply calm_display_message | calm_auto]
          | intros ?]).
  intros a.
  set (k := λ reply : pyval * option string, _).
  assert (Hk : ∀ reply b, api_log (k reply b).2 = api_log b ∧ ∀ x, (k reply b).1 ≠ Done x).
  { intros [response error_msg] b. split.
    - unfold k, messages_append. destruct error_msg as [error_msg|].
      + mrun. destruct (getitem response "request_id"); [done|]. mrun.
        destruct (session_state b !! "messages") as [[]|]; by mrun.
      + mrun. destruct (getitem response "message") as [?|message]; [done|]. mrun.
        destruct (getitem message "content"); [done|]. mrun.
        destruct (getitem response "request_id"); [done|]. mrun.
        destruct (session_state b !! "messages") as [[]|]; by mrun.
    - unfold k. repeat (apply ends_run_bind; intros ?). apply ends_run_rerun. }
  rewrite bind_run.
  match goal with
  | |- context [get_analyst_response env ?history a] =>
      destruct (get_analyst_response_calls env history a) as [Hfail|[req Hreq]];
      [left; by rewrite Hfail | right];
      destruct (get_analyst_response env history a) as [[reply| |] a']
  end; cbn [fst snd] in *; [|by eauto..].
  destruct (Hk reply a') as [Hlog Hends]. rewrite Hlog. by eauto.
Qed.

Lemma handle_user_inputs_one_shot (env : environment) : one_shot (handle_user_inputs env).
Proof.
  unfold handle_user_inputs.
  apply one_shot_bind; [apply one_shot_calm; calm_auto | intros user_input].
  destruct (truthy user_input); [apply process_user_input_one_shot|].
  apply one_shot_bind; [apply one_shot_calm; calm_auto | intros active].
  destruct (negb (is_None active)); [|apply one_shot_calm; calm_auto].
  apply one_shot_bind; [apply one_shot_calm; calm_auto | intros suggestion].
  apply one_shot_bind; [apply one_shot_calm; calm_auto | intros _].
  apply process_user_input_one_shot.
Qed.

Lemma main_one_shot (env : environment) : one_shot (main env).
Proof.
  unfold main.
  apply one_shot_bind; [apply one_shot_calm; calm_auto | intros has].
  apply one_shot_bind; [apply one_shot_calm; calm_auto | intros _].
  apply one_shot_bind; [apply one_shot_calm, calm_show_header_and_sidebar | intros _].
  apply one_shot_bind; [apply one_shot_calm; calm_auto | intros messages].
  apply one_shot_bind; [apply one_shot_calm; calm_auto | intros n].
  apply one_shot_bind.
  { destruct (n =? 0)%Z; [apply process_user_input_one_shot|].
    apply one_shot_calm; calm_auto. }
  intros _.
  apply one_shot_bind; [apply one_shot_calm, calm_display_conversation | intros _].
  apply one_shot_bind; [apply handle_user_inputs_one_shot | intros _].
  apply one_shot_calm, calm_handle_error_notifications.
Qed.

Lemma script_run_one_shot (env : environment) (w : widget_values) :
  one_shot (script_run env w).
Proof.
  intros a. unfold script_run.
  set (a0 := mkApp _ _ _ _ _ _).
  change (api_log a) with (api_log a0).
  apply (one_shot_bind (if model_changed w then reset_session_state else pass)
                       (λ _, main env)); [|intros _; apply main_one_shot].
  apply one_shot_calm. calm_auto.
Qed.

(** X5 — One execution of the script sends at most one request to the
    analyst endpoint; an execution that sends none does not ask for a rerun,
    and one that sends a request does not run to its end.  So a session of
    [n] executions has sent at most [n] requests. *)
Theorem at_most_one_request_per_run (env : environment) (a : appstate) :
  (∀ w : widget_values,
     let result := script_run env w a in
     (api_log result.2 = api_log a ∧ result.1 ≠ RerunSignal) ∨
     ((∃ req, api_log result.2 = api_log a ++ [req]) ∧ result.1 ≠ Done tt)) ∧
  (∀ events : list widget_values,
     ∃ reqs,
       api_log (run_session env events a) = api_log a ++ reqs ∧
       length reqs ≤ length events).
Proof.
  split.
  - intros w result.
    destruct (script_run_one_shot env w a) as [Hsame|[Hone Hends]];
      [by left | right]. split; [exact Hone | apply Hends].
  - intros events. revert a.
    induction events as [|w events IH]; intros a.
    + exists []. by rewrite app_nil_r.
    + change (run_session env (w :: events) a)
        with (run_session env events (script_run env w a).2).
      destruct (IH (script_run env w a).2) as (reqs & Hlog & Hlen).
      destruct (script_run_one_shot env w a) as [[Hsame _]|[[req Hone] _]].
      * exists reqs. rewrite Hlog, Hsame. split; [done | cbn [length]; lia].
      * exists (req :: reqs). rewrite Hlog, Hone, <- app_assoc.
        split; [done | cbn [length]; lia].
Qed.

Lemma script_run_header (env : environment) (w : widget_values) (a : appstate) :
  script_run env w a = main_after_header env (header_state w a).
Proof.
  unfold script_run, header_state, main_after_header, main.
  set (a0 := mkApp _ _ _ _ _ _).
  rewrite bind_run.
  assert (Hrest : ∀ a1 : appstate,
            widgets a1 = w →
            (has_messages ← session_has "messages";
             (if (has_messages : bool) then pass else reset_session_state);;
             show_header_and_sidebar;;
             main_after_header env) a1
            = main_after_header env
                (let a2 := if bool_decide (is_Some (session_state a1 !! "messages"))
                           then a1 else (reset_session_state a1).2 in
                 if button_clicked w CLEAR_BUTTON
                 then (reset_session_state (header_shown a2)).2
                 else header_shown a2)).
  { intros a1 Hw. rewrite bind_run. cbn [session_has]. cbv zeta.
    destruct (bool_decide _); rewrite bind_run; cbn [pass mret M_ret];
      rewrite ?reset_session_state_run; cbn [snd];
      rewrite bind_run, show_header_and_sidebar_run;
      cbn [widgets with_session]; rewrite Hw;
      destruct (button_clicked w CLEAR_BUTTON);
      rewrite ?reset_session_state_run; reflexivity. }
  destruct (model_changed w).
  - rewrite reset_session_state_run. cbn [snd]. by apply Hrest.
  - cbn [pass mret M_ret]. by apply Hrest.
Qed.

Lemma header_state_frame (w : widget_values) (a : appstate) :
  widgets (header_state w a) = w ∧
  api_log (header_state w a) = api_log a ∧
  cache_data (header_state w a) = cache_data a ∧
  sql_log (header_state w a) = sql_log a ∧
  screen (header_state w a) = HEADER ∧
  session_state (header_state w a) !! "selected_semantic_model_path"
  = Some (from_option PStr PNone
            (selectbox_value w "selected_semantic_model_path"
                             AVAILABLE_SEMANTIC_MODELS_PATHS)).
Proof.
  unfold header_state.
  destruct (model_changed w), (bool_decide _), (button_clicked w CLEAR_BUTTON);
    rewrite ?reset_session_state_run; unfold header_shown; sess; by repeat split.
Qed.

(** ** Drawing the conversation *)

Lemma drawn_only_refl (a : appstate) : drawn_only a a.
Proof. by repeat split. Qed.

Lemma drawn_only_trans (a b c : appstate) :
  drawn_only a b → drawn_only b c → drawn_only a c.
Proof.
  intros (Hw1 & Hl1 & Hk1 & Hs1) (Hw2 & Hl2 & Hk2 & Hs2).
  split; [congruence|]. split; [congruence|]. split.
  - intros k Hk. by rewrite Hk2, Hk1.
  - intros Hno. rewrite Hs2, Hs1; [done..|]. by rewrite Hw1.
Qed.

Lemma drawn_only_click (label : pyval) (key : string) (v : pyval) (a : appstate) :
  drawn_only a ((clicked ← st_button label key;
                 if (clicked : bool) then set_attr "active_suggestion" v else pass) a).2.
Proof.
  rewrite suggestion_button_run.
  destruct (button_clicked (widgets a) key) eqn:Hclick; [|by repeat split].
  split; [done|]. split; [done|]. split.
  - intros k Hk. sess. reflexivity.
  - intros Hno. by rewrite Hno in Hclick.
Qed.

Lemma drawn_only_query (env : environment) (query : string) (a : appstate) :
  drawn_only a (get_query_exec_result env query a).2.
Proof.
  destruct (get_query_exec_result_quiet env query a) as (Hlog & Hw & _).
  pose proof (get_query_exec_result_frame env query a) as Hs.
  split; [done|]. split; [done|]. split; [by rewrite Hs | done].
Qed.

Lemma display_conversation_drawn_only (env : environment) :
  stable drawn_only (display_conversation env).
Proof.
  apply stable_display_conversation;
    first [ exact drawn_only_refl | exact drawn_only_trans
          | exact drawn_only_click | apply drawn_only_query
          | by intros ].
Qed.



(** ** An execution without input *)

Lemma header_state_kept (w : widget_values) (a : appstate) (k : string) :
  resets w = false →
  is_Some (session_state a !! "messages") →
  k ≠ "selected_semantic_model_path" →
  session_state (header_state w a) !! k = session_state a !! k.
Proof.
  intros Hw Hm Hk. apply orb_false_elim in Hw as [Hmodel Hclear].
  unfold header_state. rewrite Hmodel, Hclear. cbn [session_state].
  rewrite bool_decide_eq_true_2 by done.
  unfold header_shown. sess. reflexivity.
Qed.

Lemma handle_user_inputs_idle (env : environment) (a : appstate) :
  chat_input_value (widgets a) = None →
  session_state a !! "active_suggestion" = Some PNone →
  handle_user_inputs env a
  = (Done tt, with_screen (λ evs, evs ++ [ChatInput "¿Cual es tu pregunta?"]) a).
Proof.
  intros Hchat Hactive. unfold handle_user_inputs, st_chat_input.
  rewrite bind_run, bind_run. cbn [emit].
  rewrite bind_run. cbn [read_widgets widgets with_screen mret M_ret].
  rewrite Hchat. cbn [from_option truthy].
  rewrite bind_run. unfold get_attr at 1. sess. by rewrite Hactive.
Qed.

Lemma handle_error_notifications_run (a : appstate) :
  handle_error_notifications a
  = (Done tt,
     if truthy (default PNone (session_state a !! "fire_API_error_notify"))
     then with_session (insert "fire_API_error_notify" (PBool false))
            (with_screen (λ evs, evs ++ [Toast "An API error has occured!" "🚨"]) a)
     else a).
Proof.
  unfold handle_error_notifications, st_toast. rewrite bind_run. unfold session_get.
  destruct (session_state a !! "fire_API_error_notify") as [flag|];
    cbn [from_option id]; [|reflexivity].
  destruct (truthy flag); reflexivity.
Qed.

(** X7 — An execution in which nothing is typed, no button is clicked and
    the model is not changed, on a session with a non-empty history and no
    pending suggestion: no request is sent, no rerun is asked for, and the
    history and the pending suggestion are as before. *)
Theorem idle_run_changes_nothing (env : environment) (w : widget_values) (a : appstate)
    (m : pyval) (msgs : list pyval) :
  chat_input_value w = None →
  no_clicks w →
  model_changed w = false →
  session_state a !! "messages" = Some (PList (m :: msgs)) →
  session_state a !! "active_suggestion" = Some PNone →
  let result := script_run env w a in
  api_log result.2 = api_log a ∧
  result.1 ≠ RerunSignal ∧
  session_state result.2 !! "messages" = Some (PList (m :: msgs)) ∧
  session_state result.2 !! "active_suggestion" = Some PNone.
Proof.
  intros Hchat Hno Hmodel Hm Hactive result. subst result.
  assert (Hw : resets w = false) by (unfold resets; by rewrite Hmodel, Hno).
  rewrite script_run_header.
  destruct (header_state_frame w a) as (Hwid & Hlog & _).
  pose proof (header_state_kept w a "messages" Hw (mk_is_Some _ _ Hm) ltac:(done)) as Hm1.
  pose proof (header_state_kept w a "active_suggestion" Hw (mk_is_Some _ _ Hm)
                ltac:(done)) as Ha1.
  rewrite Hm in Hm1. rewrite Hactive in Ha1.
  set (ah := header_state w a) in *.
  unfold main_after_header.
  rewrite (bind_done _ _ _ _ _ (get_attr_run _ _ _ Hm1)).
  rewrite bind_run. cbn [lift py_len mret M_ret].
  replace (Z.of_nat (length (m :: msgs)) =? 0)%Z with false
    by (symmetry; apply Z.eqb_neq; cbn [length]; lia).
  rewrite bind_run. cbn [pass mret M_ret].
  rewrite bind_run.
  destruct (display_conversation_drawn_only env ah) as (Hwd & Hlogd & _ & Hsame).
  destruct (calm_display_conversation env ah) as [_ Hrun].
  rewrite Hwid in Hsame. specialize (Hsame Hno).
  destruct (display_conversation env ah) as [[[]| |] ad]; cbn [fst snd] in *;
    [|by rewrite Hsame, Hlogd, Hlog|done].
  rewrite bind_run, handle_user_inputs_idle, handle_error_notifications_run
    by (first [by rewrite Hwd, Hwid | by rewrite Hsame]).
  destruct (truthy _); sess; rewrite Hsame, Hlogd, Hlog; by repeat split.
Qed.

Lemma idle_run_changes_nothing_witness :
  let env := sample_env (mkResponse 200 answer_body) in
  let result := script_run env idle_widgets analysed_app in
  api_log result.2 = api_log analysed_app ∧
  result.1 ≠ RerunSignal ∧
  session_state result.2 !! "messages"
  = Some (PList [new_user_message (PStr "weapons by damage");
                 analyst_reply rich_content (PStr "req-0")]) ∧
  session_state result.2 !! "active_suggestion" = Some PNone.
Proof.
  intros env result.
  exact (idle_run_changes_nothing env idle_widgets analysed_app _ _
           eq_refl (λ _, eq_refl) eq_refl eq_refl eq_refl).
Defined.

(** ** The page *)

Lemma screen_extends_refl (a : appstate) : screen_extends a a.
Proof. exists []. by rewrite app_nil_r. Qed.

Lemma screen_extends_trans (a b c : appstate) :
  screen_extends a b → screen_extends b c → screen_extends a c.
Proof.
  intros [d1 H1] [d2 H2]. exists (d1 ++ d2). by rewrite H2, H1, app_assoc.
Qed.

Lemma screen_extends_same (a b : appstate) : screen b = screen a → screen_extends a b.
Proof. intros Heq. exists []. by rewrite Heq, app_nil_r. Qed.

Ltac screen_facts :=
  first [ exact screen_extends_refl | exact screen_extends_trans
        | intros ev a; by exists [ev]
        | intros; apply screen_extends_same; reflexivity
        | intros; apply screen_extends_same; apply get_query_exec_result_quiet
        | intros; rewrite suggestion_button_run; destruct (button_clicked _ _);
          eexists; reflexivity ].

Lemma main_after_header_screen (env : environment) :
  stable screen_extends (main_after_header env).
Proof. unfold main_after_header. apply stable_main_after_header; screen_facts. Qed.

(** X8 — Every execution of the script clears the page and draws the header
    first: the title, the welcome text, the model selector, the divider and
    the clear button, in this order, whatever the session holds and however
    the execution ends. *)
Theorem header_is_drawn_first (env : environment) (w : widget_values) (a : appstate) :
  ∃ rest,
    screen (script_run env w a).2
    = [Title "Cortex Analyst";
       Markdown (PStr WELCOME);
       Selectbox "Modelo Semantico seleccionado:" AVAILABLE_SEMANTIC_MODELS_PATHS
                 "selected_semantic_model_path";
       Divider;
       Button (PStr "Limpiar historial de chat") "Limpiar historial de chat"] ++ rest.
Proof.
  rewrite script_run_header.
  destruct (header_state_frame w a) as (_ & _ & _ & _ & Hscreen & _).
  destruct (main_after_header_screen env (header_state w a)) as [rest Hrest].
  exists rest. rewrite Hrest, Hscreen. reflexivity.
Qed.

(** ** The shape of the session *)

Lemma keeps_ready_refl (a : appstate) : keeps_ready a a.
Proof. by intros H. Qed.

Lemma keeps_ready_trans (a b c : appstate) :
  keeps_ready a b → keeps_ready b c → keeps_ready a c.
Proof. intros H1 H2 H. by apply H2, H1. Qed.

Lemma keeps_ready_same (a b : appstate) :
  session_state b = session_state a → keeps_ready a b.
Proof. intros Heq. unfold keeps_ready, session_ready. by rewrite Heq. Qed.

Lemma keeps_ready_insert (k : string) (v : pyval) (a b : appstate) :
  k ≠ "messages" →
  session_state b = <[k := v]> (session_state a) →
  keeps_ready a b.
Proof.
  intros Hk Hb ([msgs Hm] & Ha & Hs). unfold session_ready. rewrite Hb.
  split; [|split].
  - exists msgs. by rewrite lookup_insert_ne.
  - destruct (decide (k = "active_suggestion")) as [->|Hne];
      [by rewrite lookup_insert_eq | by rewrite lookup_insert_ne].
  - destruct (decide (k = "selected_semantic_model_path")) as [->|Hne];
      [by rewrite lookup_insert_eq | by rewrite lookup_insert_ne].
Qed.

Lemma keeps_ready_append (items : list pyval) (m : pyval) (a : appstate) :
  session_state a !! "messages" = Some (PList items) →
  keeps_ready a (with_session (insert "messages" (PList (items ++ [m]))) a).
Proof.
  intros _ (_ & Ha & Hs). split; [|split]; sess; by eauto.
Qed.

Ltac ready_facts :=
  first [ exact keeps_ready_refl | exact keeps_ready_trans | exact keeps_ready_append
        | intros; eapply keeps_ready_insert; [|reflexivity]; done
        | intros; apply keeps_ready_same; reflexivity
        | intros; apply keeps_ready_same; apply get_query_exec_result_frame
        | intros; rewrite suggestion_button_run; destruct (button_clicked _ _);
          first [ eapply keeps_ready_insert; [|reflexivity]; done
                | by apply keeps_ready_same ] ].

Lemma main_after_header_keeps_ready (env : environment) :
  stable keeps_ready (main_after_header env).
Proof. unfold main_after_header. apply stable_main_after_header; ready_facts. Qed.

Lemma header_state_ready (w : widget_values) (a : appstate) :
  session_state a !! "messages" = None ∨
  ((∃ msgs, session_state a !! "messages" = Some (PList msgs)) ∧
   is_Some (session_state a !! "active_suggestion")) →
  session_ready (header_state w a).
Proof.
  intros Hstart. unfold header_state.
  set (a0 := mkApp _ _ _ _ _ _).
  set (a1 := if model_changed w then _ else _).
  set (a2 := if bool_decide _ then _ else _).
  assert (Hreset : ∀ b : appstate,
            (∃ msgs, session_state (reset_session_state b).2 !! "messages"
                     = Some (PList msgs)) ∧
            is_Some (session_state (reset_session_state b).2 !! "active_suggestion")).
  { intros b. rewrite reset_session_state_run. sess. by eauto. }
  assert (H1 : session_state a1 !! "messages" = None ∨
               ((∃ msgs, session_state a1 !! "messages" = Some (PList msgs)) ∧
                is_Some (session_state a1 !! "active_suggestion"))).
  { unfold a1. destruct (model_changed w); [right; apply Hreset | exact Hstart]. }
  assert (H2 : (∃ msgs, session_state a2 !! "messages" = Some (PList msgs)) ∧
               is_Some (session_state a2 !! "active_suggestion")).
  { unfold a2. destruct (bool_decide _) eqn:Hhas; [|apply Hreset].
    apply bool_decide_eq_true_1 in Hhas.
    destruct H1 as [Hnone|Hshape]; [|exact Hshape].
    rewrite Hnone in Hhas. by destruct Hhas. }
  destruct H2 as [[msgs Hm] Ha].
  destruct (button_clicked w CLEAR_BUTTON).
  - rewrite reset_session_state_run. unfold header_shown, session_ready. sess.
    by eauto.
  - unfold header_shown, session_ready. sess. by eauto.
Qed.

Lemma script_run_ready (env : environment) (w : widget_values) (a : appstate) :
  session_state a !! "messages" = None ∨
  ((∃ msgs, session_state a !! "messages" = Some (PList msgs)) ∧
   is_Some (session_state a !! "active_suggestion")) →
  session_ready (script_run env w a).2.
Proof.
  intros Hstart. rewrite script_run_header.
  by apply main_after_header_keeps_ready, header_state_ready.
Qed.

(** X9 — From an empty session, or from one whose history is a list and
    whose pending suggestion is set, every execution of the script, however
    it ends, leaves a session in which [messages] is a list and
    [active_suggestion] and [selected_semantic_model_path] are set; so does
    every sequence of executions. *)
Theorem session_stays_ready (env : environment) (a : appstate) :
  session_state a !! "messages" = None ∨
  ((∃ msgs, session_state a !! "messages" = Some (PList msgs)) ∧
   is_Some (session_state a !! "active_suggestion")) →
  ∀ (w : widget_values) (events : list widget_values),
    session_ready (run_session env (w :: events) a).
Proof.
  intros Hstart w events.
  change (run_session env (w :: events) a)
    with (run_session env events (script_run env w a).2).
  pose proof (script_run_ready env w a Hstart) as Hready.
  revert Hready. generalize (script_run env w a).2. clear a Hstart.
  induction events as [|w' events IH]; intros a Hready; [exact Hready|].
  change (run_session env (w' :: events) a)
    with (run_session env events (script_run env w' a).2).
  apply IH, script_run_ready. right. split; apply Hready.
Qed.

Lemma session_stays_ready_witness :
  let env := sample_env (mkResponse 502 gateway_page) in
  session_state fresh_app !! "messages" = None ∧
  session_ready (run_session env [idle_widgets; typing_widgets] fresh_app).
Proof.
  intros env.
  assert (Hnone : session_state fresh_app !! "messages" = None) by reflexivity.
  split; [exact Hnone|].
  exact (session_stays_ready env fresh_app (or_introl Hnone) idle_widgets [typing_widgets]).
Defined.

(** ** The warehouse *)

Lemma run_once_query (env : environment) (query : string) (a : appstate) :
  (∀ n q e, session_sql env n q ≠ SqlOtherFailure e) →
  run_once a → run_once (get_query_exec_result env query a).2.
Proof.
  intros Henv [Hnodup Hstored].
  unfold get_query_exec_result, st_cache_data, run_query.
  destruct (cache_data a !! query) as [r|] eqn:Hhit; [done|].
  assert (Hnew : query ∉ sql_log a).
  { intros Hin. destruct (Hstored _ Hin) as [r Hr]. congruence. }
  assert (Hgoal : ∀ r, run_once (with_cache (insert query r)
                                   (with_sql_log (λ l, l ++ [query]) a))).
  { intros r. split; sess.
    - apply NoDup_app. split; [done|]. split; [|apply NoDup_singleton].
      intros q Hq ->%list_elem_of_singleton. done.
    - intros q [Hq| ->%list_elem_of_singleton]%elem_of_app.
      + destruct (decide (q = query)) as [->|Hne];
          [by rewrite lookup_insert_eq | rewrite lookup_insert_ne by done; by apply Hstored].
      + by rewrite lookup_insert_eq. }
  destruct (session_sql env (length (sql_log a)) query) as [df|text|e] eqn:Hsql;
    [apply Hgoal..|]. by destruct (Henv _ _ _ Hsql).
Qed.

Lemma keeps_run_once_same (a b : appstate) :
  sql_log b = sql_log a → cache_data b = cache_data a → keeps_run_once a b.
Proof. intros Hl Hc. unfold keeps_run_once, run_once. by rewrite Hl, Hc. Qed.

Lemma script_run_keeps_run_once (env : environment) (w : widget_values) :
  (∀ n q e, session_sql env n q ≠ SqlOtherFailure e) →
  stable keeps_run_once (script_run env w).
Proof.
  intros Henv. apply stable_script_run;
    first [ by intros a H
          | by intros a b c Hab Hbc H; apply Hbc, Hab
          | intros query a H; by apply run_once_query
          | intros; by apply keeps_run_once_same
          | intros a; by apply keeps_run_once_same
          | intros; rewrite suggestion_button_run; destruct (button_clicked _ _);
            by apply keeps_run_once_same ].
Qed.

(** X10 — When the warehouse fails only by SQL exceptions, no statement is
    ever sent to it twice: in every session the log of warehouse calls has
    no duplicate and every logged statement has its result stored. *)
Theorem each_statement_runs_once (env : environment) (a : appstate)
    (events : list widget_values) :
  (∀ n q e, session_sql env n q ≠ SqlOtherFailure e) →
  NoDup (sql_log a) →
  (∀ q, q ∈ sql_log a → is_Some (cache_data a !! q)) →
  NoDup (sql_log (run_session env events a)) ∧
  ∀ q, q ∈ sql_log (run_session env events a) →
       is_Some (cache_data (run_session env events a) !! q).
Proof.
  intros Henv Hnodup Hstored.
  assert (Hstart : run_once a) by by split.
  clear Hnodup Hstored. revert a Hstart.
  induction events as [|w events IH]; intros a Hstart; [exact Hstart|].
  change (run_session env (w :: events) a)
    with (run_session env events (script_run env w a).2).
  by apply IH, script_run_keeps_run_once.
Qed.

Lemma each_statement_runs_once_witness :
  let env := sample_env (mkResponse 200 answer_body) in
  NoDup (sql_log (run_session env [idle_widgets; clicking_widgets; idle_widgets]
                              analysed_app)).
Proof.
  intros env.
  assert (Henv : ∀ n q e, session_sql env n q ≠ SqlOtherFailure e).
  { intros n q e. cbn [session_sql env sample_env]. unfold sample_sql.
    destruct (String.eqb q _); [done|]. by destruct (String.eqb q _). }
  exact (proj1 (each_statement_runs_once env analysed_app
                  [idle_widgets; clicking_widgets; idle_widgets]
                  Henv (NoDup_nil_2) (λ q Hq, False_ind _ (not_elem_of_nil q Hq)))).
Defined.

(** ** Starting over *)

Lemma header_state_reset (w : widget_values) (a : appstate) :
  resets w = true ∨ session_state a !! "messages" = None →
  session_state (header_state w a) !! "messages" = Some (PList []) ∧
  session_state (header_state w a) !! "active_suggestion" = Some PNone.
Proof.
  intros Hstart. unfold header_state.
  set (a0 := mkApp _ _ _ _ _ _).
  set (a1 := if model_changed w then _ else _).
  set (a2 := if bool_decide _ then _ else _).
  destruct (button_clicked w CLEAR_BUTTON) eqn:Hclear.
  { rewrite reset_session_state_run. sess. done. }
  assert (H2 : session_state a2 !! "messages" = Some (PList []) ∧
               session_state a2 !! "active_suggestion" = Some PNone).
  { unfold a2. destruct (bool_decide _) eqn:Hhas;
      [|rewrite reset_session_state_run; sess; done].
    apply bool_decide_eq_true_1 in Hhas. unfold a1 in *.
    destruct (model_changed w) eqn:Hmodel;
      [rewrite reset_session_state_run; sess; done|].
    destruct Hstart as [Hw|Hnone].
    - unfold resets in Hw. by rewrite Hmodel, Hclear in Hw.
    - change (session_state a0) with (session_state a) in Hhas.
      rewrite Hnone in Hhas. by destruct Hhas. }
  unfold header_shown. sess. exact H2.
Qed.

(** X11 — An execution in which the model was changed or the clear button
    clicked, or which finds no history, starts the conversation over: the
    earlier turns are dropped, the one request sent carries the opening
    question alone, and the new history is that question followed by at
    most one analyst turn. *)
Theorem reset_starts_over (env : environment) (w : widget_values) (a : appstate) :
  resets w = true ∨ session_state a !! "messages" = None →
  let model := from_option PStr PNone
                 (selectbox_value w "selected_semantic_model_path"
                                  AVAILABLE_SEMANTIC_MODELS_PATHS) in
  let opening := new_user_message (PStr BOOTSTRAP_PROMPT) in
  let result := script_run env w a in
  api_log result.2 = api_log a ++ [analyst_request env (PList [opening]) model] ∧
  (∃ more,
     length more ≤ 1 ∧
     session_state result.2 !! "messages" = Some (PList (opening :: more))) ∧
  session_state result.2 !! "active_suggestion" = Some PNone ∧
  result.1 ≠ Done tt.
Proof.
  intros Hstart model opening result. subst result.
  rewrite script_run_header.
  destruct (header_state_frame w a) as (_ & Hlog & _ & _ & _ & Hmodel).
  destruct (header_state_reset w a Hstart) as [Hempty Hactive].
  set (ah := header_state w a) in *.
  assert (Hboot : main_after_header env ah
                  = process_user_input env (PStr BOOTSTRAP_PROMPT) ah).
  { unfold main_after_header.
    rewrite (bind_done _ _ _ _ _ (get_attr_run _ _ _ Hempty)).
    rewrite bind_run. cbn [lift py_len mret M_ret length Z.of_nat Z.eqb].
    apply ends_run_absorbs, process_user_input_ends_run. }
  rewrite Hboot, (process_user_input_run env _ ah [] _ Hempty Hmodel).
  cbn [List.app]. fold model. fold opening. rewrite Hlog.
  destruct (json_loads env _) as [body|].
  - destruct (interpret_reply env _ body) as [e|[turn [|]]];
      unfold awaiting; sess; rewrite Hlog.
    + split; [done|]. split; [by exists []; split; [cbn [length]; lia|]|]. done.
    + split; [done|]. split; [by exists [turn]|]. done.
    + split; [done|]. split; [by exists [turn]|]. done.
  - unfold awaiting; sess. rewrite Hlog.
    split; [done|]. split; [by exists []; split; [cbn [length]; lia|]|]. done.
Qed.

Lemma reset_starts_over_witness :
  let env := sample_env (mkResponse 200 answer_body) in
  let w := mkWidgets None (λ _, false) (λ _ options, head options) true in
  resets w = true ∧
  api_log (script_run env w analysed_app).2
  = [analyst_request env (PList [new_user_message (PStr BOOTSTRAP_PROMPT)]) sample_model] ∧
  session_state (script_run env w analysed_app).2 !! "active_suggestion" = Some PNone.
Proof.
  intros env w.
  destruct (reset_starts_over env w analysed_app (or_introl eq_refl))
    as (Hlog & _ & Hactive & _).
  exact (conj eq_refl (conj Hlog Hactive)).
Defined.

(** X12 — The notification handler never fails, whatever the flag holds: an
    absent or falsy flag leaves the state untouched (the flag is not
    created), a truthy one gives one notice and the value [False]; and
    handling again changes nothing. *)
Theorem notification_handler_settles (a : appstate) :
  let flag := default PNone (session_state a !! "fire_API_error_notify") in
  let shown := handle_error_notifications a in
  shown.1 = Done tt ∧
  (truthy flag = false → shown.2 = a) ∧
  (truthy flag = true →
   screen shown.2 = screen a ++ [Toast "An API error has occured!" "🚨"] ∧
   session_state shown.2
   = <["fire_API_error_notify" := PBool false]> (session_state a)) ∧
  handle_error_notifications shown.2 = (Done tt, shown.2).
Proof.
  intros flag shown. subst shown. rewrite handle_error_notifications_run. fold flag.
  split; [done|]. destruct (truthy flag) eqn:Hflag; cbn [fst snd].
  - split; [done|]. split; [done|].
    rewrite handle_error_notifications_run. sess. reflexivity.
  - split; [done|]. split; [done|].
    rewrite handle_error_notifications_run. fold flag. by rewrite Hflag.
Qed.

Lemma notification_handler_settles_witness :
  handle_error_notifications fresh_app = (Done tt, fresh_app).
Proof.
  destruct (notification_handler_settles fresh_app) as (Hdone & Hquiet & _).
  rewrite (surjective_pairing (handle_error_notifications fresh_app)).
  by rewrite Hdone, (Hquiet eq_refl).
Defined.

(** ** Blocks of a message *)

Lemma for_each_app {A} (xs ys : list A) (body : A → M unit) (a : appstate) :
  for_each (xs ++ ys) body a
  = (for_each xs body;; for_each ys body) a.
Proof.
  revert a. induction xs as [|x xs IH]; intros a; cbn [for_each List.app].
  - reflexivity.
  - rewrite !bind_run. destruct (body x a) as [[[]| |] a']; try reflexivity.
    rewrite IH. by rewrite bind_run.
Qed.

(** X13 — A block whose type is none of [text], [suggestions] and [sql] is
    skipped: the message is drawn as if the block were not there. *)
Theorem unknown_block_is_skipped (env : environment) (before rest : list pyval)
    (block type : pyval) (idx : Z) (a : appstate) :
  getitem block "type" = inr type →
  known_type type = false →
  display_message env (PList (before ++ block :: rest)) idx a
  = display_message env (PList (before ++ rest)) idx a.
Proof.
  intros Htype Hunknown. unfold known_type in Hunknown.
  apply orb_false_elim in Hunknown as [Hunknown Hsql].
  apply orb_false_elim in Hunknown as [Htext Hsuggestions].
  unfold display_message. rewrite !bind_run. cbn [lift iter_items mret M_ret].
  rewrite !for_each_app, !bind_run.
  destruct (for_each before _ a) as [[[]| |] a1]; try reflexivity.
  cbn [for_each]. rewrite bind_run, bind_run, Htype. cbn [lift mret M_ret].
  by rewrite Htext, Hsuggestions, Hsql.
Qed.

Lemma unknown_block_is_skipped_witness :
  let env := sample_env (mkResponse 200 answer_body) in
  display_message env
    (PList [PDict [("type", PStr "text"); ("text", PStr "uno")];
            PDict [("type", PStr "chart"); ("spec", PStr "{}")];
            PDict [("type", PStr "text"); ("text", PStr "dos")]]) 0 chatting_app
  = display_message env
      (PList [PDict [("type", PStr "text"); ("text", PStr "uno")];
              PDict [("type", PStr "text"); ("text", PStr "dos")]]) 0 chatting_app.
Proof.
  intros env.
  exact (unknown_block_is_skipped env
           [PDict [("type", PStr "text"); ("text", PStr "uno")]]
           [PDict [("type", PStr "text"); ("text", PStr "dos")]]
           (PDict [("type", PStr "chart"); ("spec", PStr "{}")]) (PStr "chart")
           0 chatting_app eq_refl eq_refl).
Defined.

Lemma code_points_aux_nonempty (cur s : string) : code_points_aux cur s ≠ [].
Proof.
  revert cur. induction s as [|c s IH]; intros cur; cbn [code_points_aux]; [done|].
  destruct (is_continuation c); [apply IH | done].
Qed.

(** X14 — A message content that is not a list is never drawn: [None], a
    number or a boolean cannot be iterated, and the characters of a
    non-empty string or the keys of a non-empty dictionary are strings,
    which have no ["type"]; each ends the drawing with a type error and
    leaves the page as it is.  Only the empty string and the empty
    dictionary pass, drawing nothing. *)
Theorem content_must_be_a_list (env : environment) (content : pyval) (idx : Z)
    (a : appstate) :
  (∀ items, content ≠ PList items) →
  display_message env content idx a
  = (match content with
     | PStr EmptyString | PDict [] => Done tt
     | _ => Raised TypeError
     end, a).
Proof.
  intros Hlist. unfold display_message. rewrite bind_run.
  destruct content as [|b|n|bits|s|items|entries]; try reflexivity.
  - destruct s as [|c s]; [reflexivity|].
    cbn [lift iter_items code_points mret M_ret].
    pose proof (code_points_aux_nonempty (String c EmptyString) s) as Hne.
    destruct (code_points_aux _ s) as [|p ps]; [done|]. reflexivity.
  - by destruct (Hlist items).
  - destruct entries as [|[k v] entries]; reflexivity.
Qed.

Lemma content_must_be_a_list_witness :
  let env := sample_env (mkResponse 200 answer_body) in
  display_message env (PStr "Ask about weapons") 1 chatting_app
  = (Raised TypeError, chatting_app).
Proof.
  intros env.
  exact (content_must_be_a_list env (PStr "Ask about weapons") 1 chatting_app
           (λ items H, eq_ind (PStr "Ask about weapons")
                         (λ v, match v with PStr _ => True | _ => False end)
                         I _ H)).
Defined.

(** X15 — Typed text takes precedence over a pending suggestion: the text is
    the input that is processed, and the suggestion stays pending for a
    later execution. *)
Theorem typed_text_takes_precedence (env : environment) (text : string)
    (suggestion : pyval) (a : appstate) (msgs : list pyval) (model : pyval) :
  chat_input_value (widgets a) = Some text →
  text ≠ "" →
  session_state a !! "active_suggestion" = Some suggestion →
  session_state a !! "messages" = Some (PList msgs) →
  session_state a !! "selected_semantic_model_path" = Some model →
  let result := handle_user_inputs env a in
  (∃ more,
     session_state result.2 !! "messages"
     = Some (PList (msgs ++ new_user_message (PStr text) :: more))) ∧
  session_state result.2 !! "active_suggestion" = Some suggestion.
Proof.
  intros Htext Hne Hactive Hm Hs result. subst result.
  rewrite (handle_user_inputs_typed env text a Htext Hne).
  rewrite (process_user_input_run env (PStr text)
             (with_screen (λ evs, evs ++ [ChatInput "¿Cual es tu pregunta?"]) a)
             msgs model Hm Hs).
  destruct (json_loads env _) as [body|].
  - destruct (interpret_reply env _ body) as [e|[turn [|]]]; unfold awaiting; sess.
    + split; [by exists []|done].
    + split; [exists [turn]; by rewrite <- app_assoc|done].
    + split; [exists [turn]; by rewrite <- app_assoc|done].
  - unfold awaiting; sess. split; [by exists []|done].
Qed.

Lemma typed_text_takes_precedence_witness :
  let env := sample_env (mkResponse 200 answer_body) in
  let a := with_session (insert "active_suggestion" (PStr "Top weapons?"))
             (mkApp (session_state chatting_app) ∅ [] [] [] typing_widgets) in
  session_state (handle_user_inputs env a).2 !! "active_suggestion"
  = Some (PStr "Top weapons?").
Proof.
  intros env a.
  refine (proj2 (typed_text_takes_precedence env "hola" (PStr "Top weapons?") a
                   [new_user_message (PStr BOOTSTRAP_PROMPT);
                    analyst_reply (PList []) (PStr "req-0")]
                   sample_model eq_refl _ eq_refl eq_refl eq_refl)).
  discriminate.
Defined.

(** X16 — A pending suggestion is taken up when nothing (or the empty text)
    is typed, and it is cleared before it is processed: whatever the reply,
    also when processing fails, its user turn is stored and no suggestion is
    pending afterwards, so it is not sent a second time. *)
Theorem pending_suggestion_is_consumed (env : environment) (suggestion : pyval)
    (a : appstate) (msgs : list pyval) (model : pyval) :
  chat_input_value (widgets a) = None ∨ chat_input_value (widgets a) = Some "" →
  session_state a !! "active_suggestion" = Some suggestion →
  is_None suggestion = false →
  session_state a !! "messages" = Some (PList msgs) →
  session_state a !! "selected_semantic_model_path" = Some model →
  let result := handle_user_inputs env a in
  (∃ more,
     session_state result.2 !! "messages"
     = Some (PList (msgs ++ new_user_message suggestion :: more))) ∧
  session_state result.2 !! "active_suggestion" = Some PNone ∧
  result.1 ≠ Done tt.
Proof.
  intros Htext Hactive Hsome Hm Hs result. subst result.
  assert (Hrun : handle_user_inputs env a
                 = process_user_input env suggestion
                     (with_session (insert "active_suggestion" PNone)
                        (with_screen (λ evs, evs ++ [ChatInput "¿Cual es tu pregunta?"])
                           a))).
  { destruct Htext as [Htext|Htext];
      [by apply handle_user_inputs_suggestion|].
    unfold handle_user_inputs, st_chat_input.
    rewrite bind_run, bind_run. cbn [emit].
    rewrite bind_run. cbn [read_widgets widgets with_screen mret M_ret].
    rewrite Htext. cbn [from_option truthy String.eqb negb].
    rewrite bind_run. unfold get_attr at 1. sess. rewrite Hactive, Hsome.
    cbn [negb]. rewrite bind_run. unfold get_attr at 1. sess. rewrite Hactive.
    rewrite bind_run. reflexivity. }
  rewrite Hrun.
  set (a1 := with_session _ _).
  assert (Hm1 : session_state a1 !! "messages" = Some (PList msgs))
    by (unfold a1; sess; exact Hm).
  assert (Hs1 : session_state a1 !! "selected_semantic_model_path" = Some model)
    by (unfold a1; sess; exact Hs).
  split; [|split; [|apply process_user_input_ends_run]].
  - rewrite (process_user_input_run env _ _ msgs model Hm1 Hs1).
    destruct (json_loads env _) as [body|].
    + destruct (interpret_reply env _ body) as [e|[turn [|]]]; unfold awaiting; sess;
        first [ by exists [] | exists [turn]; by rewrite <- app_assoc ].
    + unfold awaiting; sess. by exists [].
  - rewrite (process_user_input_run env _ _ msgs model Hm1 Hs1).
    destruct (json_loads env _) as [body|].
    + destruct (interpret_reply env _ body) as [e|[turn [|]]]; unfold awaiting, a1; sess;
        reflexivity.
    + unfold awaiting, a1; sess. reflexivity.
Qed.

Lemma pending_suggestion_is_consumed_witness :
  let env := sample_env (mkResponse 502 gateway_page) in
  let a := with_session (insert "active_suggestion" (PStr "Top weapons?")) chatting_app in
  (handle_user_inputs env a).1 = Raised JSONDecodeError ∧
  session_state (handle_user_inputs env a).2 !! "active_suggestion" = Some PNone.
Proof.
  intros env a. split; [reflexivity|].
  exact (proj1 (proj2 (pending_suggestion_is_consumed env (PStr "Top weapons?") a
                         [new_user_message (PStr BOOTSTRAP_PROMPT);
                          analyst_reply (PList []) (PStr "req-0")]
                         sample_model (or_introl eq_refl) eq_refl eq_refl eq_refl
                         eq_refl))).
Defined.

Lemma with_screen_nil (a : appstate) : with_screen (λ evs, evs ++ []) a = a.
Proof. destruct a. unfold with_screen. cbn. by rewrite app_nil_r. Qed.

Lemma with_screen_app (xs ys : list ui_event) (a : appstate) :
  with_screen (λ evs, evs ++ ys) (with_screen (λ evs, evs ++ xs) a)
  = with_screen (λ evs, evs ++ (xs ++ ys)) a.
Proof. unfold with_screen. cbn. by rewrite app_assoc. Qed.

Lemma text_blocks_run (env : environment) (blocks texts : list pyval) (idx : Z)
    (a : appstate) :
  Forall2 is_text_block blocks texts →
  display_message env (PList blocks) idx a
  = (Done tt, with_screen (λ evs, evs ++ map Markdown texts) a).
Proof.
  intros Hblocks. unfold display_message. rewrite bind_run.
  cbn [lift iter_items mret M_ret].
  revert a. induction Hblocks as [|block text blocks texts [Htype Htext] _ IH];
    intros a; cbn [for_each map].
  - by rewrite with_screen_nil.
  - rewrite bind_run, bind_run, Htype. cbn [lift mret M_ret eq_str String.eqb
                                           Ascii.eqb Bool.eqb].
    rewrite bind_run, Htext. cbn [lift mret M_ret st_markdown emit].
    rewrite IH, with_screen_app. reflexivity.
Qed.

(** X17 — A history of turns made of text blocks is drawn turn by turn in
    the order of the history: for each turn its chat-message container,
    then its texts in order; nothing else is drawn and nothing but the page
    changes. *)
Theorem text_history_is_drawn_in_order (env : environment) (a : appstate)
    (turns : list pyval) (shown : list (pyval * list pyval)) :
  session_state a !! "messages" = Some (PList turns) →
  Forall2 is_text_turn turns shown →
  display_conversation env a
  = (Done tt, with_screen (λ evs, evs ++ concat (map drawn_turn shown)) a).
Proof.
  intros Hm Hturns. unfold display_conversation.
  rewrite (bind_done _ _ _ _ _ (get_attr_run _ _ _ Hm)).
  rewrite bind_run. cbn [lift iter_items mret M_ret].
  unfold for_enumerate. generalize 0%Z. clear Hm. revert a.
  induction Hturns as [|turn [role texts] turns shown [Hrole (blocks & Hcontent & Hblocks)]
                         _ IH]; intros a i; cbn [for_enumerate_from map concat].
  - by rewrite with_screen_nil.
  - cbn [fst snd] in *.
    rewrite bind_run, bind_run, Hrole. cbn [lift mret M_ret].
    rewrite bind_run, Hcontent. cbn [lift mret M_ret].
    rewrite bind_run. cbn [st_chat_message emit].
    rewrite (text_blocks_run env blocks texts i _ Hblocks).
    rewrite IH, !with_screen_app. reflexivity.
Qed.

Lemma text_history_is_drawn_in_order_witness :
  let env := sample_env (mkResponse 200 answer_body) in
  let a := (process_user_input env (PStr "hola") chatting_app).2 in
  screen (display_conversation env a).2
  = screen a ++ [ChatMessage (PStr "user"); Markdown (PStr BOOTSTRAP_PROMPT);
                 ChatMessage (PStr "analyst");
                 ChatMessage (PStr "user"); Markdown (PStr "hola");
                 ChatMessage (PStr "analyst"); Markdown (PStr "Ask about weapons")].
Proof.
  intros env a.
  assert (Hblock : ∀ text, is_text_block (PDict [("type", PStr "text"); ("text", text)])
                                         text) by (intros text; by split).
  rewrite (text_history_is_drawn_in_order env a
             [new_user_message (PStr BOOTSTRAP_PROMPT);
              analyst_reply (PList []) (PStr "req-0");
              new_user_message (PStr "hola");
              analyst_reply (PList [PDict [("type", PStr "text");
                                           ("text", PStr "Ask about weapons")]])
                            (PStr "req-1")]
             [(PStr "user", [PStr BOOTSTRAP_PROMPT]); (PStr "analyst", []);
              (PStr "user", [PStr "hola"]);
              (PStr "analyst", [PStr "Ask about weapons"])]
             eq_refl).
  - reflexivity.
  - repeat first [ apply Forall2_nil_2 | apply Forall2_cons_2 ];
      (split; [reflexivity|]); eexists; (split; [reflexivity|]);
      repeat first [ apply Forall2_nil_2 | apply Forall2_cons_2 ]; apply Hblock.
Defined.

(** ** Suggestions *)

Lemma suggestion_key_inj (idx j k : Z) :
  suggestion_key idx j = suggestion_key idx k → j = k.
Proof.
  unfold suggestion_key. intros H.
  do 3 apply (inj (String.app _)) in H. by apply (inj pretty).
Qed.

Lemma suggestion_loop_none (idx i : Z) (suggestions : list pyval) (a : appstate) :
  (∀ j, (i ≤ j)%Z → button_clicked (widgets a) (suggestion_key idx j) = false) →
  for_enumerate_from i suggestions (λ (suggestion_index : Z) suggestion,
    clicked ← st_button suggestion
                ("suggestion_" +:+ pretty idx +:+ "_" +:+ pretty suggestion_index);
    if (clicked : bool) then set_attr "active_suggestion" suggestion else pass) a
  = (Done tt, with_screen (λ evs, evs ++ suggestion_buttons idx i suggestions) a).
Proof.
  revert i a. induction suggestions as [|s rest IH]; intros i a Hnone;
    cbn [for_enumerate_from suggestion_buttons].
  - by rewrite with_screen_nil.
  - rewrite bind_run, suggestion_button_run.
    fold (suggestion_key idx i). rewrite (Hnone i) by lia.
    rewrite IH by (intros j Hj; apply Hnone; lia).
    by rewrite with_screen_app.
Qed.

Lemma suggestion_loop_single (idx i : Z) (suggestions : list pyval) (k : nat)
    (s : pyval) (a : appstate) :
  suggestions !! k = Some s →
  (∀ j, button_clicked (widgets a) (suggestion_key idx j)
        = bool_decide (j = (i + Z.of_nat k)%Z)) →
  for_enumerate_from i suggestions (λ (suggestion_index : Z) suggestion,
    clicked ← st_button suggestion
                ("suggestion_" +:+ pretty idx +:+ "_" +:+ pretty suggestion_index);
    if (clicked : bool) then set_attr "active_suggestion" suggestion else pass) a
  = (Done tt,
     with_session (insert "active_suggestion" s)
       (with_screen (λ evs, evs ++ suggestion_buttons idx i suggestions) a)).
Proof.
  revert i k a. induction suggestions as [|s0 rest IH]; intros i k a Hk Hclick;
    [done|]. cbn [for_enumerate_from suggestion_buttons].
  rewrite bind_run, suggestion_button_run. fold (suggestion_key idx i).
  rewrite Hclick. destruct k as [|k].
  - injection Hk as ->. rewrite bool_decide_eq_true_2 by lia.
    rewrite suggestion_loop_none.
    + unfold with_session, with_screen. cbn. by rewrite <- app_assoc.
    + intros j Hj. cbn [widgets with_session with_screen]. rewrite Hclick.
      apply bool_decide_eq_false_2. lia.
  - rewrite bool_decide_eq_false_2 by lia.
    rewrite (IH (i + 1)%Z k _ Hk).
    + by rewrite with_screen_app.
    + intros j. cbn [widgets with_screen]. rewrite Hclick.
      apply bool_decide_ext. lia.
Qed.

(** X18 — When the button of suggestion [k] of a suggestions block is the one
    clicked, drawing the block shows one button per suggestion, keyed by
    message index and position, and records exactly that suggestion as the
    pending one. *)
Theorem clicked_suggestion_is_recorded (env : environment) (suggestions : list pyval)
    (idx : Z) (k : nat) (s : pyval) (a : appstate) :
  suggestions !! k = Some s →
  (∀ key, button_clicked (widgets a) key
          = String.eqb key (suggestion_key idx (Z.of_nat k))) →
  display_message env (PList [suggestions_block suggestions]) idx a
  = (Done tt,
     with_session (insert "active_suggestion" s)
       (with_screen (λ evs, evs ++ suggestion_buttons idx 0 suggestions) a)).
Proof.
  intros Hk Hclick. unfold display_message, suggestions_block. rewrite bind_run.
  cbn [lift iter_items mret M_ret for_each].
  rewrite bind_run, bind_run.
  cbn [lift getitem dict_lookup String.eqb Ascii.eqb Bool.eqb mret M_ret eq_str].
  rewrite bind_run. cbn [lift mret M_ret]. rewrite bind_run.
  cbn [lift iter_items mret M_ret]. unfold for_enumerate.
  rewrite (suggestion_loop_single idx 0 suggestions k s a Hk); [reflexivity|].
  intros j. rewrite Hclick. rewrite Z.add_0_l.
  destruct (String.eqb_spec (suggestion_key idx j) (suggestion_key idx (Z.of_nat k)))
    as [Heq|Hne].
  - apply suggestion_key_inj in Heq. by rewrite bool_decide_eq_true_2.
  - rewrite bool_decide_eq_false_2; [done|]. by intros ->.
Qed.

Lemma clicked_suggestion_is_recorded_witness :
  let env := sample_env (mkResponse 200 answer_body) in
  let a := mkApp (session_state analysed_app) ∅ [] [] [] clicking_widgets in
  display_message env
    (PList [suggestions_block [PStr "Top weapons?"; PStr "Average damage?"]]) 1 a
  = (Done tt,
     with_session (insert "active_suggestion" (PStr "Average damage?"))
       (with_screen (λ evs, evs ++ [Button (PStr "Top weapons?") "suggestion_1_0";
                                     Button (PStr "Average damage?") "suggestion_1_1"])
          a)).
Proof.
  intros env a.
  exact (clicked_suggestion_is_recorded env
           [PStr "Top weapons?"; PStr "Average damage?"] 1 1 (PStr "Average damage?") a
           eq_refl (λ key, eq_refl)).
Defined.

Lemma sql_frame_state (sql : string) (a : appstate) :
  with_screen (λ evs, evs ++ [Spinner "Corriendo consulta SQL..."])
    (with_screen (λ evs, evs ++ [Expander "Resultados" true])
       (with_screen (λ evs, evs ++ [Code sql "sql"])
          (with_screen (λ evs, evs ++ [Expander "SQL Query" false]) a)))
  = with_screen (λ evs, evs ++ SQL_FRAME sql) a.
Proof. by rewrite !with_screen_app. Qed.

Lemma get_query_exec_result_drawn (env : environment) (query : string)
    (drawn : list ui_event) (a : appstate) :
  get_query_exec_result env query (with_screen (λ evs, evs ++ drawn) a)
  = ((get_query_exec_result env query a).1,
     with_screen (λ evs, evs ++ drawn) (get_query_exec_result env query a).2).
Proof.
  unfold get_query_exec_result, st_cache_data, run_query.
  cbn [cache_data sql_log with_screen].
  destruct (cache_data a !! query); [reflexivity|].
  by destruct (session_sql env (length (sql_log a)) query).
Qed.

(** X19 — A statement the warehouse rejects with a SQL exception: the error
    box with the exception's text is shown under the statement, and the
    failure is stored like a result, so drawing the statement again shows
    the same error without asking the warehouse again. *)
Theorem sql_error_is_shown_and_kept (env : environment) (sql text : string)
    (idx idx' : Z) (a : appstate) :
  cache_data a !! sql = None →
  session_sql env (length (sql_log a)) sql = SqlException text →
  let notice := ErrorBox ("Could not execute generated SQL query. Error: " +:+ text) in
  let shown := display_sql_query env sql idx a in
  let again := display_sql_query env sql idx' shown.2 in
  shown.1 = Done tt ∧
  screen shown.2 = screen a ++ SQL_FRAME sql ++ [notice] ∧
  sql_log shown.2 = sql_log a ++ [sql] ∧
  again.1 = Done tt ∧
  screen again.2 = screen shown.2 ++ SQL_FRAME sql ++ [notice] ∧
  sql_log again.2 = sql_log shown.2.
Proof.
  intros Hmiss Hsql notice shown again.
  assert (Hshown : shown
                   = (Done tt,
                      with_screen (λ evs, evs ++ [notice])
                        (with_screen (λ evs, evs ++ SQL_FRAME sql)
                           (with_cache (insert sql (None, Some text))
                              (with_sql_log (λ l, l ++ [sql]) a))))).
  { subst shown. rewrite display_sql_query_run. cbv zeta.
    rewrite sql_frame_state, get_query_exec_result_drawn.
    unfold get_query_exec_result, st_cache_data, run_query. rewrite Hmiss, Hsql.
    reflexivity. }
  subst again. rewrite Hshown. cbn [fst snd].
  rewrite display_sql_query_run. cbv zeta.
  rewrite sql_frame_state, get_query_exec_result_drawn.
  rewrite (get_query_exec_result_hit env sql (None, Some text))
    by (sess; reflexivity).
  sess. rewrite <- !app_assoc. by repeat split.
Qed.

Lemma sql_error_is_shown_and_kept_witness :
  let env := sample_env (mkResponse 200 answer_body) in
  let shown := display_sql_query env "SELEC 1" 1 chatting_app in
  screen shown.2
  = SQL_FRAME "SELEC 1"
    ++ [ErrorBox "Could not execute generated SQL query. Error: SQL compilation error"] ∧
  sql_log (display_sql_query env "SELEC 1" 1 shown.2).2 = ["SELEC 1"].
Proof.
  intros env shown.
  destruct (sql_error_is_shown_and_kept env "SELEC 1" "SQL compilation error" 1 1
              chatting_app eq_refl eq_refl)
    as (_ & Hscreen & Hlog & _ & _ & Hagain).
  split; [exact Hscreen|]. fold shown in Hagain, Hlog. by rewrite Hagain, Hlog.
Defined.

Lemma get_query_exec_result_miss (env : environment) (query : string) (a : appstate) :
  cache_data a !! query = None →
  sql_log (get_query_exec_result env query a).2 = sql_log a ++ [query].
Proof.
  intros Hmiss. unfold get_query_exec_result, st_cache_data, run_query.
  rewrite Hmiss. by destruct (session_sql env (length (sql_log a)) query).
Qed.

(** Drawing a statement asks the warehouse through [get_query_exec_result]
    only. *)
Lemma display_sql_query_sql_log (env : environment) (sql : string) (idx : Z)
    (a : appstate) :
  sql_log (display_sql_query env sql idx a).2
  = sql_log (get_query_exec_result env sql a).2.
Proof.
  rewrite display_sql_query_run. cbv zeta.
  rewrite sql_frame_state, get_query_exec_result_drawn.
  destruct (get_query_exec_result env sql a) as [[[[df|] err]| |] a'];
    cbn [fst snd]; try reflexivity.
  destruct (df_empty df); [reflexivity|].
  assert (Hcharts : stable (λ x y, sql_log y = sql_log x) (display_charts_tab env df idx))
    by (apply stable_display_charts_tab;
        first [ done | intros x y z Hxy Hyz; by rewrite Hyz ]).
  by rewrite Hcharts.
Qed.

(** X20 — A failure of the warehouse that is not a SQL exception ends the
    drawing with that exception, before any result or error box is drawn; it
    is not stored, so the next drawing sends the statement again. *)
Theorem other_failure_is_not_kept (env : environment) (sql : string) (e : exn)
    (idx idx' : Z) (a : appstate) :
  cache_data a !! sql = None →
  session_sql env (length (sql_log a)) sql = SqlOtherFailure e →
  let shown := display_sql_query env sql idx a in
  let again := display_sql_query env sql idx' shown.2 in
  shown.1 = Raised e ∧
  screen shown.2 = screen a ++ SQL_FRAME sql ∧
  cache_data shown.2 = cache_data a ∧
  sql_log shown.2 = sql_log a ++ [sql] ∧
  sql_log again.2 = sql_log a ++ [sql; sql].
Proof.
  intros Hmiss Hsql shown again.
  assert (Hshown : shown
                   = (Raised e,
                      with_screen (λ evs, evs ++ SQL_FRAME sql)
                        (with_sql_log (λ l, l ++ [sql]) a))).
  { subst shown. rewrite display_sql_query_run. cbv zeta.
    rewrite sql_frame_state, get_query_exec_result_drawn.
    unfold get_query_exec_result, st_cache_data, run_query. rewrite Hmiss, Hsql.
    reflexivity. }
  subst again. rewrite display_sql_query_sql_log, Hshown. cbn [fst snd].
  rewrite get_query_exec_result_miss by exact Hmiss.
  sess. rewrite <- app_assoc. by repeat split.
Qed.

Lemma other_failure_is_not_kept_witness :
  let shown := display_sql_query broken_env "SELECT 1" 1 chatting_app in
  shown.1 = Raised (ExternalError "connection lost") ∧
  cache_data shown.2 = ∅ ∧
  sql_log (display_sql_query broken_env "SELECT 1" 1 shown.2).2
  = ["SELECT 1"; "SELECT 1"].
Proof.
  intros shown.
  destruct (other_failure_is_not_kept broken_env "SELECT 1"
              (ExternalError "connection lost") 1 1 chatting_app eq_refl eq_refl)
    as (Hrun & _ & Hcache & _ & _).
  split; [exact Hrun|]. split; [exact Hcache|]. reflexivity.
Defined.

(** X21 — A result without rows, or without columns, is answered by the
    notice that the query returned no data: neither the table nor the chart
    tab is drawn, whether the result comes from the warehouse or from the
    store. *)
Theorem empty_result_shows_notice (env : environment) (sql : string) (idx : Z)
    (a : appstate) (df : DataFrame) (err : option string) :
  (get_query_exec_result env sql a).1 = Done (Some df, err) →
  rows df = [] ∨ columns df = [] →
  let shown := display_sql_query env sql idx a in
  shown.1 = Done tt ∧
  screen shown.2 = screen a ++ SQL_FRAME sql ++ [Write "Query returned no data"].
Proof.
  intros Hresult Hempty shown. subst shown.
  assert (Hdf : df_empty df = true).
  { unfold df_empty. destruct Hempty as [-> | ->]; cbn [length Nat.eqb];
      by rewrite ?orb_true_r. }
  rewrite display_sql_query_run. cbv zeta.
  rewrite sql_frame_state, get_query_exec_result_drawn.
  destruct (get_query_exec_result_quiet env sql a) as (_ & _ & Hscreen).
  destruct (get_query_exec_result env sql a) as [[r| |] a']; try done.
  cbn [fst snd] in *. injection Hresult as ->. rewrite Hdf.
  sess. rewrite Hscreen. by rewrite <- app_assoc.
Qed.

Lemma empty_result_shows_notice_witness :
  screen (display_sql_query no_rows_env "SELECT 1" 1 chatting_app).2
  = SQL_FRAME "SELECT 1" ++ [Write "Query returned no data"].
Proof.
  exact (proj2 (empty_result_shows_notice no_rows_env "SELECT 1" 1 chatting_app
                  (mkDataFrame ["WEAPON"; "DAMAGE"] []) None eq_refl
                  (or_introl eq_refl))).
Defined.

Lemma display_charts_tab_run (env : environment) (df : DataFrame) (idx : Z)
    (a : appstate) :
  2 ≤ length (columns df) →
  let w := widgets a in
  let all_cols : gset string := list_to_set (columns df) in
  let x_options := elements all_cols in
  let x_col := selectbox_value w ("x_col_select_" +:+ pretty idx) x_options in
  let y_options := elements (all_cols ∖ chosen x_col) in
  let y_col := selectbox_value w ("y_col_select_" +:+ pretty idx) y_options in
  let types := [LINE_CHART_OPTION; BAR_CHART_OPTION] in
  let chart_type := selectbox_value w ("chart_type_" +:+ pretty idx) types in
  let a1 := with_screen
              (λ evs, evs ++ [Selectbox "Eje X" x_options ("x_col_select_" +:+ pretty idx);
                              Selectbox "Eje Y" y_options ("y_col_select_" +:+ pretty idx);
                              Selectbox "Select chart type" types
                                        ("chart_type_" +:+ pretty idx)]) a in
  display_charts_tab env df idx a
  = if bool_decide (chart_type = Some LINE_CHART_OPTION) then
      match set_index_getitem env df x_col y_col with
      | Some e => (Raised e, a1)
      | None => (Done tt, with_screen (λ evs, evs ++ [LineChart df x_col y_col]) a1)
      end
    else if bool_decide (chart_type = Some BAR_CHART_OPTION) then
      match set_index_getitem env df x_col y_col with
      | Some e => (Raised e, a1)
      | None => (Done tt, with_screen (λ evs, evs ++ [BarChart df x_col y_col]) a1)
      end
    else (Done tt, a1).
Proof.
  intros Hge w all_cols x_options x_col y_options y_col types chart_type a1.
  unfold display_charts_tab.
  destruct (Nat.leb_spec 2 (length (columns df))) as [_|Hlt]; [|lia].
  unfold st_selectbox, st_line_chart, st_bar_chart.
  do 3 (rewrite bind_run, bind_run; cbn [emit]; rewrite bind_run;
        cbn [read_widgets widgets with_screen mret M_ret]).
  fold w. fold all_cols. fold x_options. fold x_col. fold y_options. fold y_col.
  fold types. fold chart_type.
  rewrite !with_screen_app. cbn [List.app]. fold a1.
  destruct (bool_decide (chart_type = Some LINE_CHART_OPTION)).
  { by destruct (set_index_getitem env df x_col y_col). }
  destruct (bool_decide (chart_type = Some BAR_CHART_OPTION)); [|reflexivity].
  by destruct (set_index_getitem env df x_col y_col).
Qed.

(** X22 — When the select boxes hand back one of the options they were given,
    the column names are distinct and there are at least two of them, and
    pandas accepts the selection, the chart tab ends by drawing one chart,
    a line chart or a bar chart, whose X and Y are two different columns
    of the table. *)
Theorem chart_axes_are_two_columns (env : environment) (df : DataFrame) (idx : Z)
    (a : appstate) :
  selects_offered (widgets a) →
  NoDup (columns df) →
  2 ≤ length (columns df) →
  (∀ x y, set_index_getitem env df x y = None) →
  let shown := display_charts_tab env df idx a in
  shown.1 = Done tt ∧
  ∃ x y,
    x ∈ columns df ∧ y ∈ columns df ∧ x ≠ y ∧
    (last (screen shown.2) = Some (LineChart df (Some x) (Some y)) ∨
     last (screen shown.2) = Some (BarChart df (Some x) (Some y))).
Proof.
  intros Hoffer Hnodup Hge Hpandas shown. subst shown.
  rewrite (display_charts_tab_run env df idx a Hge). cbv zeta.
  set (all_cols := list_to_set (columns df) : gset string).
  set (x_key := "x_col_select_" +:+ pretty idx).
  set (y_key := "y_col_select_" +:+ pretty idx).
  set (t_key := "chart_type_" +:+ pretty idx).
  destruct (columns df) as [|c1 [|c2 cols]] eqn:Hcols; cbn [length] in Hge; try lia.
  assert (Hc12 : c1 ≠ c2).
  { apply NoDup_cons in Hnodup as [Hnot _]. intros ->. apply Hnot. by left. }
  pose proof (Hoffer x_key (elements all_cols)) as Hx.
  destruct (selectbox_value (widgets a) x_key (elements all_cols)) as [x|] eqn:Ex.
  2: { assert (Hin : c1 ∈ elements all_cols)
         by (apply elem_of_elements, elem_of_list_to_set; by left).
       rewrite Hx in Hin. by apply not_elem_of_nil in Hin. }
  apply elem_of_elements, elem_of_list_to_set in Hx.
  cbn [chosen].
  pose proof (Hoffer y_key (elements (all_cols ∖ {[x]}))) as Hy.
  destruct (selectbox_value (widgets a) y_key (elements (all_cols ∖ {[x]})))
    as [y|] eqn:Ey.
  2: { assert (Hin : ∃ c, c ∈ elements (all_cols ∖ {[x]})).
       { destruct (decide (x = c1)) as [->|Hne].
         - exists c2. apply elem_of_elements, elem_of_difference. split.
           + apply elem_of_list_to_set. right. by left.
           + rewrite elem_of_singleton. by intros ->.
         - exists c1. apply elem_of_elements, elem_of_difference. split.
           + apply elem_of_list_to_set. by left.
           + rewrite elem_of_singleton. by intros ->. }
       destruct Hin as [c Hin]. rewrite Hy in Hin. by apply not_elem_of_nil in Hin. }
  apply elem_of_elements, elem_of_difference in Hy as [Hy Hyx].
  apply elem_of_list_to_set in Hy. rewrite elem_of_singleton in Hyx.
  pose proof (Hoffer t_key [LINE_CHART_OPTION; BAR_CHART_OPTION]) as Ht.
  rewrite !Hpandas.
  destruct (selectbox_value (widgets a) t_key _) as [t|]; [|done].
  assert (Hxy : x ≠ y) by (by intros ->).
  apply elem_of_cons in Ht as [->|Ht].
  - rewrite bool_decide_eq_true_2 by done.
    split; [done|]. exists x, y. do 3 (split; [done|]). left.
    cbn [snd screen with_screen]. apply last_snoc.
  - apply list_elem_of_singleton in Ht as ->.
    rewrite bool_decide_eq_false_2 by (by intros [=]).
    rewrite bool_decide_eq_true_2 by done.
    split; [done|]. exists x, y. do 3 (split; [done|]). right.
    cbn [snd screen with_screen]. apply last_snoc.
Qed.

Lemma chart_axes_are_two_columns_witness :
  let env := sample_env (mkResponse 200 answer_body) in
  (display_charts_tab env sample_table 1 chatting_app).1 = Done tt.
Proof.
  intros env.
  refine (proj1 (chart_axes_are_two_columns env sample_table 1 chatting_app
                   _ _ (le_n 2) (λ _ _, eq_refl))).
  - intros key [|option options]; cbn; [reflexivity | by left].
  - apply NoDup_cons. split; [|apply NoDup_singleton].
    intros Hin. apply list_elem_of_singleton in Hin. discriminate.
Defined.

(** X23 — The test on the number of columns counts duplicates, the option
    sets do not: for a table whose columns all carry one name, however many
    there are, the X selector offers that single name and the Y selector is
    offered no option at all. *)
Theorem repeated_column_leaves_no_y_option (env : environment) (df : DataFrame)
    (idx : Z) (a : appstate) (c : string) :
  selects_offered (widgets a) →
  2 ≤ length (columns df) →
  (∀ c', c' ∈ columns df → c' = c) →
  ∃ rest,
    screen (display_charts_tab env df idx a).2
    = screen a ++ Selectbox "Eje X" [c] ("x_col_select_" +:+ pretty idx)
               :: Selectbox "Eje Y" [] ("y_col_select_" +:+ pretty idx)
               :: rest.
Proof.
  intros Hoffer Hge Hsame.
  rewrite (display_charts_tab_run env df idx a Hge). cbv zeta.
  assert (Hall : (list_to_set (columns df) : gset string) = {[ c ]}).
  { apply set_eq. intros c'. rewrite elem_of_list_to_set, elem_of_singleton.
    split; [apply Hsame|]. intros ->.
    destruct (columns df) as [|c0 cols]; [cbn [length] in Hge; lia|].
    rewrite (Hsame c0) by (by left). by left. }
  rewrite Hall, elements_singleton.
  pose proof (Hoffer ("x_col_select_" +:+ pretty idx) [c]) as Hx.
  destruct (selectbox_value (widgets a) _ [c]) as [x|]; [|done].
  apply list_elem_of_singleton in Hx as ->. cbn [chosen].
  rewrite difference_diag_L.
  rewrite elements_empty.
  repeat match goal with
         | |- context [bool_decide ?P] => destruct (bool_decide P)
         | |- context [set_index_getitem ?e ?d ?x ?y] =>
             destruct (set_index_getitem e d x y)
         end; cbn [snd screen with_screen]; rewrite <- ?app_assoc; cbn [List.app];
    by eexists.
Qed.

Lemma repeated_column_leaves_no_y_option_witness :
  let env := sample_env (mkResponse 200 answer_body) in
  let df := mkDataFrame ["N"; "N"] [[PInt 1; PInt 2]] in
  ∃ rest,
    screen (display_charts_tab env df 1 chatting_app).2
    = Selectbox "Eje X" ["N"] "x_col_select_1"
      :: Selectbox "Eje Y" [] "y_col_select_1" :: rest.
Proof.
  intros env df.
  refine (repeated_column_leaves_no_y_option env df 1 chatting_app "N" _ (le_n 2) _).
  - intros key [|option options]; cbn; [reflexivity | by left].
  - intros c' Hin. apply elem_of_cons in Hin as [->|Hin]; [done|].
    by apply list_elem_of_singleton in Hin.
Defined.
